(** * ProGrader: the template store, the document extractor and the two
      suggestion strategies of [main.py], embedded in Rocq.

    Modelling conventions.
    - A Python [str] is a [string]; each character stands for one code point
      below 256.  The values that [json] writes to and reads from a template
      file are the exception: there a [str] is the list of its code points,
      up to 0x10FFFF ([ustr]).
    - A Python exception is a constructor of [exn]; a call that may raise
      returns an [outcome].
    - Code that reads or changes the process state (the random generator, the
      network, the file system) is a function in the monad [M] of the state it
      touches.
    - A [dict] keeps its keys in insertion order, as Python's does.
    - The file system is the one of a POSIX host without symbolic links: its
      regular files and its directories under their absolute paths, and the
      working directory.  A path is resolved name by name; every file can be
      read and written by the process.  The content of a file is its text. *)

From Stdlib Require Import ZArith String Ascii List Lia DecimalString.
From stdpp Require Import base option list gmap strings.

#[local] Arguments String.append : simpl nomatch.
#[local] Set Warnings "-register-all,-clear-no-such-hyp".
#[local] Open Scope Z_scope.

(** ** Exceptions and outcomes *)

Inductive exn : Type :=
| IndexError
| KeyError (key : string)
| TypeError
| AttributeError
| ValueError (detail : string)
| FileNotFoundError (path : string)
| NotADirectoryError (path : string)
| IsADirectoryError (path : string)
| FileExistsError (path : string)
| OSError (errno : Z) (path : string)
| JSONDecodeError
| RequestException (detail : string)
| OtherError (detail : string).

Inductive outcome (A : Type) : Type :=
| Returned (a : A)
| Raised (e : exn).
Arguments Returned {A} a.
Arguments Raised {A} e.

Definition obind {A B} (o : outcome A) (k : A -> outcome B) : outcome B :=
  match o with
  | Returned a => k a
  | Raised e => Raised e
  end.

Notation "'let?' x ':=' o 'in' k" := (obind o (fun x => k))
  (at level 10, x name, o at level 100, k at level 200).

(** The state-and-exception monad: a computation takes the state, and gives
    back its outcome together with the state it leaves behind.  The state
    survives an exception. *)
Definition M (S A : Type) : Type := S -> outcome A * S.

Definition ret {S A} (a : A) : M S A := fun s => (Returned a, s).
Definition raise {S A} (e : exn) : M S A := fun s => (Raised e, s).
Definition lift {S A} (o : outcome A) : M S A := fun s => (o, s).
Definition bind {S A B} (m : M S A) (k : A -> M S B) : M S B :=
  fun s =>
    match m s with
    | (Returned a, s') => k a s'
    | (Raised e, s') => (Raised e, s')
    end.

Notation "'let!' x ':=' m 'in' k" := (bind m (fun x => k))
  (at level 10, x name, m at level 100, k at level 200).

(** [for q in xs: acc = body(q, acc)] *)
Fixpoint for_each {S A B} (xs : list A) (body : A -> B -> M S B) (acc : B)
  : M S B :=
  match xs with
  | [] => ret acc
  | x :: rest => let! acc' := body x acc in for_each rest body acc'
  end.

(** ** Strings *)

Definition nl : string := String "010" "".
Definition dquote : ascii := "034"%char.
Definition backslash : ascii := "092"%char.

(** [str(n)] for an [int]. *)
Definition str_of_int (z : Z) : string := NilZero.string_of_int (Z.to_int z).

(** [sep.join(xs)] *)
Fixpoint str_join (sep : string) (xs : list string) : string :=
  match xs with
  | [] => ""
  | [x] => x
  | x :: rest => x +:+ sep +:+ str_join sep rest
  end.

(** [c.isspace()] on the code points below 256. *)
Definition py_isspace (c : ascii) : bool :=
  match c with
  | "009" | "010" | "011" | "012" | "013"
  | "028" | "029" | "030" | "031" | " " | "133" | "160" => true
  | _ => false
  end%char.

Fixpoint lstrip (s : string) : string :=
  match s with
  | "" => ""
  | String c s' => if py_isspace c then lstrip s' else s
  end.

Fixpoint rstrip (s : string) : string :=
  match s with
  | "" => ""
  | String c s' =>
      match rstrip s' with
      | "" => if py_isspace c then "" else String c ""
      | r => String c r
      end
  end.

(** [s.strip()] *)
Definition strip (s : string) : string := lstrip (rstrip s).

(** [s.endswith(suffix)] *)
Fixpoint endswith (s suffix : string) : bool :=
  if String.eqb s suffix then true
  else match s with
       | "" => false
       | String _ s' => endswith s' suffix
       end.

(** [sub in s] *)
Fixpoint str_in (sub s : string) : bool :=
  if String.prefix sub s then true
  else match s with
       | "" => false
       | String _ s' => str_in sub s'
       end.

(** [s.replace(old, new)] for a non-empty [old]: the occurrences of [old] are
    found from left to right and do not overlap.  [skip] counts the
    characters of the occurrence under the cursor that are still to be
    dropped. *)
Fixpoint replace_from (old new : string) (skip : nat) (s : string) : string :=
  match s with
  | "" => ""
  | String c s' =>
      match skip with
      | S k => replace_from old new k s'
      | O =>
          if String.prefix old s
          then new +:+ replace_from old new (Nat.pred (String.length old)) s'
          else String c (replace_from old new O s')
      end
  end.

(** With an empty [old], Python puts [new] before every character and at the
    end. *)
Fixpoint intersperse_new (new s : string) : string :=
  match s with
  | "" => new
  | String c s' => new +:+ String c (intersperse_new new s')
  end.

Definition str_replace (s old new : string) : string :=
  match old with
  | "" => intersperse_new new s
  | _ => replace_from old new O s
  end.

(** [s.split(sep)] for a separator of one character: the pieces between the
    separators, at least one piece. *)
Fixpoint str_split (sep : ascii) (s : string) : list string :=
  match s with
  | "" => [""]
  | String c s' =>
      if Ascii.eqb c sep then "" :: str_split sep s'
      else
        match str_split sep s' with
        | piece :: rest => String c piece :: rest
        | [] => [String c ""]
        end
  end.

(** [c in s] for a character. *)
Fixpoint has_char (c : ascii) (s : string) : bool :=
  match s with
  | "" => false
  | String a s' => Ascii.eqb a c || has_char c s'
  end.

(** ** Python values

    The value of a reply, as [resp.json()] gives it. *)

Inductive pyval : Type :=
| PyNone
| PyBool (b : bool)
| PyInt (z : Z)
| PyFloat (lexeme : string)
| PyStr (s : string)
| PyList (items : list pyval)
| PyDict (members : list (string * pyval)).

(** The values of a template file, as [json.dump] takes them and [json.load]
    builds them.  A [str] is the list of its code points here, each below
    0x110000; the key of a [dict] is a [str]. *)
Abbreviation ustr := (list N).

Inductive jsonval : Type :=
| JNone
| JBool (b : bool)
| JInt (z : Z)
| JFloat (lexeme : string)
| JStr (s : ustr)
| JList (items : list jsonval)
| JDict (members : list (ustr * jsonval)).

(** The code points of a [string]. *)
Fixpoint codes (s : string) : ustr :=
  match s with
  | "" => []
  | String c s' => N_of_ascii c :: codes s'
  end.

(** ** Dictionaries

    A [dict] is the list of its items in insertion order.  Assigning to a key
    that is present changes the value where the key stands; a new key goes to
    the end. *)
Abbreviation dict V := (list (string * V)).

Fixpoint dict_set {V} (k : string) (v : V) (d : dict V) : dict V :=
  match d with
  | [] => [(k, v)]
  | (k', v') :: d' =>
      if String.eqb k k' then (k, v) :: d' else (k', v') :: dict_set k v d'
  end.

Fixpoint dict_get {V} (k : string) (d : dict V) : option V :=
  match d with
  | [] => None
  | (k', v') :: d' => if String.eqb k k' then Some v' else dict_get k d'
  end.

Definition dict_keys {V} (d : dict V) : list string := map fst d.

(** [v[key]] for a [str] key, and [v[i]] for a literal index. *)
Definition py_getitem_str (v : pyval) (key : string) : outcome pyval :=
  match v with
  | PyDict members =>
      match dict_get key members with
      | Some x => Returned x
      | None => Raised (KeyError key)
      end
  | _ => Raised TypeError
  end.

Definition py_getitem_0 (v : pyval) : outcome pyval :=
  match v with
  | PyList items =>
      match items with
      | x :: _ => Returned x
      | [] => Raised IndexError
      end
  | PyStr s =>
      match s with
      | String c _ => Returned (PyStr (String c ""))
      | "" => Raised IndexError
      end
  | PyDict _ => Raised (KeyError "0")
  | _ => Raised TypeError
  end.

(** [v.strip()] *)
Definition py_strip (v : pyval) : outcome string :=
  match v with
  | PyStr s => Returned (strip s)
  | _ => Raised AttributeError
  end.

(** ** Templates *)

Record Question : Type := { question : string; options : list string }.

Abbreviation Template := (list Question).

(** A question whose texts are [str]s of any code points, and the value of
    a template of such questions: a list of
    [{"question": ..., "options": [...]}]. *)
Record WideQuestion : Type := {
  wide_question : ustr;
  wide_options : list ustr
}.

Abbreviation WideTemplate := (list WideQuestion).

Definition py_of_wide_question (q : WideQuestion) : jsonval :=
  JDict [(codes "question", JStr (wide_question q));
         (codes "options", JList (map JStr (wide_options q)))].

Definition py_of_wide_template (t : WideTemplate) : jsonval :=
  JList (map py_of_wide_question t).

Definition widen (q : Question) : WideQuestion :=
  {| wide_question := codes (question q);
     wide_options := map codes (options q) |}.

(** The Python value of a template. *)
Definition py_of_question (q : Question) : jsonval :=
  py_of_wide_question (widen q).

Definition py_of_template (t : Template) : jsonval :=
  py_of_wide_template (map widen t).

(** ** The mock strategy *)

(** The random generator: [draws] is the sequence of raw numbers it will
    produce, [used] counts the numbers taken so far. *)
Record rng : Type := { draws : nat -> nat; used : nat }.

Definition randbelow (n : nat) : M rng nat :=
  fun g =>
    (Returned (draws g (used g) mod n)%nat,
     {| draws := draws g; used := S (used g) |}).

(** [random.choice(seq)]: [IndexError] on an empty sequence, otherwise
    [seq[randbelow(len(seq))]]. *)
Definition random_choice {A} (seq : list A) : M rng A :=
  match seq with
  | [] => raise IndexError
  | x :: _ => let! i := randbelow (length seq) in ret (nth i seq x)
  end.

Definition mock_reason : string :=
  "This is a mock reason explaining why this option could be chosen.".

(** [f"Option: {choice}\nReason: {reason}"] *)
Definition format_suggestion (choice reason : string) : string :=
  "Option: " +:+ choice +:+ nl +:+ "Reason: " +:+ reason.

Definition mock_step (q : Question) (suggestions : dict string)
  : M rng (dict string) :=
  let! choice := random_choice (options q) in
  let reason := mock_reason in
  ret (dict_set (question q) (format_suggestion choice reason) suggestions).

Definition get_ai_suggestions_mock (task_template : Template)
  : M rng (dict string) :=
  let suggestions := [] in
  for_each task_template mock_step suggestions.

(** ** The remote strategy *)

Record request : Type := {
  url : string;
  authorization : string;
  content_type : string;
  model : string;
  content : string;
  temperature : Z;
  timeout : Z
}.

(** What the code looks at in a response: [resp.status_code], [resp.text]
    and the outcome of [resp.json()]. *)
Record response : Type := {
  status_code : Z;
  text : string;
  json : outcome pyval
}.

(** The world of the remote strategy.  [net n req] is what the [n]-th call
    of [requests.post] does when it sends [req]; [posted] logs the calls made
    and [st_errors] the messages shown by [st.error]. *)
Record world : Type := {
  net : nat -> request -> outcome response;
  posted : list request;
  st_errors : list string
}.

Definition requests_post (req : request) : M world response :=
  fun w =>
    (net w (length (posted w)) req,
     {| net := net w; posted := posted w ++ [req];
        st_errors := st_errors w |}).

Definition st_error (msg : string) : M world unit :=
  fun w =>
    (Returned tt,
     {| net := net w; posted := posted w;
        st_errors := st_errors w ++ [msg] |}).

(** [try: body except requests.exceptions.RequestException as e: handler]:
    no other exception is caught. *)
Definition try_except_RequestException {S A}
    (body : M S A) (handler : string -> M S A) : M S A :=
  fun s =>
    match body s with
    | (Raised (RequestException detail), s') => handler detail s'
    | r => r
    end.

(** A value is false in a condition when it is [None] or empty. *)
Definition str_truthy (s : option string) : bool :=
  match s with
  | Some (String _ _) => true
  | _ => false
  end.

Definition list_truthy {A} (l : option (list A)) : bool :=
  match l with
  | Some (_ :: _) => true
  | _ => false
  end.

Definition build_prompt (guideline_text user_text : string)
    (image_descriptions : option (list string)) (q : Question) : string :=
  str_join nl
    [ "";
      "You are a grading assistant.";
      "Guideline:";
      guideline_text;
      "";
      "User task description:";
      user_text;
      "";
      "Image descriptions:";
      (if list_truthy image_descriptions
       then str_join ", " (default [] image_descriptions)
       else "No images");
      "";
      "Please select the most appropriate answer for the following question based on the guideline and task, and briefly explain your reasoning:";
      "Question: " +:+ question q;
      "Options: " +:+ str_join ", " (options q);
      "";
      "Please return in the following format:";
      "Option: <your chosen option>";
      "Reason: <brief explanation>";
      "" ].

Definition build_request (key prompt : string) : request :=
  {| url := "https://openrouter.ai/api/v1/chat/completions";
     authorization := "Bearer " +:+ key;
     content_type := "application/json";
     model := "deepseek/deepseek-chat-v3.1:free";
     content := prompt;
     temperature := 0;
     timeout := 30 |}.

(** [resp.json()["choices"][0]["message"]["content"].strip()] *)
Definition completion_text (resp : response) : outcome string :=
  let? body := json resp in
  let? choices := py_getitem_str body "choices" in
  let? first := py_getitem_0 choices in
  let? message := py_getitem_str first "message" in
  let? reply := py_getitem_str message "content" in
  py_strip reply.

(** The [try] block of the loop: the answer for one request. *)
Definition ask (req : request) : M world string :=
  try_except_RequestException
    (let! resp := requests_post req in
     if status_code resp =? 200
     then lift (completion_text resp)
     else ret ("Error " +:+ str_of_int (status_code resp) +:+ ": "
               +:+ text resp))
    (fun e => ret ("Request Exception: " +:+ e)).

Definition openrouter_step (key guideline_text user_text : string)
    (image_descriptions : option (list string))
    (q : Question) (suggestions : dict string) : M world (dict string) :=
  let prompt := build_prompt guideline_text user_text image_descriptions q in
  let! answer := ask (build_request key prompt) in
  ret (dict_set (question q) answer suggestions).

Definition get_ai_suggestions_openrouter (DEEPSEEK_API_KEY : option string)
    (task_template : Template) (guideline_text user_text : string)
    (image_descriptions : option (list string)) : M world (dict string) :=
  let suggestions := [] in
  if negb (str_truthy DEEPSEEK_API_KEY) then
    let! _ := st_error "Please set DEEPSEEK_API_KEY in Replit Secrets!" in
    ret []
  else
    for_each task_template
      (openrouter_step (default "" DEEPSEEK_API_KEY) guideline_text user_text
         image_descriptions)
      suggestions.

(** ** [json]: the writer of [json.dump(data, f, indent=2)] and the reader of
    [json.load(f)]

    The writer escapes every character outside [' '..'~'], so its output is
    plain ASCII; a code point from 0x10000 is written as the two escapes of
    its surrogate pair.  The reader accepts the JSON grammar; a number that
    is not an integer is kept as its lexeme; the escape of a high surrogate
    directly followed by the escape of a low surrogate is read as the one
    code point of the pair. *)

Definition hex_digit (n : nat) : ascii :=
  match n with
  | 0 => "0" | 1 => "1" | 2 => "2" | 3 => "3" | 4 => "4" | 5 => "5"
  | 6 => "6" | 7 => "7" | 8 => "8" | 9 => "9" | 10 => "a" | 11 => "b"
  | 12 => "c" | 13 => "d" | 14 => "e" | _ => "f"
  end%nat%char.

(** The value of a hexadecimal digit, in either case. *)
Definition hex_value (c : ascii) : option nat :=
  let n := nat_of_ascii c in
  if ((48 <=? n) && (n <=? 57))%nat then Some (n - 48)%nat
  else if ((97 <=? n) && (n <=? 102))%nat then Some (n - 87)%nat
  else if ((65 <=? n) && (n <=? 70))%nat then Some (n - 55)%nat
  else None.

Definition is_printable (c : ascii) : bool :=
  ((32 <=? nat_of_ascii c) && (nat_of_ascii c <=? 126))%nat.

(** ['{0:04x}'.format(n)], for [n] below 0x10000. *)
Definition hex4_of (n : N) : string :=
  String (hex_digit (N.to_nat (n / 4096 mod 16)))
    (String (hex_digit (N.to_nat (n / 256 mod 16)))
       (String (hex_digit (N.to_nat (n / 16 mod 16)))
          (String (hex_digit (N.to_nat (n mod 16))) "")))%N.

Definition u_escape (n : N) : string :=
  String backslash (String "u" (hex4_of n)).

(** One character of [encode_basestring_ascii]. *)
Definition escape_char (c : N) : string :=
  (if c =? 34 then String backslash (String dquote "")
  else if c =? 92 then String backslash (String backslash "")
  else if c =? 8 then String backslash "b"
  else if c =? 12 then String backslash "f"
  else if c =? 10 then String backslash "n"
  else if c =? 13 then String backslash "r"
  else if c =? 9 then String backslash "t"
  else if (32 <=? c) && (c <=? 126) then String (ascii_of_N c) ""
  else if c <? 0x10000 then u_escape c
  else
    let n := c - 0x10000 in
    let s1 := N.lor 0xd800 (N.land (N.shiftr n 10) 0x3ff) in
    let s2 := N.lor 0xdc00 (N.land n 0x3ff) in
    u_escape s1 +:+ u_escape s2)%N.

Fixpoint escape_chars (s : ustr) : string :=
  match s with
  | [] => ""
  | c :: s' => escape_char c +:+ escape_chars s'
  end.

Definition encode_basestring_ascii (s : ustr) : string :=
  String dquote (escape_chars s +:+ String dquote "").

Fixpoint spaces (n : nat) : string :=
  match n with
  | O => ""
  | S k => String " " (spaces k)
  end.

Definition newline_indent (level : nat) : string :=
  nl +:+ spaces (2 * level).

Fixpoint json_encode (level : nat) (v : jsonval) {struct v} : string :=
  match v with
  | JNone => "null"
  | JBool true => "true"
  | JBool false => "false"
  | JInt z => str_of_int z
  | JFloat lexeme => lexeme
  | JStr s => encode_basestring_ascii s
  | JList [] => "[]"
  | JList items =>
      "[" +:+ newline_indent (S level)
      +:+ str_join ("," +:+ newline_indent (S level))
            (map (json_encode (S level)) items)
      +:+ newline_indent level +:+ "]"
  | JDict [] => "{}"
  | JDict members =>
      "{" +:+ newline_indent (S level)
      +:+ str_join ("," +:+ newline_indent (S level))
            (map (fun kv => encode_basestring_ascii (fst kv) +:+ ": "
                            +:+ json_encode (S level) (snd kv)) members)
      +:+ newline_indent level +:+ "}"
  end.

Definition json_dumps (data : jsonval) : string := json_encode 0 data.

(** The reader. *)

Definition is_json_ws (c : ascii) : bool :=
  match c with
  | " " | "009" | "010" | "013" => true
  | _ => false
  end%char.

Fixpoint skip_ws (s : string) : string :=
  match s with
  | "" => ""
  | String c s' => if is_json_ws c then skip_ws s' else s
  end.

Definition unescape (e : ascii) : option ascii :=
  match e with
  | "034" => Some dquote
  | "092" => Some backslash
  | "/" => Some "/"
  | "b" => Some "008"
  | "f" => Some "012"
  | "n" => Some "010"
  | "r" => Some "013"
  | "t" => Some "009"
  | _ => None
  end%char.

Definition hex4 (h1 h2 h3 h4 : ascii) : option N :=
  match hex_value h1, hex_value h2, hex_value h3, hex_value h4 with
  | Some a, Some b, Some c, Some d =>
      Some (N.of_nat (((a * 16 + b) * 16 + c) * 16 + d))
  | _, _, _, _ => None
  end.

Definition is_high_surrogate (n : N) : bool :=
  ((0xd800 <=? n) && (n <=? 0xdbff))%N.

Definition is_low_surrogate (n : N) : bool :=
  ((0xdc00 <=? n) && (n <=? 0xdfff))%N.

Definition join_surrogates (uni uni2 : N) : N :=
  (0x10000 + N.lor (N.shiftl (uni - 0xd800) 10) (uni2 - 0xdc00))%N.

Definition cons_char (c : N) (r : option (ustr * string))
  : option (ustr * string) :=
  match r with
  | Some (s, rest) => Some (c :: s, rest)
  | None => None
  end.

(** [scanstring], started after the opening quote: the string read and the
    input after the closing quote.  After the escape of a high surrogate, an
    escape that follows at once is read with it: the two are joined when it
    is a low surrogate, and it is left for the next turn when it is not. *)
Fixpoint scanstring (s : string) : option (ustr * string) :=
  match s with
  | "" => None
  | String c s' =>
      if Ascii.eqb c dquote then Some ([], s')
      else if Ascii.eqb c backslash then
        match s' with
        | "" => None
        | String e s'' =>
            if Ascii.eqb e "u" then
              match s'' with
              | String h1 (String h2 (String h3 (String h4 rest))) =>
                  match hex4 h1 h2 h3 h4 with
                  | Some uni =>
                      match rest with
                      | String b (String u rest1) =>
                          if is_high_surrogate uni && Ascii.eqb b backslash
                             && Ascii.eqb u "u"
                          then
                            match rest1 with
                            | String g1 (String g2 (String g3
                                (String g4 rest2))) =>
                                match hex4 g1 g2 g3 g4 with
                                | Some uni2 =>
                                    if is_low_surrogate uni2
                                    then cons_char (join_surrogates uni uni2)
                                           (scanstring rest2)
                                    else cons_char uni (scanstring rest)
                                | None => None
                                end
                            | _ => None
                            end
                          else cons_char uni (scanstring rest)
                      | _ => cons_char uni (scanstring rest)
                      end
                  | None => None
                  end
              | _ => None
              end
            else
              match unescape e with
              | Some ch => cons_char (N_of_ascii ch) (scanstring s'')
              | None => None
              end
        end
      else if (nat_of_ascii c <? 32)%nat then None
      else cons_char (N_of_ascii c) (scanstring s')
  end.

(** [d[key] = v] on the members of an object. *)
Fixpoint members_set (k : ustr) (v : jsonval) (d : list (ustr * jsonval))
  : list (ustr * jsonval) :=
  match d with
  | [] => [(k, v)]
  | (k', v') :: d' =>
      if bool_decide (k = k') then (k, v) :: d'
      else (k', v') :: members_set k v d'
  end.

Fixpoint strip_prefix (p s : string) : option string :=
  match p, s with
  | "", _ => Some s
  | String a p', String b s' =>
      if Ascii.eqb a b then strip_prefix p' s' else None
  | String _ _, "" => None
  end.

Definition is_digit (c : ascii) : bool :=
  ((48 <=? nat_of_ascii c) && (nat_of_ascii c <=? 57))%nat.

Fixpoint span_digits (s : string) : string * string :=
  match s with
  | "" => ("", "")
  | String c s' =>
      if is_digit c
      then let (d, r) := span_digits s' in (String c d, r)
      else ("", s)
  end.

Definition int_of_str (s : string) : option Z :=
  option_map Z.of_int (NilZero.int_of_string s).

(** A number: an optional minus sign; then a single zero, or a digit from
    one to nine and any digits; then, optionally, a dot and at least one
    digit; then, optionally, [e] or [E], an optional sign and at least one
    digit.  An optional part that does not match in full is left unread. *)
Definition scan_number (s : string) : option (jsonval * string) :=
  let (sign, s1) :=
    match s with
    | String "-" r => ("-", r)
    | _ => ("", s)
    end in
  let int_part :=
    match s1 with
    | String "0" r => Some ("0", r)
    | String c _ => if is_digit c then Some (span_digits s1) else None
    | "" => None
    end in
  match int_part with
  | None => None
  | Some (ds, s2) =>
      let (frac, s3) :=
        match s2 with
        | String "." r =>
            match span_digits r with
            | ("", _) => ("", s2)
            | (fd, r') => ("." +:+ fd, r')
            end
        | _ => ("", s2)
        end in
      let (expo, s4) :=
        match s3 with
        | String e r =>
            if Ascii.eqb e "e" || Ascii.eqb e "E" then
              let (sg, r1) :=
                match r with
                | String "+" r0 => ("+", r0)
                | String "-" r0 => ("-", r0)
                | _ => ("", r)
                end in
              match span_digits r1 with
              | ("", _) => ("", s3)
              | (ed, r2) => (String e (sg +:+ ed), r2)
              end
            else ("", s3)
        | "" => ("", s3)
        end in
      match frac, expo with
      | "", "" =>
          match int_of_str (sign +:+ ds) with
          | Some z => Some (JInt z, s4)
          | None => None
          end
      | _, _ => Some (JFloat (sign +:+ ds +:+ frac +:+ expo), s4)
      end
  end.

Definition parser (A : Type) : Type := string -> option (A * string).

(** The character under the cursor, when it is [c]; the input after it. *)
Definition expect_char (c : ascii) (s : string) : option string :=
  match s with
  | "" => None
  | String c' rest => if Ascii.eqb c c' then Some rest else None
  end.

(** The items of an array, from the first character of an item to the
    closing bracket. *)
Fixpoint parse_elems (pv : parser jsonval) (k : nat) (s : string)
  : option (list jsonval * string) :=
  match k with
  | O => None
  | S k' =>
      match pv s with
      | None => None
      | Some (v, rest) =>
          match skip_ws rest with
          | "" => None
          | String c rest' =>
              if Ascii.eqb c "," then
                match parse_elems pv k' (skip_ws rest') with
                | Some (vs, r) => Some (v :: vs, r)
                | None => None
                end
              else if Ascii.eqb c "]" then Some ([v], rest')
              else None
          end
      end
  end.

(** The members of an object, from the quote of a key to the closing brace.
    A key read twice keeps its place and takes the later value. *)
Fixpoint parse_members (pv : parser jsonval) (k : nat) (s : string)
    (acc : list (ustr * jsonval)) : option (list (ustr * jsonval) * string) :=
  match k with
  | O => None
  | S k' =>
      match expect_char dquote s with
      | None => None
      | Some s1 =>
          match scanstring s1 with
          | None => None
          | Some (key, s2) =>
              match expect_char ":" (skip_ws s2) with
              | None => None
              | Some s3 =>
                  match pv (skip_ws s3) with
                  | None => None
                  | Some (v, s4) =>
                      match skip_ws s4 with
                      | "" => None
                      | String c s5 =>
                          if Ascii.eqb c "," then
                            parse_members pv k' (skip_ws s5)
                              (members_set key v acc)
                          else if Ascii.eqb c "}"
                          then Some (members_set key v acc, s5)
                          else None
                      end
                  end
              end
          end
      end
  end.

(** An array, after its opening bracket; [s] is the input from the
    bracket. *)
Definition parse_array (pv : parser jsonval) (s rest : string)
  : option (jsonval * string) :=
  match expect_char "]" (skip_ws rest) with
  | Some r => Some (JList [], r)
  | None =>
      match parse_elems pv (String.length s) (skip_ws rest) with
      | Some (items, r) => Some (JList items, r)
      | None => None
      end
  end.

(** An object, after its opening brace; [s] is the input from the brace. *)
Definition parse_object (pv : parser jsonval) (s rest : string)
  : option (jsonval * string) :=
  match expect_char "}" (skip_ws rest) with
  | Some r => Some (JDict [], r)
  | None =>
      match parse_members pv (String.length s) (skip_ws rest) [] with
      | Some (members, r) => Some (JDict members, r)
      | None => None
      end
  end.

(** A string, after its opening quote. *)
Definition parse_string (rest : string) : option (jsonval * string) :=
  match scanstring rest with
  | Some (str, r) => Some (JStr str, r)
  | None => None
  end.

Definition expect (word : string) (v : jsonval) (s : string)
  : option (jsonval * string) :=
  match strip_prefix word s with
  | Some rest => Some (v, rest)
  | None => None
  end.

(** One JSON value at the head of [s]; [depth] bounds the nesting. *)
Fixpoint parse_value (depth : nat) (s : string) : option (jsonval * string) :=
  match depth with
  | O => None
  | S d =>
      match s with
      | "" => None
      | String c rest =>
          match c with
          | "034" => parse_string rest
          | "{" => parse_object (parse_value d) s rest
          | "[" => parse_array (parse_value d) s rest
          | "n" => expect "null" JNone s
          | "t" => expect "true" (JBool true) s
          | "f" => expect "false" (JBool false) s
          | "N" => expect "NaN" (JFloat "NaN") s
          | "I" => expect "Infinity" (JFloat "Infinity") s
          | "-" =>
              match expect "-Infinity" (JFloat "-Infinity") s with
              | Some r => Some r
              | None => scan_number s
              end
          | _ => scan_number s
          end%char
      end
  end.

(** [json.loads(s)]: one value, white space around it, nothing else. *)
Definition json_loads (s : string) : outcome jsonval :=
  match parse_value (String.length s) (skip_ws s) with
  | Some (v, rest) =>
      match skip_ws rest with
      | "" => Returned v
      | _ => Raised JSONDecodeError
      end
  | None => Raised JSONDecodeError
  end.

(** ** The file system *)

(** An absolute path: the names from the root down. *)
Abbreviation path := (list string).

Record filesystem : Type := {
  files : gmap path string;
  dirs : gset path;
  cwd : path
}.

Definition NAME_MAX : nat := 255.
Definition PATH_MAX : nat := 4096.
Definition ENAMETOOLONG : Z := 36.

(** The number of bytes of [os.fsencode(s)]: UTF-8 takes one byte for a code
    point below 128 and two up to 255. *)
Fixpoint fs_length (s : string) : nat :=
  match s with
  | "" => 0
  | String c s' =>
      ((if nat_of_ascii c <? 128 then 1 else 2) + fs_length s')%nat
  end.

Definition is_dir (fs : filesystem) (p : path) : bool :=
  bool_decide (p ∈ dirs fs).

Definition is_file (fs : filesystem) (p : path) : bool :=
  bool_decide (is_Some (files fs !! p)).

(** The names of a path are looked up one after the other from the
    directory [at_]: an empty name and "." stay, ".." goes to the parent,
    and a name that is followed by another has to be a directory.  The last
    name need not exist.  [shown] is the path as the caller gave it, for the
    exception. *)
Fixpoint walk (fs : filesystem) (shown : string) (at_ : path)
    (names : list string) : outcome path :=
  match names with
  | [] => Returned at_
  | c :: rest =>
      if String.eqb c "" || String.eqb c "." then walk fs shown at_ rest
      else if String.eqb c ".." then walk fs shown (removelast at_) rest
      else if (NAME_MAX <? fs_length c)%nat
      then Raised (OSError ENAMETOOLONG shown)
      else
        match rest with
        | [] => Returned (at_ ++ [c])
        | _ =>
            if is_dir fs (at_ ++ [c]) then walk fs shown (at_ ++ [c]) rest
            else if is_file fs (at_ ++ [c])
            then Raised (NotADirectoryError shown)
            else Raised (FileNotFoundError shown)
        end
  end.

(** The file or directory that the path [p] names, whether it exists or
    not.  Python refuses a path with a NUL character before any system
    call. *)
Definition resolve (fs : filesystem) (p : string) : outcome path :=
  if has_char "000" p then Raised (ValueError "embedded null byte")
  else if String.eqb p "" then Raised (FileNotFoundError p)
  else if (PATH_MAX <=? fs_length p)%nat
  then Raised (OSError ENAMETOOLONG p)
  else walk fs p (if String.prefix "/" p then [] else cwd fs)
         (str_split "/" p).

Definition put_file (k : path) (data : string) (fs : filesystem)
  : filesystem :=
  {| files := <[k := data]> (files fs); dirs := dirs fs; cwd := cwd fs |}.

Definition drop_file (k : path) (fs : filesystem) : filesystem :=
  {| files := delete k (files fs); dirs := dirs fs; cwd := cwd fs |}.

(** [with open(p, "w") as f: f.write(data)]: the file is created or
    replaced. *)
Definition write_file (p data : string) : M filesystem unit :=
  fun fs =>
    match resolve fs p with
    | Raised e => (Raised e, fs)
    | Returned k =>
        if is_dir fs k then (Raised (IsADirectoryError p), fs)
        else (Returned tt, put_file k data fs)
    end.

(** [with open(p, "r") as f: f.read()] *)
Definition read_file (p : string) : M filesystem string :=
  fun fs =>
    match resolve fs p with
    | Raised e => (Raised e, fs)
    | Returned k =>
        match files fs !! k with
        | Some data => (Returned data, fs)
        | None =>
            if is_dir fs k then (Raised (IsADirectoryError p), fs)
            else (Raised (FileNotFoundError p), fs)
        end
    end.

(** [os.remove(p)] *)
Definition os_remove (p : string) : M filesystem unit :=
  fun fs =>
    match resolve fs p with
    | Raised e => (Raised e, fs)
    | Returned k =>
        match files fs !! k with
        | Some _ => (Returned tt, drop_file k fs)
        | None =>
            if is_dir fs k then (Raised (IsADirectoryError p), fs)
            else (Raised (FileNotFoundError p), fs)
        end
    end.

(** The name under which [p] stands in the directory [k], if it does. *)
Definition child_of (k p : path) : option string :=
  match last p with
  | Some c => if bool_decide (p = k ++ [c]) then Some c else None
  | None => None
  end.

(** The entries of the directory [k], files and directories. *)
Definition children (fs : filesystem) (k : path) : list string :=
  omap (child_of k) (map fst (map_to_list (files fs)) ++ elements (dirs fs)).

(** [os.listdir(p)] *)
Definition os_listdir (p : string) : M filesystem (list string) :=
  fun fs =>
    match resolve fs p with
    | Raised e => (Raised e, fs)
    | Returned k =>
        if is_dir fs k then (Returned (children fs k), fs)
        else if is_file fs k then (Raised (NotADirectoryError p), fs)
        else (Raised (FileNotFoundError p), fs)
    end.

(** [os.makedirs(p, exist_ok=True)] for a path whose parent exists: the
    directory is made unless it is there. *)
Definition os_makedirs (p : string) : M filesystem unit :=
  fun fs =>
    match resolve fs p with
    | Raised e => (Raised e, fs)
    | Returned k =>
        if is_dir fs k then (Returned tt, fs)
        else if is_file fs k then (Raised (FileExistsError p), fs)
        else
          (Returned tt,
           {| files := files fs; dirs := {[k]} ∪ dirs fs; cwd := cwd fs |})
    end.

(** [os.path.join(a, b)] *)
Definition os_path_join (a b : string) : string :=
  if String.prefix "/" b then b
  else if String.eqb a "" || endswith a "/" then a +:+ b
  else a +:+ "/" +:+ b.

(** ** The template store *)

Definition TEMPLATE_DIR : string := "templates".

(** What the module does when it is loaded. *)
Definition startup : M filesystem unit := os_makedirs TEMPLATE_DIR.

Definition list_templates : M filesystem (list string) :=
  let! entries := os_listdir TEMPLATE_DIR in
  ret (map (fun f => str_replace f ".json" "")
         (List.filter (fun f => endswith f ".json") entries)).

Definition save_template (name : string) (data : jsonval)
  : M filesystem unit :=
  write_file (os_path_join TEMPLATE_DIR (name +:+ ".json")) (json_dumps data).

Definition load_template (name : string) : M filesystem jsonval :=
  let! data := read_file (os_path_join TEMPLATE_DIR (name +:+ ".json")) in
  lift (json_loads data).

Definition delete_template (name : string) : M filesystem unit :=
  os_remove (os_path_join TEMPLATE_DIR (name +:+ ".json")).

(** ** The document extractor *)

(** An uploaded PDF, as the libraries see it: [pdf_reader] is what
    [PdfReader(file)] gives, the list of its pages, each page standing for
    the outcome of its [extract_text()]; [ocr_pages] is what
    [convert_from_path] gives, each image standing for the outcome of
    [pytesseract.image_to_string] on it. *)
Record pdf_upload : Type := {
  pdf_reader : outcome (list (outcome (option string)));
  ocr_pages : outcome (list (outcome string))
}.

(** [x or ""] *)
Definition or_empty (x : option string) : string :=
  if str_truthy x then default "" x else "".

Fixpoint concat_page_text (pages : list (outcome (option string)))
    (text : string) : outcome string :=
  match pages with
  | [] => Returned text
  | page :: rest =>
      let? t := page in concat_page_text rest (text +:+ or_empty t)
  end.

(** The result is a [str], or [None] when anything was raised. *)
Definition extract_text_from_pdf (file : pdf_upload) : option string :=
  match (let? pages := pdf_reader file in
         let? text := concat_page_text pages "" in
         Returned (strip text)) with
  | Returned s => Some s
  | Raised _ => None
  end.

Fixpoint concat_image_text (images : list (outcome string)) (text : string)
  : outcome string :=
  match images with
  | [] => Returned text
  | img :: rest => let? t := img in concat_image_text rest (text +:+ t)
  end.

(** What the upload step shows and runs: the warnings of [st.warning] and
    the number of calls of [ocr_pdf]. *)
Record extractor_log : Type := { st_warnings : list string; ocr_calls : nat }.

Definition st_warning (msg : string) : M extractor_log unit :=
  fun l =>
    (Returned tt,
     {| st_warnings := st_warnings l ++ [msg]; ocr_calls := ocr_calls l |}).

Definition ocr_pdf (file : pdf_upload) : M extractor_log string :=
  fun l =>
    ((let? images := ocr_pages file in
      let? text := concat_image_text images "" in
      Returned (strip text)),
     {| st_warnings := st_warnings l; ocr_calls := S (ocr_calls l) |}).

(** The PDF branch of the upload step: the value left in [guideline_text]. *)
Definition guideline_text_of_pdf (file : pdf_upload)
  : M extractor_log (option string) :=
  let guideline_text := extract_text_from_pdf file in
  if negb (str_truthy guideline_text) then
    let! _ := st_warning "No text found, trying OCR..." in
    let! guideline_text := ocr_pdf file in
    ret (Some guideline_text)
  else ret guideline_text.

(** ** Vocabulary of the statements *)

(** The answers of a loop, in the order the questions are processed. *)
Fixpoint map_m {S A B} (f : A -> M S B) (xs : list A) : M S (list B) :=
  match xs with
  | [] => ret []
  | x :: rest =>
      let! y := f x in
      let! ys := map_m f rest in
      ret (y :: ys)
  end.

(** [d[k] = v] for each key and value, in order. *)
Fixpoint assign_all (keys vals : list string) (d : dict string)
  : dict string :=
  match keys, vals with
  | k :: keys', v :: vals' => assign_all keys' vals' (dict_set k v d)
  | _, _ => d
  end.

(** The answer of the mock strategy for one question. *)
Definition mock_answer (q : Question) : M rng string :=
  let! choice := random_choice (options q) in
  ret (format_suggestion choice mock_reason).

(** The answer of the remote strategy for one question. *)
Definition openrouter_answer (key guideline_text user_text : string)
    (image_descriptions : option (list string)) (q : Question)
  : M world string :=
  ask (build_request key
         (build_prompt guideline_text user_text image_descriptions q)).

Definition missing_key_message : string :=
  "Please set DEEPSEEK_API_KEY in Replit Secrets!".

(** What [ask] makes of the outcome of its call. *)
Definition answer_of (r : outcome response) : outcome string :=
  match r with
  | Raised (RequestException e) => Returned ("Request Exception: " +:+ e)
  | Raised e => Raised e
  | Returned resp =>
      if status_code resp =? 200 then
        match completion_text resp with
        | Raised (RequestException e) =>
            Returned ("Request Exception: " +:+ e)
        | o => o
        end
      else
        Returned ("Error " +:+ str_of_int (status_code resp) +:+ ": "
                  +:+ text resp)
  end.

Definition log_post (req : request) (w : world) : world :=
  {| net := net w; posted := posted w ++ [req]; st_errors := st_errors w |}.

Definition log_error (msg : string) (w : world) : world :=
  {| net := net w; posted := posted w; st_errors := st_errors w ++ [msg] |}.

(** The request of the remote strategy for one question, the requests for a
    template, and the outcome of the [j]-th call made from the world [w]. *)
Definition request_for (key guideline_text user_text : string)
    (image_descriptions : option (list string)) (q : Question) : request :=
  build_request key
    (build_prompt guideline_text user_text image_descriptions q).

Definition call_outcome (w : world) (j : nat) (req : request)
  : outcome response :=
  net w (length (posted w) + j)%nat req.

(** What the remote strategy has to give on [t] from the world [w]: a
    mapping with one entry per question, in template order, where the entry
    of a question holds what [ask] makes of that question's own call (the
    error text with the status code and the body for a status other than
    200, the exception text for a network failure), after one call per
    question. *)
Definition remote_isolation (key : string) (t : Template)
    (guideline_text user_text : string)
    (image_descriptions : option (list string)) (w : world) : Prop :=
  let req := request_for key guideline_text user_text image_descriptions in
  exists s w',
    get_ai_suggestions_openrouter (Some key) t guideline_text user_text
      image_descriptions w = (Returned s, w') /\
    length s = length t /\
    dict_keys s = map question t /\
    posted w' = posted w ++ map req t /\
    forall j q,
      t !! j = Some q ->
      exists a,
        s !! j = Some (question q, a) /\
        answer_of (call_outcome w j (req q)) = Returned a /\
        (forall resp,
            call_outcome w j (req q) = Returned resp ->
            status_code resp <> 200 ->
            a = "Error " +:+ str_of_int (status_code resp) +:+ ": "
                +:+ text resp) /\
        (forall e,
            call_outcome w j (req q) = Raised (RequestException e) ->
            a = "Request Exception: " +:+ e).

(** What the credential gate is said to do: the strategy fails, and no call
    was made. *)
Definition gate_raises (key : option string) (t : Template)
    (guideline_text user_text : string)
    (image_descriptions : option (list string)) (w : world) : Prop :=
  exists e w',
    get_ai_suggestions_openrouter key t guideline_text user_text
      image_descriptions w = (Raised e, w') /\
    posted w' = posted w.

(** The mapping [s] holds the answers of [t] with repeated texts collapsed:
    its keys are the distinct texts, the value of a text is the answer of
    its last question, and a repeated text leaves fewer entries than
    questions. *)
Definition collapsed (t : Template) (answers : list string)
    (s : dict string) : Prop :=
  length answers = length t /\
  NoDup (dict_keys s) /\
  (forall x, x ∈ dict_keys s <-> x ∈ map question t) /\
  (forall i q a,
      t !! i = Some q -> answers !! i = Some a ->
      (forall j q', (i < j)%nat -> t !! j = Some q' ->
                    question q' <> question q) ->
      dict_get (question q) s = Some a) /\
  (~ NoDup (map question t) -> (length s < length t)%nat).

(** An entry of the mock strategy for the question [q]: keyed by its text,
    the option taken from its list, the fixed reason. *)
Definition mock_entry_of (q : Question) (entry : string * string) : Prop :=
  fst entry = question q /\
  exists choice,
    choice ∈ options q /\ snd entry = format_suggestion choice mock_reason.

(** Totality of the mock strategy on [t]: it returns, with one entry per
    question, in template order, each chosen among the question's options. *)
Definition mock_totality (t : Template) (g : rng) : Prop :=
  exists s g',
    get_ai_suggestions_mock t g = (Returned s, g') /\
    length s = length t /\
    dict_keys s = map question t /\
    Forall2 mock_entry_of t s.

(** White space only. *)
Fixpoint all_space (s : string) : bool :=
  match s with
  | "" => true
  | String c s' => py_isspace c && all_space s'
  end.

Definition first_char (s : string) : option ascii :=
  match s with
  | "" => None
  | String c _ => Some c
  end.

Fixpoint last_char (s : string) : option ascii :=
  match s with
  | "" => None
  | String c "" => Some c
  | String _ s' => last_char s'
  end.

(** [r] is [s] without the white space around it. *)
Definition trimmed_of (s r : string) : Prop :=
  (exists pre post,
      s = pre +:+ r +:+ post /\ all_space pre = true /\ all_space post = true)
  /\ (forall c, first_char r = Some c -> py_isspace c = false)
  /\ (forall c, last_char r = Some c -> py_isspace c = false).

(** ** Sample inputs and further vocabulary *)

Definition next_draw (g : rng) : rng :=
  {| draws := draws g; used := S (used g) |}.

Definition mock_answer_of (q : Question) (a : string) : Prop :=
  exists choice,
    choice ∈ options q /\ a = format_suggestion choice mock_reason.

Definition dup_template : Template :=
  [ {| question := "Q"; options := ["a"] |};
    {| question := "Q"; options := ["b"] |} ].

(** The same text twice, the second time without an option. *)
Definition dup_no_options : Template :=
  [ {| question := "Q"; options := ["a"] |};
    {| question := "Q"; options := [] |} ].

Definition rng0 : rng := {| draws := fun _ => 0%nat; used := 0 |}.

Definition thesis_template : Template :=
  [ {| question := "Is the thesis clearly stated?";
       options := ["Yes"; "No"; "Partially"] |} ].

Definition no_options_template : Template :=
  [ {| question := "A"; options := ["x"] |};
    {| question := "B"; options := [] |};
    {| question := "C"; options := ["y"] |} ].

Definition world0 : world :=
  {| net := fun _ _ =>
              Returned {| status_code := 500; text := "boom";
                          json := Raised JSONDecodeError |};
     posted := [];
     st_errors := [] |}.

Definition two_questions : Template :=
  [ {| question := "Q1"; options := ["a"; "b"] |};
    {| question := "Q2"; options := ["c"] |} ].

(** The first call is answered with status 503, the second times out. *)
Definition world_failing : world :=
  {| net := fun n _ =>
              match n with
              | O => Returned {| status_code := 503; text := "unavailable";
                                 json := Raised JSONDecodeError |}
              | _ => Raised (RequestException "timed out")
              end;
     posted := [];
     st_errors := [] |}.

Definition listed_as (f : string) : string := str_replace f ".json" "".

(** The path of the entry [f] of the template directory, and the template
    directory being there, as [startup] leaves it. *)
Definition template_path (fs : filesystem) (f : string) : path :=
  cwd fs ++ [TEMPLATE_DIR; f].

Definition template_dir (fs : filesystem) : Prop :=
  cwd fs ++ [TEMPLATE_DIR] ∈ dirs fs.

(** A template name that makes a file name: no separator and no NUL
    character in it, and no more bytes than a file name may have once the
    extension is added. *)
Definition plain_name (N : string) : bool :=
  negb (has_char "/" N) && negb (has_char "000" N)
  && (fs_length (N +:+ ".json") <=? NAME_MAX)%nat.

(** A file system with the working directory "/app" and nothing in it, and
    the same after [startup]. *)
Definition bare_fs : filesystem :=
  {| files := ∅; dirs := {[ []; ["app"] ]}; cwd := ["app"] |}.

Definition fresh_fs : filesystem :=
  {| files := ∅; dirs := {[ ["app"; "templates"] ]} ∪ {[ []; ["app"] ]};
     cwd := ["app"] |}.

Definition store_a_and_a_json : filesystem :=
  put_file ["app"; "templates"; "a.json.json"]
    (json_dumps (py_of_template thesis_template))
    (put_file ["app"; "templates"; "a.json"]
       (json_dumps (py_of_template thesis_template)) fresh_fs).

(** The text of the pages, in page order; a page without text adds
    nothing. *)
Fixpoint page_text (texts : list (option string)) : string :=
  match texts with
  | [] => ""
  | Some t :: rest => t +:+ page_text rest
  | None :: rest => page_text rest
  end.

(** Parsing fails when [PdfReader] raises or a page does. *)
Definition parse_fails (file : pdf_upload) : Prop :=
  match pdf_reader file with
  | Raised _ => True
  | Returned pages => Exists (fun page => exists e, page = Raised e) pages
  end.

(** What the OCR pass gives. *)
Definition ocr_outcome (file : pdf_upload) : outcome string :=
  let? images := ocr_pages file in
  let? text := concat_image_text images "" in
  Returned (strip text).

Definition log_fallback (l : extractor_log) : extractor_log :=
  {| st_warnings := st_warnings l ++ ["No text found, trying OCR..."];
     ocr_calls := S (ocr_calls l) |}.

Definition scanned_pdf : pdf_upload :=
  {| pdf_reader := Raised (OtherError "EOF marker not found");
     ocr_pages := Returned [Returned " Rubric v1 "; Returned "page 2 "] |}.

Definition text_pdf : pdf_upload :=
  {| pdf_reader := Returned [Returned (Some "  Rubric v1"); Returned None;
                             Returned (Some " end  ")];
     ocr_pages := Raised (OtherError "not called") |}.

(** A string that starts with a character the reader does not skip. *)
Definition starts_visible (s : string) : Prop :=
  exists c r, s = String c r /\ is_json_ws c = false.

(** A string that starts as an item of an array does: visibly, and not with
    the closing bracket. *)
Definition starts_item (s : string) : Prop :=
  exists c r, s = String c r /\ is_json_ws c = false /\ Ascii.eqb "]" c = false.

(** An input that does not start with the escape of a low surrogate: where
    it starts with [\u], the four digits that follow are those of a number
    that is no low surrogate. *)
Definition alone_tail (rest : string) : Prop :=
  match rest with
  | String b (String u rest1) =>
      Ascii.eqb b backslash && Ascii.eqb u "u" = true ->
      exists uni2 r,
        rest1 = hex4_of uni2 +:+ r /\ (uni2 < 0x10000)%N /\
        is_low_surrogate uni2 = false
  | _ => True
  end.

Definition head_not_low (s : ustr) : Prop :=
  match s with
  | c :: _ => is_low_surrogate c = false
  | [] => True
  end.

(** ** The interface: creating a template, uploading a guideline, showing
    an answer *)

Definition nonempty (s : string) : bool :=
  match s with
  | "" => false
  | String _ _ => true
  end.

(** [[opt.strip() for opt in text.split(",") if opt.strip()]] *)
Definition parse_options (text : string) : list string :=
  map strip
    (List.filter (fun opt => nonempty (strip opt)) (str_split "," text)).

(** The questions of the Create flow: one row of the form per question, its
    text and the text of its options box. *)
Definition build_questions (rows : list (string * string)) : Template :=
  map (fun row => {| question := fst row; options := parse_options (snd row) |})
    rows.

(** The Save button of the Create flow, pressed: the message shown, if
    any. *)
Definition create_template (template_name : string)
    (rows : list (string * string)) : M filesystem (option string) :=
  let questions := build_questions rows in
  if nonempty template_name && negb (bool_decide (questions = [])) then
    let! _ := save_template template_name (py_of_template questions) in
    ret (Some ("Template '" +:+ template_name +:+ "' saved!"))
  else ret None.

(** [s.split(sep, 1)] for a separator of one character that occurs in [s]:
    the text before its first occurrence and the text after it. *)
Fixpoint split_first (sep : ascii) (s : string) : string * string :=
  match s with
  | "" => ("", "")
  | String c s' =>
      if Ascii.eqb c sep then ("", s')
      else let (before, after) := split_first sep s' in (String c before, after)
  end.

(** What Step 4 writes for one answer: the suggestion, and the reason when
    the answer has a second line. *)
Definition show_answer (answer : string) : string * option string :=
  if str_in nl answer then
    let (option, reason) := split_first "010" answer in
    (strip (str_replace option "Option:" ""),
     Some (strip (str_replace reason "Reason:" "")))
  else (answer, None).

(** An uploaded guideline: its name, and what the PDF and the DOCX
    libraries make of it; [docx_paragraphs] is what [docx.Document(file)]
    gives, the texts of its paragraphs. *)
Record uploaded_file : Type := {
  name : string;
  pdf : pdf_upload;
  docx_paragraphs : outcome (list string)
}.

Definition extract_text_from_docx (file : uploaded_file) : outcome string :=
  let? paragraphs := docx_paragraphs file in
  Returned (str_join nl paragraphs).

(** The upload step: the value left in [guideline_text]. *)
Definition upload_guideline (file : uploaded_file)
  : M extractor_log (option string) :=
  if endswith (name file) ".pdf" then guideline_text_of_pdf (pdf file)
  else
    let! guideline_text := lift (extract_text_from_docx file) in
    ret (Some guideline_text).

(** Vocabulary of the further statements. *)

Fixpoint str_forall (p : ascii -> bool) (s : string) : bool :=
  match s with
  | "" => true
  | String a s' => p a && str_forall p s'
  end.

(** An options box with nothing but commas and white space. *)
Definition blank_box (text : string) : bool :=
  str_forall (fun c => Ascii.eqb c "," || py_isspace c) text.

(** The template directory is there, and every entry of it is the file of a
    template whose name does not contain the extension. *)
Definition plain_store (fs : filesystem) : Prop :=
  template_dir fs /\
  (forall f, template_path fs f ∉ dirs fs) /\
  forall f, is_Some (files fs !! template_path fs f) ->
            exists N, f = N +:+ ".json" /\ str_in ".json" N = false /\
                      plain_name N = true.

(** A character of a file written by [json.dump]: printable ASCII or a
    newline. *)
Definition is_file_char (c : ascii) : bool :=
  is_printable c || Ascii.eqb c "010".

Definition store_essay : filesystem :=
  put_file ["app"; "templates"; "essay.json"]
    (json_dumps (py_of_template thesis_template)) fresh_fs.

(** A [str]: its code points are below 0x110000. *)
Definition is_str (s : ustr) : Prop := Forall (fun c => (c < 0x110000)%N) s.

(** No high surrogate of [s] is directly followed by a low surrogate. *)
Fixpoint no_surrogate_pair (s : ustr) : bool :=
  match s with
  | [] => true
  | c :: s' =>
      match s' with
      | [] => true
      | c' :: _ =>
          negb (is_high_surrogate c && is_low_surrogate c')
          && no_surrogate_pair s'
      end
  end.

(** A text that [json] reads back as it wrote it. *)
Definition plain_text (s : ustr) : Prop :=
  is_str s /\ no_surrogate_pair s = true.

Definition plain_texts (t : WideTemplate) : Prop :=
  Forall (fun q => plain_text (wide_question q) /\
                   Forall plain_text (wide_options q)) t.

Definition sample_rows : list (string * string) :=
  [("Is the thesis clearly stated?", "Yes, No ,Partially,, ");
   ("Tone?", " , ")].

(** The first call is answered with status 503, the later ones with status
    200 and a body without the completion. *)
Definition world_malformed : world :=
  {| net := fun n _ =>
              match n with
              | O => Returned {| status_code := 503; text := "unavailable";
                                 json := Raised JSONDecodeError |}
              | _ => Returned {| status_code := 200; text := "{}";
                                 json := Returned (PyDict []) |}
              end;
     posted := [];
     st_errors := [] |}.
(** * Theorems *)

(** ** Strings *)

Lemma app_String c s t : String c s +:+ t = String c (s +:+ t).
Proof. reflexivity. Qed.

Lemma app_empty_l s : "" +:+ s = s.
Proof. reflexivity. Qed.

Lemma app_empty_r s : s +:+ "" = s.
Proof. induction s as [|c s IH]; simpl; [reflexivity | now rewrite IH]. Qed.

Lemma str_app_assoc s t u : (s +:+ t) +:+ u = s +:+ (t +:+ u).
Proof. induction s as [|c s IH]; simpl; [reflexivity | now rewrite IH]. Qed.

Lemma str_length_app s t :
  String.length (s +:+ t) = (String.length s + String.length t)%nat.
Proof. induction s as [|c s IH]; simpl; [reflexivity | now rewrite IH]. Qed.

Lemma str_app_inv_head s t u v :
  String.length s = String.length t -> s +:+ u = t +:+ v -> s = t.
Proof.
  revert t. induction s as [|c s IH]; intros [|c' t] Hlen Heq;
    simpl in *; try discriminate; [reflexivity |].
  injection Heq as -> Heq. f_equal. apply IH; [lia | exact Heq].
Qed.

Lemma str_app_inv_tail s t u : s +:+ u = t +:+ u -> s = t.
Proof.
  intros Heq. apply (str_app_inv_head s t u u); [| exact Heq].
  apply (f_equal String.length) in Heq. rewrite !str_length_app in Heq. lia.
Qed.

(** ** The monad and the loops *)

Lemma for_each_app {S A B} (xs ys : list A) (body : A -> B -> M S B) acc s :
  for_each (xs ++ ys) body acc s =
  (let! acc' := for_each xs body acc in for_each ys body acc') s.
Proof.
  revert acc s. induction xs as [|x xs IH]; intros acc s; [reflexivity |].
  simpl. unfold bind in *.
  destruct (body x acc s) as [[acc'|e] s']; [| reflexivity].
  apply IH.
Qed.

Lemma map_m_length {S A B} (f : A -> M S B) xs s ys s' :
  map_m f xs s = (Returned ys, s') -> length ys = length xs.
Proof.
  revert s ys. induction xs as [|x xs IH]; intros s ys; simpl.
  - unfold ret. intros [= <- _]. reflexivity.
  - unfold bind, ret.
    destruct (f x s) as [[y|e] s1]; [| discriminate].
    destruct (map_m f xs s1) as [[ys1|e] s2] eqn:E; [| discriminate].
    intros [= <- <-]. simpl. f_equal. eauto.
Qed.

(** A loop that stores one computed answer per question under the
    question's text computes the answers in order and assigns them. *)
Lemma for_each_keyed {S} (answer : Question -> M S string)
    (step : Question -> dict string -> M S (dict string)) :
  (forall q acc s,
      step q acc s =
      (let! a := answer q in ret (dict_set (question q) a acc)) s) ->
  forall t acc s,
    for_each t step acc s =
    (let! answers := map_m answer t in
     ret (assign_all (map question t) answers acc)) s.
Proof.
  intros Hstep t. induction t as [|q t IH]; intros acc s; [reflexivity |].
  simpl. unfold bind at 1. rewrite Hstep. unfold bind, ret.
  destruct (answer q s) as [[a|e] s1]; [| reflexivity].
  rewrite IH. unfold bind, ret.
  destruct (map_m answer t s1) as [[answers|e] s2]; reflexivity.
Qed.

(** ** Dictionaries *)

Section Dicts.
Context {V : Type}.
Implicit Types (d : dict V) (k x : string) (v : V).

Lemma dict_get_set_eq k v d : dict_get k (dict_set k v d) = Some v.
Proof.
  induction d as [|[k' v'] d IH]; simpl.
  - now rewrite String.eqb_refl.
  - destruct (String.eqb_spec k k') as [->|Hne]; simpl.
    + now rewrite String.eqb_refl.
    + destruct (String.eqb_spec k k'); [contradiction | exact IH].
Qed.

Lemma dict_get_set_ne k x v d :
  k <> x -> dict_get x (dict_set k v d) = dict_get x d.
Proof.
  intros Hne. induction d as [|[k' v'] d IH]; simpl.
  - destruct (String.eqb_spec x k); [congruence | reflexivity].
  - destruct (String.eqb_spec k k') as [->|Hk]; simpl.
    + destruct (String.eqb_spec x k'); [congruence | reflexivity].
    + now rewrite IH.
Qed.

Lemma dict_keys_set_elem k x v d :
  x ∈ dict_keys (dict_set k v d) <-> x = k \/ x ∈ dict_keys d.
Proof.
  unfold dict_keys. induction d as [|[k' v'] d IH]; simpl.
  - rewrite list_elem_of_singleton. set_solver.
  - destruct (String.eqb_spec k k') as [->|Hk]; simpl.
    + set_solver.
    + rewrite !elem_of_cons, IH. tauto.
Qed.

Lemma dict_set_fresh k v d :
  k ∉ dict_keys d -> dict_set k v d = d ++ [(k, v)].
Proof.
  unfold dict_keys. induction d as [|[k' v'] d IH]; simpl; intros Hk.
  - reflexivity.
  - rewrite not_elem_of_cons in Hk. destruct Hk as [Hne Hk].
    destruct (String.eqb_spec k k'); [contradiction |].
    now rewrite IH.
Qed.

Lemma dict_set_NoDup k v d :
  NoDup (dict_keys d) -> NoDup (dict_keys (dict_set k v d)).
Proof.
  unfold dict_keys. induction d as [|[k' v'] d IH]; simpl; intros Hd.
  - apply NoDup_singleton.
  - apply NoDup_cons in Hd as [Hk' Hd].
    destruct (String.eqb_spec k k') as [->|Hk]; simpl.
    + now apply NoDup_cons.
    + apply NoDup_cons. split; [| auto].
      intros Hin. apply (dict_keys_set_elem k k' v d) in Hin.
      destruct Hin; [congruence | contradiction].
Qed.

Lemma dict_get_None k d : k ∉ dict_keys d -> dict_get k d = None.
Proof.
  unfold dict_keys. induction d as [|[k' v'] d IH]; simpl; intros Hk.
  - reflexivity.
  - rewrite not_elem_of_cons in Hk. destruct Hk as [Hne Hk].
    destruct (String.eqb_spec k k'); [contradiction | auto].
Qed.
End Dicts.

Lemma assign_all_NoDup ks vs d :
  NoDup (dict_keys d) -> NoDup (dict_keys (assign_all ks vs d)).
Proof.
  revert vs d. induction ks as [|k ks IH]; intros [|v vs] d Hd; simpl; auto.
  apply IH, dict_set_NoDup, Hd.
Qed.

Lemma assign_all_elem ks vs d x :
  length ks = length vs ->
  x ∈ dict_keys (assign_all ks vs d) <-> x ∈ dict_keys d \/ x ∈ ks.
Proof.
  revert vs d. induction ks as [|k ks IH]; intros [|v vs] d Hlen;
    simpl in *; try discriminate.
  - set_solver.
  - rewrite IH by congruence. rewrite dict_keys_set_elem. set_solver.
Qed.

Lemma assign_all_get_other ks vs d x :
  x ∉ ks -> dict_get x (assign_all ks vs d) = dict_get x d.
Proof.
  revert vs d. induction ks as [|k ks IH]; intros [|v vs] d Hx; simpl; auto.
  rewrite not_elem_of_cons in Hx. destruct Hx as [Hne Hx].
  rewrite IH by assumption. apply dict_get_set_ne. congruence.
Qed.

(** The value of a key is the one assigned at its last occurrence. *)
Lemma assign_all_last ks vs d i k v :
  ks !! i = Some k -> vs !! i = Some v ->
  (forall j, (i < j)%nat -> ks !! j <> Some k) ->
  dict_get k (assign_all ks vs d) = Some v.
Proof.
  revert vs d i. induction ks as [|k0 ks IH]; intros [|v0 vs] d [|i] Hk Hv Hlast;
    simpl in *; try discriminate.
  - injection Hk as ->. injection Hv as ->.
    rewrite assign_all_get_other; [apply dict_get_set_eq |].
    intros Hin. apply list_elem_of_lookup in Hin as [j Hj].
    apply (Hlast (S j)); [lia | exact Hj].
  - apply (IH vs _ i); auto.
    intros j Hij. apply (Hlast (S j)). lia.
Qed.

(** Distinct new keys are appended in order. *)
Lemma assign_all_fresh ks vs d :
  NoDup ks -> (forall k, k ∈ ks -> k ∉ dict_keys d) ->
  length ks = length vs ->
  assign_all ks vs d = d ++ zip ks vs.
Proof.
  revert vs d. induction ks as [|k ks IH]; intros [|v vs] d Hnd Hfresh Hlen;
    simpl in *; try discriminate.
  - now rewrite app_nil_r.
  - apply NoDup_cons in Hnd as [Hk Hnd].
    rewrite IH; [| assumption | | congruence].
    + rewrite dict_set_fresh by (apply Hfresh; left).
      now rewrite <- app_assoc.
    + intros k' Hk' Hin. apply dict_keys_set_elem in Hin as [->|Hin].
      * contradiction.
      * apply (Hfresh k'); [now right | assumption].
Qed.

(** Keys that repeat leave fewer entries than assignments. *)
Lemma assign_all_dup_length ks vs :
  length ks = length vs -> ~ NoDup ks ->
  (length (assign_all ks vs []) < length ks)%nat.
Proof.
  intros Hlen Hdup.
  assert (Hnd : NoDup (dict_keys (assign_all ks vs []))).
  { apply assign_all_NoDup. constructor. }
  assert (Hsub : dict_keys (assign_all ks vs []) ⊆+ ks).
  { apply NoDup_submseteq; [exact Hnd |].
    intros x Hx. apply assign_all_elem in Hx as [Hx|Hx]; [| exact Hx | exact Hlen].
    unfold dict_keys in Hx. simpl in Hx. set_solver. }
  destruct (decide (length ks <= length (dict_keys (assign_all ks vs [])))%nat)
    as [Hle|Hgt].
  - exfalso. apply Hdup.
    apply submseteq_length_Permutation in Hsub; [| exact Hle].
    now rewrite <- Hsub.
  - unfold dict_keys in Hgt. rewrite length_map in Hgt. lia.
Qed.

(** ** The mock strategy *)

Lemma random_choice_nonempty {A} (seq : list A) (g : rng) :
  seq <> [] ->
  exists c, c ∈ seq /\ random_choice seq g = (Returned c, next_draw g).
Proof.
  destruct seq as [|x seq]; [congruence | intros _].
  exists (nth (draws g (used g) mod length (x :: seq)) (x :: seq) x).
  split; [| reflexivity].
  apply list_elem_of_In, nth_In, Nat.mod_upper_bound. discriminate.
Qed.

Lemma random_choice_returned {A} (seq : list A) (g g' : rng) c :
  random_choice seq g = (Returned c, g') -> c ∈ seq /\ g' = next_draw g.
Proof.
  destruct seq as [|x seq]; [discriminate |].
  intros Hc.
  destruct (random_choice_nonempty (x :: seq) g) as (c' & Hin & Heq);
    [discriminate |].
  rewrite Hc in Heq. injection Heq as -> ->. now split.
Qed.

Lemma mock_step_keyed q acc g :
  mock_step q acc g =
  (let! a := mock_answer q in ret (dict_set (question q) a acc)) g.
Proof.
  unfold mock_step, mock_answer, bind, ret.
  destruct (random_choice (options q) g) as [[c|e] g']; reflexivity.
Qed.

(** The mock strategy computes one answer per question, in order, and assigns
    each under the question's text. *)
Lemma mock_as_assignments t g :
  get_ai_suggestions_mock t g =
  (let! answers := map_m mock_answer t in
   ret (assign_all (map question t) answers [])) g.
Proof. apply for_each_keyed, mock_step_keyed. Qed.

Lemma mock_answers_returned t g answers g' :
  map_m mock_answer t g = (Returned answers, g') ->
  Forall2 mock_answer_of t answers.
Proof.
  revert g answers. induction t as [|q t IH]; intros g answers; simpl.
  - unfold ret. intros [= <- _]. constructor.
  - unfold bind, ret.
    destruct (mock_answer q g) as [[a|e] g1] eqn:Ha; [| discriminate].
    destruct (map_m mock_answer t g1) as [[ys|e] g2] eqn:Hys; [| discriminate].
    intros [= <- <-]. constructor; [| eauto].
    unfold mock_answer, bind, ret in Ha.
    destruct (random_choice (options q) g) as [[c|e] g3] eqn:Hc;
      [| discriminate].
    injection Ha as <- <-. exists c. split; [| reflexivity].
    now apply random_choice_returned in Hc.
Qed.

Lemma mock_answers_total t g :
  Forall (fun q => options q <> []) t ->
  exists answers g', map_m mock_answer t g = (Returned answers, g').
Proof.
  intros Ht. revert g. induction Ht as [|q t Hq Ht IH]; intros g; simpl.
  - eexists _, _. reflexivity.
  - destruct (random_choice_nonempty (options q) g Hq) as (c & _ & Hc).
    destruct (IH (next_draw g)) as (ys & g' & Hys).
    exists (format_suggestion c mock_reason :: ys), g'.
    assert (Ha : mock_answer q g
                 = (Returned (format_suggestion c mock_reason), next_draw g)).
    { unfold mock_answer, bind, ret. now rewrite Hc. }
    unfold bind, ret. now rewrite Ha, Hys.
Qed.

Lemma mock_entries_zip t answers :
  Forall2 mock_answer_of t answers ->
  Forall2 mock_entry_of t (zip (map question t) answers).
Proof.
  induction 1 as [|q a t answers Hqa _ IH]; simpl; constructor.
  - destruct Hqa as (c & Hin & ->).
    split; [reflexivity | exists c; now split].
  - exact IH.
Qed.

(** C1, as stated, fails: two questions with the same text, each with an
    option, leave one entry. *)
Lemma mock_totality_fails_on_duplicates :
  Forall (fun q => options q <> []) dup_template /\
  ~ mock_totality dup_template rng0.
Proof.
  split.
  - repeat constructor; discriminate.
  - intros (s & g' & Hrun & Hlen & _).
    vm_compute in Hrun. injection Hrun as <- _. discriminate Hlen.
Qed.

(** C1, amended: for every template with pairwise distinct question texts in
    which every question has at least one option, the mock strategy returns
    a mapping with exactly one entry per question, in template order, and
    each entry's chosen option is a member of that question's options. *)
Theorem mock_totality_distinct (t : Template) (g : rng) :
  Forall (fun q => options q <> []) t ->
  NoDup (map question t) ->
  mock_totality t g.
Proof.
  intros Hopts Hnd.
  destruct (mock_answers_total t g Hopts) as (answers & g' & Hrun).
  pose proof (map_m_length _ _ _ _ _ Hrun) as Hlen.
  pose proof (mock_answers_returned _ _ _ _ Hrun) as Hans.
  exists (zip (map question t) answers), g'.
  assert (Hzip : length (zip (map question t) answers) = length t).
  { rewrite length_zip_with, length_map. lia. }
  repeat split.
  - rewrite mock_as_assignments. unfold bind, ret. rewrite Hrun.
    rewrite assign_all_fresh; [reflexivity | exact Hnd | |].
    + intros k _. unfold dict_keys. simpl. apply not_elem_of_nil.
    + rewrite length_map. congruence.
  - exact Hzip.
  - unfold dict_keys. apply fst_zip. rewrite length_map. lia.
  - now apply mock_entries_zip.
Qed.

Lemma mock_totality_distinct_witness : mock_totality thesis_template rng0.
Proof.
  apply mock_totality_distinct.
  - repeat constructor; discriminate.
  - repeat constructor; simpl; apply not_elem_of_nil.
Defined.

Lemma mock_returns t g :
  Forall (fun q => options q <> []) t ->
  exists s g', get_ai_suggestions_mock t g = (Returned s, g').
Proof.
  intros Ht. destruct (mock_answers_total t g Ht) as (answers & g' & Hrun).
  exists (assign_all (map question t) answers []), g'.
  rewrite mock_as_assignments. unfold bind, ret. now rewrite Hrun.
Qed.

Lemma first_without_options (t : Template) :
  Exists (fun q => options q = []) t ->
  exists t1 q t2,
    t = t1 ++ q :: t2 /\
    Forall (fun q => options q <> []) t1 /\ options q = [].
Proof.
  induction t as [|q t IH]; intros Hex.
  - inversion Hex.
  - destruct (options q) as [|o os] eqn:Hq.
    + exists [], q, t. repeat split; [constructor | exact Hq].
    + apply Exists_cons in Hex as [Hex|Hex]; [congruence |].
      destruct (IH Hex) as (t1 & q' & t2 & -> & Ht1 & Hq').
      exists (q :: t1), q', t2. repeat split; [| exact Hq'].
      constructor; [congruence | exact Ht1].
Qed.

(** C5: for every template containing a question with zero options, the mock
    strategy fails with a defined failure, the [IndexError] of
    [random.choice], on the first such question: the questions before it are
    processed as usual and the failure leaves the generator where they left
    it. *)
Theorem mock_empty_options_fails (t : Template) (g : rng) :
  Exists (fun q => options q = []) t ->
  exists t1 q t2 s1 g1,
    t = t1 ++ q :: t2 /\
    Forall (fun q => options q <> []) t1 /\ options q = [] /\
    get_ai_suggestions_mock t1 g = (Returned s1, g1) /\
    get_ai_suggestions_mock t g = (Raised IndexError, g1).
Proof.
  intros Hex.
  destruct (first_without_options t Hex) as (t1 & q & t2 & -> & Ht1 & Hq).
  destruct (mock_returns t1 g Ht1) as (s1 & g1 & Hrun).
  exists t1, q, t2, s1, g1. repeat split; try assumption.
  unfold get_ai_suggestions_mock in *. rewrite for_each_app.
  unfold bind at 1. rewrite Hrun. simpl.
  unfold bind, mock_step, bind. now rewrite Hq.
Qed.

Lemma mock_empty_options_fails_witness :
  exists t1 q t2 s1 g1,
    no_options_template = t1 ++ q :: t2 /\
    Forall (fun q => options q <> []) t1 /\ options q = [] /\
    get_ai_suggestions_mock t1 rng0 = (Returned s1, g1) /\
    get_ai_suggestions_mock no_options_template rng0
    = (Raised IndexError, g1).
Proof.
  apply (mock_empty_options_fails no_options_template rng0).
  apply Exists_cons_tl, Exists_cons_hd. reflexivity.
Defined.

Example mock_no_options_run :
  get_ai_suggestions_mock no_options_template rng0
  = (Raised IndexError, {| draws := fun _ => 0%nat; used := 1 |}).
Proof. reflexivity. Qed.

Lemma mock_entries_fixed_reason t g s g' :
  get_ai_suggestions_mock t g = (Returned s, g') ->
  Forall (fun entry =>
            exists choice, snd entry = format_suggestion choice mock_reason) s.
Proof.
  rewrite mock_as_assignments. unfold bind, ret.
  destruct (map_m mock_answer t g) as [[answers|e] g1] eqn:Hrun;
    [| discriminate].
  intros [= <- _].
  apply mock_answers_returned in Hrun.
  assert (Hgen : forall ks (d : dict string),
             Forall (fun a => exists c, a = format_suggestion c mock_reason)
               answers ->
             Forall (fun entry => exists c,
                         snd entry = format_suggestion c mock_reason) d ->
             Forall (fun entry => exists c,
                         snd entry = format_suggestion c mock_reason)
               (assign_all ks answers d)).
  { clear. intros ks d Hans. revert ks d.
    induction Hans as [|a answers Ha Hans IH]; intros [|k ks] d Hd; simpl;
      auto.
    apply IH. clear IH. induction Hd as [|[k' v'] d Hkv Hd IHd]; simpl.
    - repeat constructor. exact Ha.
    - destruct (String.eqb k k'); constructor; auto. }
  apply Hgen; [| constructor].
  clear -Hrun. induction Hrun as [|q a t answers (c & _ & ->) _ IH];
    constructor; eauto.
Qed.

(** C8: the reason of the mock strategy is one fixed placeholder string,
    the same in every entry it returns; and for the template with the single
    question "Is the thesis clearly stated?" and the options Yes, No and
    Partially, whatever the generator draws, the result has that question as
    its single key, its chosen option is one of the three and its reason is
    the placeholder. *)
Theorem mock_fixed_reason :
  (forall t g s g',
      get_ai_suggestions_mock t g = (Returned s, g') ->
      Forall (fun entry =>
                exists choice,
                  snd entry = format_suggestion choice mock_reason) s) /\
  (forall g,
      exists choice g',
        choice ∈ ["Yes"; "No"; "Partially"] /\
        get_ai_suggestions_mock thesis_template g
        = (Returned [("Is the thesis clearly stated?",
                      "Option: " +:+ choice +:+ nl +:+ "Reason: "
                      +:+ mock_reason)], g')).
Proof.
  split; [exact mock_entries_fixed_reason |].
  intros g.
  destruct (random_choice_nonempty ["Yes"; "No"; "Partially"] g)
    as (c & Hin & Hc); [discriminate |].
  exists c, (next_draw g). split; [exact Hin |].
  unfold get_ai_suggestions_mock, thesis_template. simpl for_each.
  unfold bind, mock_step, bind. simpl options. rewrite Hc. reflexivity.
Qed.

Lemma mock_fixed_reason_witness :
  Forall (fun entry =>
            exists choice, snd entry = format_suggestion choice mock_reason)
    [("Is the thesis clearly stated?", format_suggestion "Yes" mock_reason)].
Proof.
  apply (proj1 mock_fixed_reason thesis_template rng0 _ (next_draw rng0)).
  reflexivity.
Defined.

(** ** The remote strategy *)

Lemma ask_spec (req : request) (w : world) :
  ask req w = (answer_of (net w (length (posted w)) req), log_post req w).
Proof.
  unfold ask, try_except_RequestException, bind, requests_post, answer_of,
    log_post.
  destruct (net w (length (posted w)) req) as [resp|e].
  - destruct (status_code resp =? 200); [| reflexivity].
    unfold lift. destruct (completion_text resp) as [a|[]]; reflexivity.
  - destruct e; reflexivity.
Qed.

Lemma openrouter_answer_spec key G U imgs q w :
  openrouter_answer key G U imgs q w =
  (answer_of (net w (length (posted w)) (request_for key G U imgs q)),
   log_post (request_for key G U imgs q) w).
Proof. apply ask_spec. Qed.

Lemma openrouter_step_keyed key G U imgs q acc w :
  openrouter_step key G U imgs q acc w =
  (let! a := openrouter_answer key G U imgs q in
   ret (dict_set (question q) a acc)) w.
Proof. reflexivity. Qed.

Lemma openrouter_as_assignments key G U imgs t w :
  str_truthy (Some key) = true ->
  get_ai_suggestions_openrouter (Some key) t G U imgs w =
  (let! answers := map_m (openrouter_answer key G U imgs) t in
   ret (assign_all (map question t) answers [])) w.
Proof.
  intros Hkey. unfold get_ai_suggestions_openrouter. rewrite Hkey. simpl.
  apply for_each_keyed, openrouter_step_keyed.
Qed.

Lemma call_outcome_next (w : world) (req0 req : request) (j : nat) :
  call_outcome (log_post req0 w) j req = call_outcome w (S j) req.
Proof.
  unfold call_outcome, log_post. simpl. rewrite length_app. simpl.
  f_equal. lia.
Qed.

(** The answers the remote strategy computes, when it computes them all:
    the [j]-th is what [ask] makes of the [j]-th call, and the calls made
    are the requests of the questions, in order. *)
Lemma remote_answers_returned key G U imgs t w answers w' :
  map_m (openrouter_answer key G U imgs) t w = (Returned answers, w') ->
  w' = {| net := net w;
          posted := posted w ++ map (request_for key G U imgs) t;
          st_errors := st_errors w |} /\
  forall j q,
    t !! j = Some q ->
    exists a,
      answers !! j = Some a /\
      answer_of (call_outcome w j (request_for key G U imgs q)) = Returned a.
Proof.
  revert w answers. induction t as [|q t IH]; intros w answers; simpl.
  - unfold ret. intros [= <- <-]. split.
    + destruct w. simpl. now rewrite app_nil_r.
    + intros j q Hj. discriminate.
  - unfold bind, ret. rewrite openrouter_answer_spec.
    destruct (answer_of (net w (length (posted w)) (request_for key G U imgs q)))
      as [a|e] eqn:Ha; [| discriminate].
    destruct (map_m _ t _) as [[ys|e] w1] eqn:Hys; [| discriminate].
    intros [= <- <-].
    apply IH in Hys as [-> Hys]. split.
    + simpl. now rewrite <- app_assoc.
    + intros [|j] q' Hj; simpl in Hj.
      * injection Hj as <-. exists a. split; [reflexivity |].
        unfold call_outcome. now rewrite Nat.add_0_r.
      * destruct (Hys j q' Hj) as (a' & Ha' & Hcall).
        exists a'. split; [exact Ha' |].
        now rewrite call_outcome_next in Hcall.
Qed.

Lemma remote_answers_total key G U imgs t w :
  (forall j q,
      t !! j = Some q ->
      exists a,
        answer_of (call_outcome w j (request_for key G U imgs q))
        = Returned a) ->
  exists answers w',
    map_m (openrouter_answer key G U imgs) t w = (Returned answers, w').
Proof.
  revert w. induction t as [|q t IH]; intros w Hcalls; simpl.
  - eexists _, _. reflexivity.
  - destruct (Hcalls 0%nat q eq_refl) as (a & Ha).
    unfold call_outcome in Ha. rewrite Nat.add_0_r in Ha.
    destruct (IH (log_post (request_for key G U imgs q) w))
      as (ys & w' & Hys).
    { intros j q' Hj. rewrite call_outcome_next. now apply (Hcalls (S j)). }
    exists (a :: ys), w'.
    unfold bind, ret. rewrite openrouter_answer_spec.
    now rewrite Ha, Hys.
Qed.

(** C2, as stated, fails: without a credential the strategy does not fail,
    it returns. *)
Lemma credential_gate_does_not_raise :
  ~ gate_raises None thesis_template "guideline" "task" None world0.
Proof. intros (e & w' & Hrun & _). discriminate Hrun. Qed.

(** C2, amended: for every task, if no credential string is configured
    (none, or an empty one), the remote strategy shows an error message and
    returns an empty mapping without raising; it makes no network call and
    yields no suggestions. *)
Theorem remote_credential_gate (key : option string) (t : Template)
    (guideline_text user_text : string)
    (image_descriptions : option (list string)) (w : world) :
  str_truthy key = false ->
  exists w',
    get_ai_suggestions_openrouter key t guideline_text user_text
      image_descriptions w = (Returned [], w') /\
    posted w' = posted w /\
    net w' = net w /\
    st_errors w' = st_errors w ++ [missing_key_message].
Proof.
  intros Hkey. exists (log_error missing_key_message w).
  unfold get_ai_suggestions_openrouter. rewrite Hkey. simpl.
  repeat split.
Qed.

Lemma remote_credential_gate_witness :
  exists w',
    get_ai_suggestions_openrouter (Some "") thesis_template "guideline" "task"
      None world0 = (Returned [], w') /\
    posted w' = posted world0 /\
    net w' = net world0 /\
    st_errors w' = st_errors world0 ++ [missing_key_message].
Proof.
  apply (remote_credential_gate (Some "") thesis_template "guideline" "task"
           None world0).
  reflexivity.
Defined.

(** C4, as stated, fails: with two questions of the same text, every call
    answered with a status other than 200, the mapping has one entry for two
    questions. *)
Lemma remote_isolation_fails_on_duplicates :
  str_truthy (Some "k") = true /\
  (forall j q,
      dup_template !! j = Some q ->
      exists a,
        answer_of (call_outcome world0 j (request_for "k" "g" "u" None q))
        = Returned a) /\
  ~ remote_isolation "k" dup_template "g" "u" None world0.
Proof.
  split; [reflexivity |]. split.
  - intros j q _. eexists. reflexivity.
  - intros (s & w' & Hrun & Hlen & _).
    vm_compute in Hrun. injection Hrun as <- _. discriminate Hlen.
Qed.

(** A call answered with status 200 whose body lacks the completion is not
    degraded to text: the [KeyError] leaves the strategy. *)
Lemma remote_aborts_on_malformed_success :
  let w := {| net := fun _ _ =>
                       Returned {| status_code := 200; text := "{}";
                                   json := Returned (PyDict []) |};
              posted := []; st_errors := [] |} in
  fst (get_ai_suggestions_openrouter (Some "k") thesis_template "g" "u" None w)
  = Raised (KeyError "choices").
Proof. reflexivity. Qed.

(** C4, amended: for every sequence of N questions with pairwise distinct
    texts processed by the remote strategy with a configured credential,
    where every call ends in something [ask] turns into an answer (a status
    other than 200, a [RequestException], or a status 200 with the
    completion text in its body), the strategy returns a mapping with N
    entries, in template order; the answer of a question whose call returned
    a status other than 200 is the error string with the status code and
    the response body, the answer of a question whose call failed on the
    network is the string with the exception text, and every answer is
    computed from that question's own call alone. *)
Theorem remote_degrades_in_place (key : string) (t : Template)
    (guideline_text user_text : string)
    (image_descriptions : option (list string)) (w : world) :
  str_truthy (Some key) = true ->
  NoDup (map question t) ->
  (forall j q,
      t !! j = Some q ->
      exists a,
        answer_of
          (call_outcome w j
             (request_for key guideline_text user_text image_descriptions q))
        = Returned a) ->
  remote_isolation key t guideline_text user_text image_descriptions w.
Proof.
  intros Hkey Hnd Hcalls.
  destruct (remote_answers_total _ _ _ _ _ _ Hcalls) as (answers & w' & Hrun).
  pose proof (map_m_length _ _ _ _ _ Hrun) as Hlen.
  destruct (remote_answers_returned _ _ _ _ _ _ _ _ Hrun) as [Hw' Hans].
  exists (zip (map question t) answers), w'. split; [| split; [| split; [| split]]].
  - rewrite openrouter_as_assignments by exact Hkey.
    unfold bind, ret. rewrite Hrun.
    rewrite assign_all_fresh; [reflexivity | exact Hnd | |].
    + intros k _. unfold dict_keys. simpl. apply not_elem_of_nil.
    + rewrite length_map. congruence.
  - rewrite length_zip_with, length_map. lia.
  - unfold dict_keys. apply fst_zip. rewrite length_map. lia.
  - rewrite Hw'. reflexivity.
  - intros j q Hj. destruct (Hans j q Hj) as (a & Ha & Hcall).
    exists a. split; [| split; [exact Hcall | split]].
    + apply lookup_zip_with_Some. exists (question q), a.
      split; [reflexivity | split; [| exact Ha]].
      rewrite list_lookup_fmap, Hj. reflexivity.
    + intros resp Hresp Hstatus. rewrite Hresp in Hcall. simpl in Hcall.
      destruct (Z.eqb_spec (status_code resp) 200); [contradiction |].
      now injection Hcall as <-.
    + intros e He. rewrite He in Hcall. simpl in Hcall.
      now injection Hcall as <-.
Qed.

(** Changing what one call does changes the entry of that question only. *)
Lemma remote_failure_is_isolated (key : string) (t : Template)
    (G U : string) (imgs : option (list string))
    (w1 w2 w1' w2' : world) (s1 s2 : dict string) (i : nat) :
  str_truthy (Some key) = true ->
  NoDup (map question t) ->
  length (posted w1) = length (posted w2) ->
  (forall n req,
      n <> (length (posted w1) + i)%nat -> net w1 n req = net w2 n req) ->
  get_ai_suggestions_openrouter (Some key) t G U imgs w1 = (Returned s1, w1') ->
  get_ai_suggestions_openrouter (Some key) t G U imgs w2 = (Returned s2, w2') ->
  forall j, j <> i -> s1 !! j = s2 !! j.
Proof.
  intros Hkey Hnd Hlen Hnet Hrun1 Hrun2 j Hj.
  rewrite openrouter_as_assignments in Hrun1, Hrun2 by exact Hkey.
  unfold bind, ret in Hrun1, Hrun2.
  destruct (map_m _ t w1) as [[a1|e1] w1''] eqn:H1; [| discriminate].
  destruct (map_m _ t w2) as [[a2|e2] w2''] eqn:H2; [| discriminate].
  injection Hrun1 as <- _. injection Hrun2 as <- _.
  pose proof (map_m_length _ _ _ _ _ H1) as Hl1.
  pose proof (map_m_length _ _ _ _ _ H2) as Hl2.
  apply remote_answers_returned in H1 as [_ H1].
  apply remote_answers_returned in H2 as [_ H2].
  assert (Hfresh : forall k, k ∈ map question t -> k ∉ dict_keys ([] : dict string)).
  { intros k _. apply not_elem_of_nil. }
  rewrite !assign_all_fresh; try assumption;
    try (rewrite length_map; congruence).
  simpl. destruct (t !! j) as [q|] eqn:Hq.
  - destruct (H1 j q Hq) as (x1 & Hx1 & Hc1).
    destruct (H2 j q Hq) as (x2 & Hx2 & Hc2).
    assert (Hsame : x1 = x2).
    { unfold call_outcome in Hc1, Hc2.
      rewrite Hnet, Hlen, Hc2 in Hc1 by lia. congruence. }
    subst x2.
    transitivity (Some (question q, x1)); [| symmetry];
      apply lookup_zip_with_Some; exists (question q), x1;
      (split; [reflexivity | split; [| assumption]]);
      rewrite list_lookup_fmap, Hq; reflexivity.
  - apply lookup_ge_None in Hq.
    transitivity (@None (string * string)); [| symmetry];
      apply lookup_ge_None; rewrite length_zip_with, length_map; lia.
Qed.

Lemma remote_degrades_in_place_witness :
  remote_isolation "k" two_questions "g" "u" None world_failing.
Proof.
  apply remote_degrades_in_place.
  - reflexivity.
  - repeat constructor; simpl; set_solver.
  - intros [|[|j]] q Hj; simpl in Hj; try discriminate;
      injection Hj as <-; eexists; reflexivity.
Defined.

Example remote_failing_run :
  fst (get_ai_suggestions_openrouter (Some "k") two_questions "g" "u" None
         world_failing)
  = Returned [("Q1", "Error 503: unavailable");
              ("Q2", "Request Exception: timed out")].
Proof. reflexivity. Qed.

(** ** Repeated question texts *)

Lemma assignments_collapsed (t : Template) (answers : list string) :
  length answers = length t ->
  collapsed t answers (assign_all (map question t) answers []).
Proof.
  intros Hlen.
  assert (Hks : length (map question t) = length answers).
  { rewrite length_map. congruence. }
  split; [exact Hlen |]. split; [| split; [| split]].
  - apply assign_all_NoDup. constructor.
  - intros x. rewrite assign_all_elem by exact Hks.
    unfold dict_keys. simpl. set_solver.
  - intros i q a Hq Ha Hlast.
    apply (assign_all_last _ _ _ i); [| exact Ha |].
    + rewrite list_lookup_fmap, Hq. reflexivity.
    + intros j Hij Hj. rewrite list_lookup_fmap in Hj.
      destruct (t !! j) as [q'|] eqn:Hq'; [| discriminate].
      injection Hj as Hj. exact (Hlast j q' Hij Hq' Hj).
  - intros Hdup. rewrite <- (length_map question t).
    apply assign_all_dup_length; assumption.
Qed.

(** C10, amended: a template with repeated question texts collapses in both
    strategies.  Whenever a strategy computes its answers (the mock one when
    every question has an option, the remote one when a credential is set
    and every call ends in an answer), the mapping it returns has one entry
    per distinct question text, the value of a text is the answer computed
    for its last question in template order, and a repeated text leaves
    fewer entries than the template has questions. *)
Theorem duplicate_texts_collapse :
  (forall t g,
      Forall (fun q => options q <> []) t ->
      exists answers s g',
        map_m mock_answer t g = (Returned answers, g') /\
        get_ai_suggestions_mock t g = (Returned s, g') /\
        collapsed t answers s) /\
  (forall key G U imgs t w,
      str_truthy (Some key) = true ->
      (forall j q,
          t !! j = Some q ->
          exists a,
            answer_of (call_outcome w j (request_for key G U imgs q))
            = Returned a) ->
      exists answers s w',
        map_m (openrouter_answer key G U imgs) t w = (Returned answers, w') /\
        get_ai_suggestions_openrouter (Some key) t G U imgs w
        = (Returned s, w') /\
        collapsed t answers s).
Proof.
  split.
  - intros t g Ht.
    destruct (mock_answers_total t g Ht) as (answers & g' & Hrun).
    exists answers, (assign_all (map question t) answers []), g'.
    split; [exact Hrun |]. split.
    + rewrite mock_as_assignments. unfold bind, ret. now rewrite Hrun.
    + apply assignments_collapsed. eapply map_m_length, Hrun.
  - intros key G U imgs t w Hkey Hcalls.
    destruct (remote_answers_total _ _ _ _ _ _ Hcalls)
      as (answers & w' & Hrun).
    exists answers, (assign_all (map question t) answers []), w'.
    split; [exact Hrun |]. split.
    + rewrite openrouter_as_assignments by exact Hkey.
      unfold bind, ret. now rewrite Hrun.
    + apply assignments_collapsed. eapply map_m_length, Hrun.
Qed.

Lemma duplicate_texts_collapse_witness :
  (exists answers s g',
      map_m mock_answer dup_template rng0 = (Returned answers, g') /\
      get_ai_suggestions_mock dup_template rng0 = (Returned s, g') /\
      collapsed dup_template answers s) /\
  (exists answers s w',
      map_m (openrouter_answer "k" "g" "u" None) dup_template world_failing
      = (Returned answers, w') /\
      get_ai_suggestions_openrouter (Some "k") dup_template "g" "u" None
        world_failing = (Returned s, w') /\
      collapsed dup_template answers s).
Proof.
  split.
  - apply (proj1 duplicate_texts_collapse dup_template rng0).
    repeat constructor; discriminate.
  - apply (proj2 duplicate_texts_collapse "k" "g" "u" None dup_template
             world_failing); [reflexivity |].
    intros [|[|j]] q Hq; [eexists; reflexivity .. | discriminate Hq].
Defined.

(** C10 as it was stated, without a word on the answers being computed,
    fails: on a template with a repeated text the mock strategy returns no
    mapping when a question has no option, whatever the generator gives, and
    the remote strategy returns the empty mapping when no credential is
    set. *)
Lemma duplicate_texts_without_answers :
  ~ NoDup (map question dup_no_options) /\
  (forall g, fst (get_ai_suggestions_mock dup_no_options g)
             = Raised IndexError) /\
  ~ NoDup (map question dup_template) /\
  (forall w, fst (get_ai_suggestions_openrouter None dup_template "g" "u"
                    None w) = Returned []).
Proof.
  assert (Hdup : ~ NoDup ["Q"; "Q"]).
  { intros Hnd. apply NoDup_cons in Hnd as [Hnotin _].
    apply Hnotin. left. }
  split; [exact Hdup |]. split; [reflexivity |].
  split; [exact Hdup | reflexivity].
Qed.

Example mock_duplicates_run :
  fst (get_ai_suggestions_mock dup_template rng0)
  = Returned [("Q", format_suggestion "b" mock_reason)].
Proof. reflexivity. Qed.

Example remote_duplicates_run :
  fst (get_ai_suggestions_openrouter (Some "k") dup_template "g" "u" None
         world_failing)
  = Returned [("Q", "Request Exception: timed out")].
Proof. reflexivity. Qed.

(** ** Names of stored templates *)

Lemma endswith_unfold s suffix :
  endswith s suffix =
  if String.eqb s suffix then true
  else match s with
       | "" => false
       | String _ s' => endswith s' suffix
       end.
Proof. destruct s; reflexivity. Qed.

Lemma endswith_app s suffix : endswith (s +:+ suffix) suffix = true.
Proof.
  induction s as [|c s IH].
  - rewrite app_empty_l, endswith_unfold. now rewrite String.eqb_refl.
  - rewrite app_String, endswith_unfold.
    destruct (String.eqb (String c (s +:+ suffix)) suffix);
      [reflexivity | exact IH].
Qed.

Lemma str_in_cons sub c s :
  str_in sub (String c s) =
  if String.prefix sub (String c s) then true else str_in sub s.
Proof. reflexivity. Qed.

Lemma replace_from_cons old new c s :
  replace_from old new O (String c s) =
  if String.prefix old (String c s)
  then new +:+ replace_from old new (Nat.pred (String.length old)) s
  else String c (replace_from old new O s).
Proof. reflexivity. Qed.

Lemma prefix_split p s :
  String.prefix p s = true -> exists b, s = p +:+ b.
Proof.
  revert s. induction p as [|a p IH]; intros s; simpl.
  - intros _. now exists s.
  - destruct s as [|c s]; simpl; [discriminate |].
    destruct (ascii_dec a c) as [<-|]; [| discriminate].
    intros Hp. destruct (IH s Hp) as (b & ->). now exists b.
Qed.

Lemma prefix_app p b : String.prefix p (p +:+ b) = true.
Proof.
  induction p as [|a p IH]; simpl; [now destruct b |].
  destruct (ascii_dec a a); [exact IH | contradiction].
Qed.

Lemma prefix_cons a p c s :
  String.prefix (String a p) (String c s) = Ascii.eqb a c && String.prefix p s.
Proof.
  simpl. destruct (ascii_dec a c) as [<-|Hne].
  - now rewrite Ascii.eqb_refl.
  - destruct (Ascii.eqb_spec a c); [contradiction | reflexivity].
Qed.

Lemma prefix_empty s : String.prefix "" s = true.
Proof. now destruct s. Qed.

(** One more character of the name is read against the extension. *)
Ltac extension_step H N a :=
  let c := fresh "c" in
  destruct N as [|c N]; [vm_compute in H; discriminate H |];
  rewrite app_String, prefix_cons in H; rewrite prefix_cons;
  destruct (Ascii.eqb_spec a c) as [<-|]; [| discriminate H];
  cbn [andb] in H |- *.

(** The extension does not overlap itself: it starts a name followed by the
    extension only where it starts the name. *)
Lemma prefix_json_app N :
  String.prefix ".json" (N +:+ ".json") = true ->
  String.prefix ".json" N = true \/ N = "".
Proof.
  intros H. destruct N as [|c1 N]; [now right | left].
  rewrite app_String, prefix_cons in H. rewrite prefix_cons.
  destruct (Ascii.eqb_spec "." c1) as [<-|]; [| discriminate H].
  cbn [andb] in H |- *.
  extension_step H N "j"%char. extension_step H N "s"%char.
  extension_step H N "o"%char. extension_step H N "n"%char.
  apply prefix_empty.
Qed.

Lemma replace_json_at b :
  replace_from ".json" "" O (".json" +:+ b) = replace_from ".json" "" O b.
Proof.
  assert (H : String.prefix ".json" (String "." ("json" +:+ b)) = true)
    by apply (prefix_app ".json" b).
  change (".json" +:+ b) with (String "." ("json" +:+ b)).
  rewrite replace_from_cons, H. reflexivity.
Qed.

Lemma replace_json_length k s :
  (String.length (replace_from ".json" "" k s) <= String.length s)%nat.
Proof.
  revert k. induction s as [|c s IH]; intros k; [simpl; lia |].
  change (String.length (String c s)) with (S (String.length s)).
  destruct k as [|k].
  - rewrite replace_from_cons.
    destruct (String.prefix ".json" (String c s)).
    + rewrite app_empty_l. specialize (IH (Nat.pred (String.length ".json"))).
      lia.
    + specialize (IH O).
      change (String.length (String c ?x)) with (S (String.length x)). lia.
  - specialize (IH k).
    change (replace_from ".json" "" (S k) (String c s))
      with (replace_from ".json" "" k s).
    lia.
Qed.

Lemma replace_json_shrinks s :
  str_in ".json" s = true ->
  (String.length (replace_from ".json" "" O s) + 5 <= String.length s)%nat.
Proof.
  induction s as [|c s IH]; [intros H; vm_compute in H; discriminate H |].
  rewrite str_in_cons.
  destruct (String.prefix ".json" (String c s)) eqn:Hp.
  - intros _. destruct (prefix_split _ _ Hp) as (b & Hb).
    rewrite Hb, replace_json_at, str_length_app.
    pose proof (replace_json_length O b) as Hlen.
    change (String.length ".json") with 5%nat. lia.
  - intros Hin. rewrite replace_from_cons, Hp. specialize (IH Hin).
    change (String.length (String c ?x)) with (S (String.length x)). lia.
Qed.

Lemma str_in_app_json N : str_in ".json" (N +:+ ".json") = true.
Proof.
  induction N as [|c N IH]; [reflexivity |].
  rewrite app_String, str_in_cons.
  destruct (String.prefix _ _); [reflexivity | exact IH].
Qed.

(** A name without the extension inside is listed as it is. *)
Lemma listed_name_plain N :
  str_in ".json" N = false -> str_replace (N +:+ ".json") ".json" "" = N.
Proof.
  change (str_replace (N +:+ ".json") ".json" "")
    with (replace_from ".json" "" O (N +:+ ".json")).
  induction N as [|c N IH]; [reflexivity |].
  rewrite str_in_cons.
  destruct (String.prefix ".json" (String c N)) eqn:Hp; [discriminate |].
  intros Hin. rewrite app_String, replace_from_cons.
  destruct (String.prefix ".json" (String c (N +:+ ".json"))) eqn:Hp'.
  - apply (prefix_json_app (String c N)) in Hp' as [Hp'|Hp']; congruence.
  - f_equal. exact (IH Hin).
Qed.

(** A name with the extension inside is listed shorter by five characters
    at least. *)
Lemma listed_name_mangled_length N :
  str_in ".json" N = true ->
  (String.length (str_replace (N +:+ ".json") ".json" "") + 5
   <= String.length N)%nat.
Proof.
  change (str_replace (N +:+ ".json") ".json" "")
    with (replace_from ".json" "" O (N +:+ ".json")).
  induction N as [|c N IH]; [intros H; vm_compute in H; discriminate H |].
  rewrite str_in_cons.
  destruct (String.prefix ".json" (String c N)) eqn:Hp.
  - intros _. destruct (prefix_split _ _ Hp) as (b & Hb).
    rewrite Hb, str_app_assoc, replace_json_at.
    pose proof (replace_json_shrinks (b +:+ ".json") (str_in_app_json b)) as H.
    rewrite !str_length_app in *.
    change (String.length ".json") with 5%nat in *. lia.
  - intros Hin. rewrite app_String, replace_from_cons.
    destruct (String.prefix ".json" (String c (N +:+ ".json"))) eqn:Hp'.
    + apply (prefix_json_app (String c N)) in Hp' as [Hp'|Hp']; congruence.
    + specialize (IH Hin).
      change (String.length (String c ?x)) with (S (String.length x)). lia.
Qed.

Lemma listed_name_mangled N :
  str_in ".json" N = true -> str_replace (N +:+ ".json") ".json" "" <> N.
Proof.
  intros Hin Heq. apply listed_name_mangled_length in Hin.
  rewrite Heq in Hin. lia.
Qed.

(** ** Paths *)

Lemma has_char_app c s t :
  has_char c (s +:+ t) = has_char c s || has_char c t.
Proof.
  induction s as [|a s IH]; [reflexivity |].
  rewrite app_String. simpl. rewrite IH. now rewrite orb_assoc.
Qed.

Lemma fs_length_app s t : fs_length (s +:+ t) = (fs_length s + fs_length t)%nat.
Proof.
  induction s as [|a s IH]; [reflexivity |].
  rewrite app_String. simpl. rewrite IH. lia.
Qed.

(** A text without the separator is one piece. *)
Lemma str_split_plain sep s : has_char sep s = false -> str_split sep s = [s].
Proof.
  induction s as [|c s IH]; [reflexivity |].
  simpl. destruct (Ascii.eqb c sep); [discriminate |].
  intros Hs. now rewrite (IH Hs).
Qed.

Lemma str_split_app_sep sep a b :
  has_char sep a = false ->
  str_split sep (a +:+ String sep b) = a :: str_split sep b.
Proof.
  induction a as [|c a IH].
  - intros _. rewrite app_empty_l. simpl. now rewrite Ascii.eqb_refl.
  - rewrite app_String. simpl. destruct (Ascii.eqb c sep); [discriminate |].
    intros Ha. now rewrite (IH Ha).
Qed.

(** The file name of a template is a name: not empty, not "." and not
    "..". *)
Lemma json_name_length N : (5 <= String.length (N +:+ ".json"))%nat.
Proof. rewrite str_length_app. simpl. lia. Qed.

Lemma json_name_ordinary N :
  (String.eqb (N +:+ ".json") "" || String.eqb (N +:+ ".json") ".") = false /\
  String.eqb (N +:+ ".json") ".." = false.
Proof.
  pose proof (json_name_length N) as Hlen.
  split; [apply orb_false_intro |]; apply String.eqb_neq; intros Heq;
    rewrite Heq in Hlen; simpl in Hlen; lia.
Qed.

Lemma plain_name_spec N :
  plain_name N = true <->
  has_char "/" N = false /\ has_char "000" N = false /\
  (fs_length (N +:+ ".json") <= NAME_MAX)%nat.
Proof.
  unfold plain_name. rewrite !andb_true_iff, !negb_true_iff, Nat.leb_le.
  tauto.
Qed.

Lemma is_dir_true fs p : p ∈ dirs fs -> is_dir fs p = true.
Proof. intros Hp. unfold is_dir. now apply bool_decide_eq_true_2. Qed.

Lemma is_dir_false fs p : p ∉ dirs fs -> is_dir fs p = false.
Proof. intros Hp. unfold is_dir. now apply bool_decide_eq_false_2. Qed.

Lemma template_path_inj fs f g :
  template_path fs f = template_path fs g -> f = g.
Proof.
  unfold template_path. intros Heq. apply app_inv_head in Heq. congruence.
Qed.

Lemma template_path_snoc fs f :
  (cwd fs ++ [TEMPLATE_DIR]) ++ [f] = template_path fs f.
Proof. unfold template_path. now rewrite <- app_assoc. Qed.

(** The path that [save_template], [load_template] and [delete_template]
    build for a plain name is the one of the entry in the template
    directory. *)
Lemma template_file_path N :
  has_char "/" N = false ->
  os_path_join TEMPLATE_DIR (N +:+ ".json")
  = "templates" +:+ String "/" (N +:+ ".json").
Proof.
  intros Hsep. unfold os_path_join.
  assert (Hroot : String.prefix "/" (N +:+ ".json") = false).
  { destruct N as [|c N]; [reflexivity |].
    rewrite app_String, prefix_cons. simpl in Hsep.
    apply orb_false_elim in Hsep as [Hc _].
    rewrite Ascii.eqb_sym. now rewrite Hc. }
  rewrite Hroot. reflexivity.
Qed.

Lemma resolve_template_file fs N :
  template_dir fs -> plain_name N = true ->
  resolve fs (os_path_join TEMPLATE_DIR (N +:+ ".json"))
  = Returned (template_path fs (N +:+ ".json")).
Proof.
  intros Hdir HN. apply plain_name_spec in HN as (Hsep & Hnul & Hlen).
  rewrite template_file_path by exact Hsep.
  assert (Hsep' : has_char "/" (N +:+ ".json") = false).
  { rewrite has_char_app, Hsep. reflexivity. }
  unfold resolve.
  rewrite has_char_app. simpl has_char at 1. cbn [orb].
  change (String "/" ?x) with ("/" +:+ x) at 1.
  rewrite !has_char_app, Hnul. cbn [has_char orb Ascii.eqb Bool.eqb].
  rewrite fs_length_app. simpl fs_length at 1.
  change (fs_length (String "/" ?x)) with (S (fs_length x)).
  unfold NAME_MAX in Hlen. unfold PATH_MAX.
  destruct (Nat.leb_spec 4096 (9 + S (fs_length (N +:+ ".json")))) as [Hbig|_];
    [lia |].
  rewrite str_split_app_sep by reflexivity.
  rewrite str_split_plain by exact Hsep'.
  cbn [String.append String.eqb String.prefix].
  simpl walk.
  rewrite is_dir_true by exact Hdir.
  destruct (json_name_ordinary N) as [-> ->].
  destruct (Nat.ltb_spec NAME_MAX (fs_length (N +:+ ".json"))) as [Hbig|_];
    [unfold NAME_MAX in Hbig; lia |].
  now rewrite template_path_snoc.
Qed.

Lemma resolve_template_dir fs :
  resolve fs TEMPLATE_DIR = Returned (cwd fs ++ [TEMPLATE_DIR]).
Proof. reflexivity. Qed.

(** ** Files of plain names *)

Lemma save_template_plain N data fs :
  template_dir fs -> plain_name N = true ->
  save_template N data fs
  = if is_dir fs (template_path fs (N +:+ ".json"))
    then (Raised (IsADirectoryError
                    (os_path_join TEMPLATE_DIR (N +:+ ".json"))), fs)
    else (Returned tt,
          put_file (template_path fs (N +:+ ".json")) (json_dumps data) fs).
Proof.
  intros Hdir HN. unfold save_template, write_file.
  now rewrite resolve_template_file.
Qed.

Lemma save_template_run N data fs :
  template_dir fs -> plain_name N = true ->
  template_path fs (N +:+ ".json") ∉ dirs fs ->
  save_template N data fs
  = (Returned tt,
     put_file (template_path fs (N +:+ ".json")) (json_dumps data) fs).
Proof.
  intros Hdir HN Hfree. rewrite save_template_plain by assumption.
  now rewrite is_dir_false.
Qed.

Lemma load_template_plain N fs :
  template_dir fs -> plain_name N = true ->
  load_template N fs
  = match files fs !! template_path fs (N +:+ ".json") with
    | Some data => (json_loads data, fs)
    | None =>
        if is_dir fs (template_path fs (N +:+ ".json"))
        then (Raised (IsADirectoryError
                        (os_path_join TEMPLATE_DIR (N +:+ ".json"))), fs)
        else (Raised (FileNotFoundError
                        (os_path_join TEMPLATE_DIR (N +:+ ".json"))), fs)
    end.
Proof.
  intros Hdir HN. unfold load_template, bind, read_file, lift.
  rewrite resolve_template_file by assumption.
  destruct (files fs !! template_path fs (N +:+ ".json")); [reflexivity |].
  now destruct (is_dir fs _).
Qed.

Lemma delete_template_plain N fs :
  template_dir fs -> plain_name N = true ->
  delete_template N fs
  = match files fs !! template_path fs (N +:+ ".json") with
    | Some _ => (Returned tt, drop_file (template_path fs (N +:+ ".json")) fs)
    | None =>
        if is_dir fs (template_path fs (N +:+ ".json"))
        then (Raised (IsADirectoryError
                        (os_path_join TEMPLATE_DIR (N +:+ ".json"))), fs)
        else (Raised (FileNotFoundError
                        (os_path_join TEMPLATE_DIR (N +:+ ".json"))), fs)
    end.
Proof.
  intros Hdir HN. unfold delete_template, os_remove.
  now rewrite resolve_template_file.
Qed.

Lemma load_template_missing N fs :
  template_dir fs -> plain_name N = true ->
  files fs !! template_path fs (N +:+ ".json") = None ->
  template_path fs (N +:+ ".json") ∉ dirs fs ->
  load_template N fs
  = (Raised (FileNotFoundError (os_path_join TEMPLATE_DIR (N +:+ ".json"))),
     fs).
Proof.
  intros Hdir HN Hnone Hfree. rewrite load_template_plain by assumption.
  now rewrite Hnone, is_dir_false.
Qed.

(** ** The entries of a directory *)

Lemma child_of_spec k p c : child_of k p = Some c <-> p = k ++ [c].
Proof.
  unfold child_of. split.
  - destruct (last p) as [c'|]; [| discriminate].
    destruct (bool_decide_reflect (p = k ++ [c'])) as [Hp|]; [| discriminate].
    intros [= <-]. exact Hp.
  - intros ->. rewrite last_snoc. now rewrite bool_decide_eq_true_2.
Qed.

Lemma children_spec fs k c :
  c ∈ children fs k <->
  is_Some (files fs !! (k ++ [c])) \/ k ++ [c] ∈ dirs fs.
Proof.
  unfold children. rewrite list_elem_of_omap. split.
  - intros (p & Hp & Hc). apply child_of_spec in Hc as ->.
    apply elem_of_app in Hp as [Hp|Hp].
    + left. apply list_elem_of_fmap in Hp as ([p v] & -> & Hpv).
      apply elem_of_map_to_list in Hpv. now exists v.
    + right. now apply elem_of_elements in Hp.
  - intros [[v Hv]|Hd]; exists (k ++ [c]); (split; [| now apply child_of_spec]);
      apply elem_of_app.
    + left. apply list_elem_of_fmap. exists (k ++ [c], v).
      split; [reflexivity | now apply elem_of_map_to_list].
    + right. now apply elem_of_elements.
Qed.

Lemma omap_all_none {A B} (f : A -> option B) (l : list A) :
  (forall x, x ∈ l -> f x = None) -> omap f l = [].
Proof.
  induction l as [|a l IH]; [reflexivity |].
  intros Hall. simpl. rewrite (Hall a) by left.
  apply IH. intros x Hx. apply Hall. now right.
Qed.

Lemma NoDup_omap_inj {A B} (f : A -> option B) (l : list A) :
  (forall x y b, f x = Some b -> f y = Some b -> x = y) ->
  NoDup l -> NoDup (omap f l).
Proof.
  intros Hinj. induction 1 as [|a l Ha Hl IH]; [constructor |].
  simpl. destruct (f a) as [b|] eqn:Hfa; [| exact IH].
  constructor; [| exact IH].
  intros Hb. apply list_elem_of_omap in Hb as (y & Hy & Hfy).
  rewrite (Hinj a y b Hfa Hfy) in Ha. contradiction.
Qed.

(** Where no entry of [k] is a directory, each entry is listed once. *)
Lemma children_NoDup fs k :
  (forall c, k ++ [c] ∉ dirs fs) -> NoDup (children fs k).
Proof.
  intros Hflat. unfold children. rewrite omap_app.
  rewrite (omap_all_none _ (elements (dirs fs))).
  - rewrite app_nil_r. apply NoDup_omap_inj.
    + intros x y b Hx Hy. apply child_of_spec in Hx, Hy. congruence.
    + apply NoDup_fst_map_to_list.
  - intros p Hp. apply elem_of_elements in Hp.
    destruct (child_of k p) as [c|] eqn:Hc; [| reflexivity].
    apply child_of_spec in Hc as ->. now apply Hflat in Hp.
Qed.

(** ** The template store *)

(** [list_templates] returns, for every entry of the template directory
    that ends with the extension, the entry name with every occurrence of
    the extension removed. *)
Lemma list_templates_spec fs :
  template_dir fs ->
  exists names,
    list_templates fs = (Returned names, fs) /\
    forall x,
      x ∈ names <->
      exists f, (is_Some (files fs !! template_path fs f) \/
                 template_path fs f ∈ dirs fs) /\
                endswith f ".json" = true /\ x = listed_as f.
Proof.
  intros Hdir. unfold list_templates, bind, os_listdir, ret.
  rewrite resolve_template_dir, is_dir_true by exact Hdir.
  eexists. split; [reflexivity |].
  intros x. rewrite list_elem_of_fmap. split.
  - intros (f & -> & Hf). apply list_elem_of_In, filter_In in Hf as [Hf Hend].
    apply list_elem_of_In, children_spec in Hf.
    rewrite template_path_snoc in Hf. now exists f.
  - intros (f & Hf & Hend & ->). exists f. split; [reflexivity |].
    apply list_elem_of_In, filter_In. split; [| exact Hend].
    apply list_elem_of_In, children_spec. now rewrite template_path_snoc.
Qed.

Lemma list_templates_missing fs :
  cwd fs ++ [TEMPLATE_DIR] ∉ dirs fs ->
  exists e, list_templates fs = (Raised e, fs).
Proof.
  intros Hdir. unfold list_templates, bind, os_listdir.
  rewrite resolve_template_dir, is_dir_false by exact Hdir.
  destruct (is_file fs _); eexists; reflexivity.
Qed.

Lemma delete_template_missing N fs :
  template_dir fs -> plain_name N = true ->
  files fs !! template_path fs (N +:+ ".json") = None ->
  template_path fs (N +:+ ".json") ∉ dirs fs ->
  delete_template N fs
  = (Raised (FileNotFoundError (os_path_join TEMPLATE_DIR (N +:+ ".json"))),
     fs).
Proof.
  intros Hdir HN Hnone Hfree. rewrite delete_template_plain by assumption.
  now rewrite Hnone, is_dir_false.
Qed.

Lemma delete_template_returned N fs fs' :
  template_dir fs -> plain_name N = true ->
  delete_template N fs = (Returned tt, fs') ->
  is_Some (files fs !! template_path fs (N +:+ ".json")) /\
  fs' = drop_file (template_path fs (N +:+ ".json")) fs.
Proof.
  intros Hdir HN. rewrite delete_template_plain by assumption.
  destruct (files fs !! template_path fs (N +:+ ".json")) as [v|] eqn:Hv.
  - intros [= <-]. split; [now exists v | reflexivity].
  - destruct (is_dir fs _); discriminate.
Qed.

(** After a successful delete the template cannot be loaded. *)
Lemma delete_then_load N fs fs' :
  template_dir fs -> plain_name N = true ->
  delete_template N fs = (Returned tt, fs') ->
  template_path fs (N +:+ ".json") ∉ dirs fs ->
  load_template N fs'
  = (Raised (FileNotFoundError (os_path_join TEMPLATE_DIR (N +:+ ".json"))),
     fs').
Proof.
  intros Hdir HN Hdel Hfree.
  apply delete_template_returned in Hdel as [_ ->]; [| assumption ..].
  apply load_template_missing; [exact Hdir | exact HN | | exact Hfree].
  apply lookup_delete_eq.
Qed.

(** After a successful delete the name is listed only if another entry is
    listed under it. *)
Lemma delete_then_list N fs fs' names :
  template_dir fs -> plain_name N = true ->
  template_path fs (N +:+ ".json") ∉ dirs fs ->
  delete_template N fs = (Returned tt, fs') ->
  list_templates fs' = (Returned names, fs') ->
  N ∈ names ->
  exists f, f <> N +:+ ".json" /\
            (is_Some (files fs !! template_path fs f) \/
             template_path fs f ∈ dirs fs) /\
            endswith f ".json" = true /\ listed_as f = N.
Proof.
  intros Hdir HN Hfree Hdel Hlist Hin.
  apply delete_template_returned in Hdel as [_ ->]; [| assumption ..].
  destruct (list_templates_spec
              (drop_file (template_path fs (N +:+ ".json")) fs) Hdir)
    as (names' & Hrun & Hspec).
  rewrite Hrun in Hlist. injection Hlist as <-.
  apply Hspec in Hin as (f & Hf & Hend & Hname).
  change (template_path (drop_file _ fs)) with (template_path fs) in Hf.
  simpl in Hf.
  exists f. split; [| split; [| split; [exact Hend | congruence]]].
  - intros ->. destruct Hf as [[v Hv]|Hd]; [| contradiction].
    now rewrite lookup_delete_eq in Hv.
  - destruct Hf as [[v Hv]|Hd]; [left | now right].
    apply lookup_delete_Some in Hv as [_ Hv]. now exists v.
Qed.

Lemma store_a_and_a_json_saved :
  let data := py_of_template thesis_template in
  (let! _ := startup in
   let! _ := save_template "a" data in
   save_template "a.json" data) bare_fs
  = (Returned tt, store_a_and_a_json).
Proof. vm_compute. reflexivity. Qed.

(** C6, at the failing input: with templates saved under the names "a" and
    "a.json", deleting "a" succeeds, "a" can no longer be loaded, and
    [list_templates] still contains "a". *)
Theorem delete_leaves_listed_name :
  exists d' names,
    delete_template "a" store_a_and_a_json = (Returned tt, d') /\
    fst (load_template "a" d')
    = Raised (FileNotFoundError "templates/a.json") /\
    list_templates d' = (Returned names, d') /\
    "a" ∈ names.
Proof.
  exists (drop_file ["app"; "templates"; "a.json"] store_a_and_a_json), ["a"].
  split; [| split; [| split]].
  - vm_compute. reflexivity.
  - vm_compute. reflexivity.
  - vm_compute. reflexivity.
  - apply list_elem_of_here.
Qed.

(** The listed name of a plain name is a plain name. *)
Lemma replace_json_has_char c k s :
  has_char c s = false -> has_char c (replace_from ".json" "" k s) = false.
Proof.
  revert k. induction s as [|a s IH]; intros k; [reflexivity |].
  intros Hs. simpl in Hs. apply orb_false_elim in Hs as [Ha Hs].
  destruct k as [|k].
  - rewrite replace_from_cons.
    destruct (String.prefix ".json" (String a s)).
    + rewrite app_empty_l. now apply IH.
    + simpl. rewrite Ha. now apply IH.
  - change (replace_from ".json" "" (S k) (String a s))
      with (replace_from ".json" "" k s).
    now apply IH.
Qed.

Lemma fs_length_cons c s :
  (fs_length s < fs_length (String c s) <= 2 + fs_length s)%nat.
Proof. simpl. destruct (nat_of_ascii c <? 128)%nat; lia. Qed.

Lemma replace_json_fs_length k s :
  (fs_length (replace_from ".json" "" k s) <= fs_length s)%nat.
Proof.
  revert k. induction s as [|c s IH]; intros k; [simpl; lia |].
  pose proof (fs_length_cons c s) as Hc.
  destruct k as [|k].
  - rewrite replace_from_cons.
    destruct (String.prefix ".json" (String c s)).
    + rewrite app_empty_l. specialize (IH (Nat.pred (String.length ".json"))).
      lia.
    + specialize (IH O). clear Hc. simpl fs_length.
      destruct (nat_of_ascii c <? 128)%nat; lia.
  - specialize (IH k).
    change (replace_from ".json" "" (S k) (String c s))
      with (replace_from ".json" "" k s).
    lia.
Qed.

Lemma replace_json_fs_shrinks s :
  str_in ".json" s = true ->
  (fs_length (replace_from ".json" "" O s) + 5 <= fs_length s)%nat.
Proof.
  induction s as [|c s IH]; [intros H; vm_compute in H; discriminate H |].
  rewrite str_in_cons.
  destruct (String.prefix ".json" (String c s)) eqn:Hp.
  - intros _. destruct (prefix_split _ _ Hp) as (b & Hb).
    rewrite Hb, replace_json_at, fs_length_app.
    pose proof (replace_json_fs_length O b) as Hlen.
    change (fs_length ".json") with 5%nat. lia.
  - intros Hin. rewrite replace_from_cons, Hp. specialize (IH Hin).
    simpl fs_length. destruct (nat_of_ascii c <? 128)%nat; lia.
Qed.

Lemma listed_name_fs_length N :
  str_in ".json" N = true ->
  (fs_length (listed_as (N +:+ ".json")) + 5 <= fs_length N)%nat.
Proof.
  unfold listed_as.
  change (str_replace (N +:+ ".json") ".json" "")
    with (replace_from ".json" "" O (N +:+ ".json")).
  induction N as [|c N IH]; [intros H; vm_compute in H; discriminate H |].
  rewrite str_in_cons.
  destruct (String.prefix ".json" (String c N)) eqn:Hp.
  - intros _. destruct (prefix_split _ _ Hp) as (b & Hb).
    rewrite Hb, str_app_assoc, replace_json_at.
    pose proof (replace_json_fs_shrinks (b +:+ ".json") (str_in_app_json b))
      as H.
    rewrite !fs_length_app in *.
    change (fs_length ".json") with 5%nat in *. lia.
  - intros Hin. rewrite app_String, replace_from_cons.
    destruct (String.prefix ".json" (String c (N +:+ ".json"))) eqn:Hp'.
    + apply (prefix_json_app (String c N)) in Hp' as [Hp'|Hp']; congruence.
    + specialize (IH Hin). simpl fs_length.
      destruct (nat_of_ascii c <? 128)%nat; lia.
Qed.

Lemma listed_name_is_plain N :
  plain_name N = true -> str_in ".json" N = true ->
  plain_name (listed_as (N +:+ ".json")) = true.
Proof.
  intros HN Hin. apply plain_name_spec in HN as (Hsep & Hnul & Hlen).
  apply plain_name_spec. unfold listed_as.
  change (str_replace (N +:+ ".json") ".json" "")
    with (replace_from ".json" "" O (N +:+ ".json")).
  split; [| split].
  - apply replace_json_has_char. now rewrite has_char_app, Hsep.
  - apply replace_json_has_char. now rewrite has_char_app, Hnul.
  - pose proof (listed_name_fs_length N Hin) as Hshort.
    unfold listed_as in Hshort.
    change (str_replace (N +:+ ".json") ".json" "")
      with (replace_from ".json" "" O (N +:+ ".json")) in Hshort.
    rewrite fs_length_app in *. change (fs_length ".json") with 5%nat in *.
    lia.
Qed.

(** C9 as it was stated fails where it says that loading the listed name
    fails: with a template stored under "a", the template saved under
    "a.json" is listed as "a", and loading "a" returns the template that was
    there.  It fails for a name with a separator as well: "x/y" does not
    contain the extension, and saving under it raises. *)
Lemma listed_name_loads_another :
  let mine := py_of_template thesis_template in
  let other := py_of_template two_questions in
  exists fs names,
    (let! _ := startup in
     let! _ := save_template "a" other in
     save_template "a.json" mine) bare_fs = (Returned tt, fs) /\
    list_templates fs = (Returned names, fs) /\
    listed_as ("a.json" +:+ ".json") = "a" /\
    "a" ∈ names /\
    load_template "a" fs = (Returned other, fs) /\
    str_in ".json" "x/y" = false /\
    (let! _ := startup in
     let! _ := save_template "x/y" mine in
     list_templates) bare_fs
    = (Raised (FileNotFoundError "templates/x/y.json"), fresh_fs).
Proof.
  eexists _, ["a"; "a"].
  split; [vm_compute; reflexivity |].
  split; [vm_compute; reflexivity |].
  split; [reflexivity |].
  split; [apply list_elem_of_here |].
  split; [vm_compute; reflexivity |].
  split; vm_compute; reflexivity.
Qed.

Lemma startup_bare_fs : startup bare_fs = (Returned tt, fresh_fs).
Proof. vm_compute. reflexivity. Qed.

Lemma fresh_fs_template_dir : template_dir fresh_fs.
Proof. unfold template_dir, fresh_fs. simpl. set_solver. Qed.

Lemma fresh_fs_no_subdir f : template_path fresh_fs f ∉ dirs fresh_fs.
Proof.
  unfold template_path, fresh_fs. simpl.
  rewrite !elem_of_union, !elem_of_singleton. intros [H|[H|H]]; discriminate H.
Qed.

(** One file in the template directory that was empty: one entry. *)
Lemma list_templates_one f data :
  list_templates (put_file (template_path fresh_fs f) data fresh_fs)
  = (Returned (if endswith f ".json" then [listed_as f] else []),
     put_file (template_path fresh_fs f) data fresh_fs).
Proof.
  unfold list_templates, bind, os_listdir, ret.
  rewrite resolve_template_dir.
  rewrite is_dir_true by apply fresh_fs_template_dir.
  assert (Hchildren :
            children (put_file (template_path fresh_fs f) data fresh_fs)
              (cwd fresh_fs ++ [TEMPLATE_DIR]) = [f]).
  { unfold children, put_file. cbn [files dirs].
    change (files fresh_fs) with (∅ : gmap path string).
    rewrite insert_empty, map_to_list_singleton, omap_app.
    rewrite (omap_all_none _ (elements (dirs fresh_fs))).
    - assert (Hf : child_of (cwd fresh_fs ++ [TEMPLATE_DIR])
                     (template_path fresh_fs f) = Some f).
      { apply child_of_spec. now rewrite template_path_snoc. }
      rewrite app_nil_r.
      change (omap ?g (map fst [(?k, ?v)]))
        with (match g k with Some y => [y] | None => [] end).
      now rewrite Hf.
    - intros p Hp. apply elem_of_elements in Hp.
      destruct (child_of _ p) as [c|] eqn:Hc; [| reflexivity].
      apply child_of_spec in Hc as ->. rewrite template_path_snoc in Hp.
      now apply fresh_fs_no_subdir in Hp. }
  change (cwd (put_file _ _ fresh_fs)) with (cwd fresh_fs).
  rewrite Hchildren. simpl List.filter.
  now destruct (endswith f ".json").
Qed.

(** C9, amended: [list_templates] removes every occurrence of the extension
    from an entry name, not only the one at the end.  For a name [N] that
    makes a file name, after [save_template] under [N] in any store: the
    entry is listed; when [N] does not contain the extension it is listed as
    [N] itself; when [N] contains the extension it is listed under a
    different name, and loading that name fails unless something is stored
    under it.  In a store that was empty, the listed name is the only one,
    and for a name that contains the extension loading it fails; the name
    "a.json" is listed as "a". *)
Theorem list_name_mangling :
  (forall N data fs,
      template_dir fs -> plain_name N = true ->
      template_path fs (N +:+ ".json") ∉ dirs fs ->
      exists fs' names,
        save_template N data fs = (Returned tt, fs') /\
        list_templates fs' = (Returned names, fs') /\
        listed_as (N +:+ ".json") ∈ names /\
        (str_in ".json" N = false ->
         listed_as (N +:+ ".json") = N /\ N ∈ names) /\
        (str_in ".json" N = true ->
         listed_as (N +:+ ".json") <> N /\
         (files fs !! template_path fs (listed_as (N +:+ ".json") +:+ ".json")
          = None ->
          template_path fs (listed_as (N +:+ ".json") +:+ ".json") ∉ dirs fs ->
          load_template (listed_as (N +:+ ".json")) fs'
          = (Raised (FileNotFoundError
                       (os_path_join TEMPLATE_DIR
                          (listed_as (N +:+ ".json") +:+ ".json"))), fs')))) /\
  (forall N data,
      plain_name N = true ->
      exists fs',
        (let! _ := startup in save_template N data) bare_fs
        = (Returned tt, fs') /\
        list_templates fs' = (Returned [listed_as (N +:+ ".json")], fs') /\
        (str_in ".json" N = true ->
         load_template (listed_as (N +:+ ".json")) fs'
         = (Raised (FileNotFoundError
                      (os_path_join TEMPLATE_DIR
                         (listed_as (N +:+ ".json") +:+ ".json"))), fs'))) /\
  (plain_name "a.json" = true /\ str_in ".json" "a.json" = true /\
   listed_as ("a.json" +:+ ".json") = "a").
Proof.
  assert (Hload : forall N data fs,
             template_dir fs -> plain_name N = true ->
             str_in ".json" N = true ->
             files fs !! template_path fs (listed_as (N +:+ ".json") +:+ ".json")
             = None ->
             template_path fs (listed_as (N +:+ ".json") +:+ ".json")
             ∉ dirs fs ->
             load_template (listed_as (N +:+ ".json"))
               (put_file (template_path fs (N +:+ ".json")) (json_dumps data)
                  fs)
             = (Raised (FileNotFoundError
                          (os_path_join TEMPLATE_DIR
                             (listed_as (N +:+ ".json") +:+ ".json"))),
                put_file (template_path fs (N +:+ ".json")) (json_dumps data)
                  fs)).
  { intros N data fs Hdir HN Hin Hnone Hfree.
    apply load_template_missing;
      [exact Hdir | now apply listed_name_is_plain | | exact Hfree].
    change (template_path (put_file _ _ fs)) with (template_path fs).
    cbn [put_file files]. rewrite lookup_insert_ne; [exact Hnone |].
    intros Heq. apply template_path_inj, str_app_inv_tail in Heq.
    apply (listed_name_mangled N Hin). symmetry. exact Heq. }
  split; [| split; [| repeat split]].
  - intros N data fs Hdir HN Hfree.
    set (fs' := put_file (template_path fs (N +:+ ".json")) (json_dumps data)
                  fs).
    destruct (list_templates_spec fs' Hdir) as (names & Hrun & Hspec).
    assert (Hlisted : listed_as (N +:+ ".json") ∈ names).
    { apply Hspec. exists (N +:+ ".json"). split; [left | split].
      - change (template_path fs') with (template_path fs).
        unfold fs'. cbn [put_file files]. rewrite lookup_insert_eq. eauto.
      - apply endswith_app.
      - reflexivity. }
    exists fs', names.
    split; [now apply save_template_run |]. split; [exact Hrun |].
    split; [exact Hlisted |]. split.
    + intros Hplain. apply listed_name_plain in Hplain.
      unfold listed_as in *. split; [exact Hplain | congruence].
    + intros Hin. split; [now apply listed_name_mangled |].
      intros Hnone Hnodir. now apply Hload.
  - intros N data HN.
    exists (put_file (template_path fresh_fs (N +:+ ".json")) (json_dumps data)
              fresh_fs).
    split; [| split].
    + unfold bind. rewrite startup_bare_fs.
      apply save_template_run;
        [apply fresh_fs_template_dir | exact HN | apply fresh_fs_no_subdir].
    + rewrite list_templates_one. now rewrite endswith_app.
    + intros Hin.
      apply Hload;
        [apply fresh_fs_template_dir | exact HN | exact Hin | reflexivity
        | apply fresh_fs_no_subdir].
Qed.

(** The theorem at the name "a.json", in a store that holds the template
    "essay". *)
Lemma list_name_mangling_witness :
  exists fs' names,
    save_template "a.json" (py_of_template two_questions) store_essay
    = (Returned tt, fs') /\
    list_templates fs' = (Returned names, fs') /\
    listed_as ("a.json" +:+ ".json") ∈ names /\
    (str_in ".json" "a.json" = false ->
     listed_as ("a.json" +:+ ".json") = "a.json" /\ "a.json" ∈ names) /\
    (str_in ".json" "a.json" = true ->
     listed_as ("a.json" +:+ ".json") <> "a.json" /\
     (files store_essay
      !! template_path store_essay (listed_as ("a.json" +:+ ".json") +:+ ".json")
      = None ->
      template_path store_essay (listed_as ("a.json" +:+ ".json") +:+ ".json")
      ∉ dirs store_essay ->
      load_template (listed_as ("a.json" +:+ ".json")) fs'
      = (Raised (FileNotFoundError
                   (os_path_join TEMPLATE_DIR
                      (listed_as ("a.json" +:+ ".json") +:+ ".json"))), fs'))).
Proof.
  apply (proj1 list_name_mangling "a.json" (py_of_template two_questions)
           store_essay).
  - apply fresh_fs_template_dir.
  - reflexivity.
  - apply fresh_fs_no_subdir.
Defined.

Example list_name_mangling_run :
  exists fs names,
    save_template "a.json" (py_of_template two_questions) store_essay
    = (Returned tt, fs) /\
    list_templates fs = (Returned names, fs) /\
    "a" ∈ names /\ ("a.json" ∉ names) /\
    fst (load_template "a" fs) = Raised (FileNotFoundError "templates/a.json").
Proof.
  eexists _, ["essay"; "a"]. split; [vm_compute; reflexivity |].
  split; [vm_compute; reflexivity |].
  split; [set_solver |]. split; [| vm_compute; reflexivity].
  rewrite !elem_of_cons, elem_of_nil. intros [H|[H|[]]]; discriminate H.
Qed.
(** ** The document extractor *)

Lemma all_space_app s t :
  all_space (s +:+ t) = all_space s && all_space t.
Proof.
  induction s as [|c s IH]; simpl; [reflexivity |].
  rewrite IH. now destruct (py_isspace c).
Qed.

Lemma rstrip_spec s :
  exists post,
    s = rstrip s +:+ post /\ all_space post = true /\
    (forall c, last_char (rstrip s) = Some c -> py_isspace c = false).
Proof.
  induction s as [|c s (post & Hs & Hpost & Hlast)]; simpl.
  - exists "". repeat split. discriminate.
  - destruct (rstrip s) as [|a r] eqn:Hr.
    + simpl in Hs. subst s. destruct (py_isspace c) eqn:Hc.
      * exists (String c post). simpl. rewrite Hc. repeat split; [exact Hpost |].
        discriminate.
      * exists post. repeat split; [exact Hpost |].
        simpl. intros c' [= <-]. exact Hc.
    + exists post. split; [rewrite app_String; f_equal; exact Hs |].
      split; [exact Hpost | exact Hlast].
Qed.

Lemma lstrip_spec s :
  exists pre,
    s = pre +:+ lstrip s /\ all_space pre = true /\
    (forall c, first_char (lstrip s) = Some c -> py_isspace c = false).
Proof.
  induction s as [|c s (pre & Hs & Hpre & Hfirst)]; simpl.
  - exists "". repeat split. discriminate.
  - destruct (py_isspace c) eqn:Hc.
    + exists (String c pre).
      split; [rewrite app_String; now rewrite <- Hs |].
      split; [simpl; now rewrite Hc | exact Hfirst].
    + exists "". repeat split. simpl. intros c' [= <-]. exact Hc.
Qed.

Lemma last_char_app pre s :
  s <> "" -> last_char (pre +:+ s) = last_char s.
Proof.
  intros Hs. induction pre as [|c pre IH]; [reflexivity |].
  rewrite app_String. simpl. rewrite IH.
  destruct (pre +:+ s) eqn:Happ; [| reflexivity].
  destruct pre; simpl in Happ; [contradiction | discriminate].
Qed.

(** [strip] removes the white space around a string and nothing else. *)
Lemma strip_trims s : trimmed_of s (strip s).
Proof.
  unfold strip.
  destruct (rstrip_spec s) as (post & Hs & Hpost & Hlast).
  destruct (lstrip_spec (rstrip s)) as (pre & Hr & Hpre & Hfirst).
  split; [| split].
  - exists pre, post. split; [| now split].
    rewrite <- str_app_assoc, <- Hr. exact Hs.
  - exact Hfirst.
  - intros c Hc. apply Hlast.
    destruct (lstrip (rstrip s)) as [|a r] eqn:Hl; [discriminate |].
    rewrite Hr, last_char_app; [exact Hc | discriminate].
Qed.

Lemma concat_page_text_returned texts acc :
  concat_page_text (map Returned texts) acc
  = Returned (acc +:+ page_text texts).
Proof.
  revert acc. induction texts as [|t texts IH]; intros acc; simpl.
  - now rewrite app_empty_r.
  - rewrite IH. destruct t as [[|c s]|].
    + now rewrite app_empty_r.
    + now rewrite str_app_assoc.
    + now rewrite app_empty_r.
Qed.

Lemma concat_page_text_raised pages acc :
  Exists (fun page => exists e, page = Raised e) pages ->
  exists e, concat_page_text pages acc = Raised e.
Proof.
  intros Hex. revert acc.
  induction Hex as [page pages (e & ->)|page pages _ IH]; intros acc; simpl.
  - now exists e.
  - destruct page as [t|e]; simpl; [apply IH | now exists e].
Qed.

Lemma extract_text_parse_fails file :
  parse_fails file -> extract_text_from_pdf file = None.
Proof.
  unfold parse_fails, extract_text_from_pdf.
  destruct (pdf_reader file) as [pages|e]; [| reflexivity].
  intros Hex. simpl.
  destruct (concat_page_text_raised pages "" Hex) as (e & ->). reflexivity.
Qed.

(** C7: for every PDF input, direct extraction concatenates the text of the
    pages in page order and trims the white space around it; a parsing
    failure is caught inside the extractor and counts as no text: as for a
    PDF whose text is empty, the OCR pass runs, once, and its outcome is the
    outcome of the step (nothing of the parsing failure propagates); and the
    text the step leaves is always a string, possibly empty, never [None]. *)
Theorem pdf_extraction (file : pdf_upload) (l : extractor_log) :
  (forall texts,
      pdf_reader file = Returned (map Returned texts) ->
      extract_text_from_pdf file = Some (strip (page_text texts)) /\
      trimmed_of (page_text texts) (strip (page_text texts)) /\
      (strip (page_text texts) <> "" ->
       guideline_text_of_pdf file l
       = (Returned (Some (strip (page_text texts))), l))) /\
  (parse_fails file ->
   extract_text_from_pdf file = None /\
   guideline_text_of_pdf file l
   = ((let? t := ocr_outcome file in Returned (Some t)), log_fallback l)) /\
  (extract_text_from_pdf file = Some "" ->
   guideline_text_of_pdf file l
   = ((let? t := ocr_outcome file in Returned (Some t)), log_fallback l)) /\
  (forall v l',
      guideline_text_of_pdf file l = (Returned v, l') -> exists s, v = Some s).
Proof.
  assert (Hfallback :
            str_truthy (extract_text_from_pdf file) = false ->
            guideline_text_of_pdf file l
            = ((let? t := ocr_outcome file in Returned (Some t)),
               log_fallback l)).
  { intros Hno. unfold guideline_text_of_pdf. rewrite Hno. simpl.
    unfold bind, st_warning, ocr_pdf, ret, ocr_outcome, log_fallback. simpl.
    destruct (ocr_pages file) as [images|e]; simpl; [| reflexivity].
    destruct (concat_image_text images ""); reflexivity. }
  split; [| split; [| split]].
  - intros texts Hpages.
    assert (Hext : extract_text_from_pdf file = Some (strip (page_text texts))).
    { unfold extract_text_from_pdf. rewrite Hpages. simpl.
      now rewrite concat_page_text_returned. }
    split; [exact Hext |]. split; [apply strip_trims |].
    intros Hne. unfold guideline_text_of_pdf. rewrite Hext.
    destruct (strip (page_text texts)); [contradiction | reflexivity].
  - intros Hfail. pose proof (extract_text_parse_fails file Hfail) as Hext.
    split; [exact Hext |]. apply Hfallback. now rewrite Hext.
  - intros Hempty. apply Hfallback. now rewrite Hempty.
  - intros v l'. unfold guideline_text_of_pdf.
    destruct (extract_text_from_pdf file) as [[|c s]|]; simpl.
    + unfold bind, st_warning, ocr_pdf, ret. simpl.
      destruct (ocr_pages file) as [images|e]; simpl; [| discriminate].
      destruct (concat_image_text images ""); simpl; [| discriminate].
      intros [= <- _]. eauto.
    + unfold ret. intros [= <- _]. eauto.
    + unfold bind, st_warning, ocr_pdf, ret. simpl.
      destruct (ocr_pages file) as [images|e]; simpl; [| discriminate].
      destruct (concat_image_text images ""); simpl; [| discriminate].
      intros [= <- _]. eauto.
Qed.

Example scanned_pdf_run :
  guideline_text_of_pdf scanned_pdf {| st_warnings := []; ocr_calls := 0 |}
  = (Returned (Some "Rubric v1 page 2"),
     {| st_warnings := ["No text found, trying OCR..."]; ocr_calls := 1 |}).
Proof. reflexivity. Qed.

Example text_pdf_run :
  guideline_text_of_pdf text_pdf {| st_warnings := []; ocr_calls := 0 |}
  = (Returned (Some "Rubric v1 end"), {| st_warnings := []; ocr_calls := 0 |}).
Proof. reflexivity. Qed.

(** ** [json]: what the writer writes, the reader reads back *)

Lemma hex_value_digit k : (k < 16)%nat -> hex_value (hex_digit k) = Some k.
Proof.
  intros Hk. do 16 (destruct k as [|k]; [reflexivity |]). lia.
Qed.

Lemma hex4_of_digits n :
  (n < 0x10000)%N ->
  hex4 (hex_digit (N.to_nat (n / 4096 mod 16)))
    (hex_digit (N.to_nat (n / 256 mod 16)))
    (hex_digit (N.to_nat (n / 16 mod 16)))
    (hex_digit (N.to_nat (n mod 16)))
  = Some n.
Proof.
  intros Hn. unfold hex4.
  rewrite !hex_value_digit
    by (zify; Z.to_euclidean_division_equations; lia).
  f_equal. zify. Z.to_euclidean_division_equations. lia.
Qed.

(** Bits that do not meet add up. *)
Lemma lor_low_bits a y k :
  (y < 2 ^ k)%N -> N.lor (a * 2 ^ k) y = (a * 2 ^ k + y)%N.
Proof.
  intros Hy.
  assert (Hland : N.land (a * 2 ^ k) y = 0%N).
  { apply N.bits_inj_0. intros i. rewrite N.land_spec.
    destruct (N.lt_ge_cases i k) as [Hi|Hi].
    - now rewrite N.mul_pow2_bits_low.
    - rewrite <- (N.mod_small y (2 ^ k)) by exact Hy.
      rewrite N.mod_pow2_bits_high by exact Hi. apply andb_false_r. }
  rewrite (N.add_nocarry_lxor _ _ Hland). symmetry. now apply N.lxor_lor.
Qed.

(** The two surrogates that the writer makes of a code point from 0x10000,
    and the code point that the reader makes of them. *)
Lemma surrogates_of c :
  (0x10000 <= c < 0x110000)%N ->
  let n := (c - 0x10000)%N in
  let s1 := N.lor 0xd800 (N.land (N.shiftr n 10) 0x3ff) in
  let s2 := N.lor 0xdc00 (N.land n 0x3ff) in
  s1 = (0xd800 + n / 1024)%N /\ s2 = (0xdc00 + n mod 1024)%N /\
  join_surrogates s1 s2 = c.
Proof.
  intros Hc n s1 s2.
  assert (Hn : (n < 0x100000)%N) by (unfold n; lia).
  assert (H1 : s1 = (0xd800 + n / 1024)%N).
  { unfold s1. change 0x3ff%N with (N.ones 10).
    rewrite N.land_ones, N.shiftr_div_pow2.
    change (2 ^ 10)%N with 1024%N.
    rewrite (N.mod_small (n / 1024)) by
      (zify; Z.to_euclidean_division_equations; lia).
    change 0xd800%N with (54 * 2 ^ 10)%N.
    apply lor_low_bits. change (2 ^ 10)%N with 1024%N.
    zify; Z.to_euclidean_division_equations; lia. }
  assert (H2 : s2 = (0xdc00 + n mod 1024)%N).
  { unfold s2. change 0x3ff%N with (N.ones 10).
    rewrite N.land_ones. change (2 ^ 10)%N with 1024%N.
    change 0xdc00%N with (55 * 2 ^ 10)%N.
    apply lor_low_bits. change (2 ^ 10)%N with 1024%N.
    zify; Z.to_euclidean_division_equations; lia. }
  split; [exact H1 |]. split; [exact H2 |].
  unfold join_surrogates. rewrite H1, H2.
  rewrite (N.add_comm 0xd800), (N.add_comm 0xdc00), !N.add_sub.
  rewrite N.shiftl_mul_pow2, lor_low_bits;
    change (2 ^ 10)%N with 1024%N;
    unfold n; zify; Z.to_euclidean_division_equations; lia.
Qed.

Lemma scanstring_u h1 h2 h3 h4 rest :
  scanstring
    (String backslash (String "u" (String h1 (String h2 (String h3
       (String h4 rest))))))
  = match hex4 h1 h2 h3 h4 with
    | Some uni =>
        match rest with
        | String b (String u rest1) =>
            if is_high_surrogate uni && Ascii.eqb b backslash
               && Ascii.eqb u "u"
            then
              match rest1 with
              | String g1 (String g2 (String g3 (String g4 rest2))) =>
                  match hex4 g1 g2 g3 g4 with
                  | Some uni2 =>
                      if is_low_surrogate uni2
                      then cons_char (join_surrogates uni uni2)
                             (scanstring rest2)
                      else cons_char uni (scanstring rest)
                  | None => None
                  end
              | _ => None
              end
            else cons_char uni (scanstring rest)
        | _ => cons_char uni (scanstring rest)
        end
    | None => None
    end.
Proof. reflexivity. Qed.

(** An escape that is not joined with what follows it. *)
Lemma scanstring_u_alone uni rest :
  (uni < 0x10000)%N ->
  (is_high_surrogate uni = true -> alone_tail rest) ->
  scanstring (u_escape uni +:+ rest) = cons_char uni (scanstring rest).
Proof.
  intros Huni Halone. unfold u_escape, hex4_of.
  rewrite !app_String, app_empty_l, scanstring_u, hex4_of_digits by exact Huni.
  destruct rest as [|b [|u rest1]]; [reflexivity | reflexivity |].
  destruct (is_high_surrogate uni); [| reflexivity].
  specialize (Halone eq_refl). cbn [alone_tail] in Halone. cbn [andb].
  destruct (Ascii.eqb b backslash && Ascii.eqb u "u") eqn:Hbu;
    [| reflexivity].
  destruct (Halone eq_refl) as (uni2 & r & -> & Huni2 & Hlow).
  unfold hex4_of. rewrite ?app_String, ?app_empty_l.
  rewrite hex4_of_digits by exact Huni2. now rewrite Hlow.
Qed.

(** The two escapes of a pair, joined. *)
Lemma scanstring_u_pair uni uni2 rest :
  (uni < 0x10000)%N -> (uni2 < 0x10000)%N ->
  is_high_surrogate uni = true -> is_low_surrogate uni2 = true ->
  scanstring (u_escape uni +:+ u_escape uni2 +:+ rest)
  = cons_char (join_surrogates uni uni2) (scanstring rest).
Proof.
  intros Huni Huni2 Hhigh Hlow. unfold u_escape, hex4_of.
  rewrite !app_String, !app_empty_l, scanstring_u.
  rewrite hex4_of_digits by exact Huni. rewrite Hhigh.
  change (Ascii.eqb backslash backslash) with true.
  change (Ascii.eqb "u" "u") with true. cbn [andb].
  rewrite hex4_of_digits by exact Huni2. now rewrite Hlow.
Qed.

Lemma ascii_of_N_eqb c (a : ascii) :
  (c < 256)%N -> c <> N_of_ascii a -> Ascii.eqb (ascii_of_N c) a = false.
Proof.
  intros Hc Hne. apply Ascii.eqb_neq. intros Heq. apply Hne.
  rewrite <- Heq. now rewrite N_ascii_embedding.
Qed.

(** A character that the writer leaves as it is. *)
Lemma scanstring_literal c rest :
  (32 <= c <= 126)%N -> c <> 34%N -> c <> 92%N ->
  scanstring (String (ascii_of_N c) rest) = cons_char c (scanstring rest).
Proof.
  intros Hc Hq Hb. cbn [scanstring].
  rewrite (ascii_of_N_eqb c dquote) by (simpl; lia).
  rewrite (ascii_of_N_eqb c backslash) by (simpl; lia).
  unfold nat_of_ascii. rewrite N_ascii_embedding by lia.
  destruct (Nat.ltb_spec (N.to_nat c) 32) as [Hlow|_]; [lia | reflexivity].
Qed.

Lemma surrogates_range c :
  (0x10000 <= c < 0x110000)%N ->
  let n := (c - 0x10000)%N in
  let s1 := N.lor 0xd800 (N.land (N.shiftr n 10) 0x3ff) in
  let s2 := N.lor 0xdc00 (N.land n 0x3ff) in
  (s1 < 0x10000)%N /\ (s2 < 0x10000)%N /\
  is_high_surrogate s1 = true /\ is_low_surrogate s2 = true /\
  is_low_surrogate s1 = false.
Proof.
  intros Hc n s1 s2.
  destruct (surrogates_of c Hc) as (H1 & H2 & _).
  fold n in H1, H2. fold s1 in H1. fold s2 in H2.
  assert (Hn : (n < 0x100000)%N) by (unfold n; lia).
  assert (Hq : (n / 1024 < 1024)%N)
    by (zify; Z.to_euclidean_division_equations; lia).
  assert (Hr : (n mod 1024 < 1024)%N)
    by (zify; Z.to_euclidean_division_equations; lia).
  unfold is_high_surrogate, is_low_surrogate.
  rewrite !andb_true_iff, andb_false_iff, !N.leb_le, !N.leb_gt.
  clearbody s1 s2 n. subst s1 s2.
  zify. Z.to_euclidean_division_equations. lia.
Qed.

(** One character is read back from its escape, unless it is a high
    surrogate that the input after it turns into a pair. *)
Lemma scanstring_escape_char c tail :
  (c < 0x110000)%N ->
  (is_high_surrogate c = true -> alone_tail tail) ->
  scanstring (escape_char c +:+ tail) = cons_char c (scanstring tail).
Proof.
  intros Hc Halone. unfold escape_char.
  destruct (N.eqb_spec c 34) as [->|H34]; [reflexivity |].
  destruct (N.eqb_spec c 92) as [->|H92]; [reflexivity |].
  destruct (N.eqb_spec c 8) as [->|H8]; [reflexivity |].
  destruct (N.eqb_spec c 12) as [->|H12]; [reflexivity |].
  destruct (N.eqb_spec c 10) as [->|H10]; [reflexivity |].
  destruct (N.eqb_spec c 13) as [->|H13]; [reflexivity |].
  destruct (N.eqb_spec c 9) as [->|H9]; [reflexivity |].
  destruct ((32 <=? c) && (c <=? 126))%N eqn:Hprint.
  - apply andb_true_iff in Hprint as [Hlo Hhi].
    apply N.leb_le in Hlo, Hhi.
    rewrite app_String, app_empty_l. now apply scanstring_literal.
  - destruct (N.ltb_spec c 0x10000) as [Hbmp|Hhigh].
    + now apply scanstring_u_alone.
    + cbv zeta.
      destruct (surrogates_of c) as (_ & _ & Hjoin); [lia |].
      destruct (surrogates_range c) as (H1 & H2 & Hs1 & Hs2 & _); [lia |].
      cbv zeta in Hjoin, H1, H2, Hs1, Hs2.
      rewrite str_app_assoc, scanstring_u_pair by assumption.
      now rewrite Hjoin.
Qed.

(** The escape of a character that is no low surrogate does not make a
    pair with the escape before it. *)
Lemma escape_char_alone c rest :
  (c < 0x110000)%N -> is_low_surrogate c = false ->
  alone_tail (escape_char c +:+ rest).
Proof.
  intros Hc Hlow. unfold escape_char.
  destruct (N.eqb_spec c 34) as [->|H34]; [intros H; discriminate H |].
  destruct (N.eqb_spec c 92) as [->|H92]; [intros H; discriminate H |].
  destruct (N.eqb_spec c 8) as [->|H8]; [intros H; discriminate H |].
  destruct (N.eqb_spec c 12) as [->|H12]; [intros H; discriminate H |].
  destruct (N.eqb_spec c 10) as [->|H10]; [intros H; discriminate H |].
  destruct (N.eqb_spec c 13) as [->|H13]; [intros H; discriminate H |].
  destruct (N.eqb_spec c 9) as [->|H9]; [intros H; discriminate H |].
  destruct ((32 <=? c) && (c <=? 126))%N eqn:Hprint.
  - apply andb_true_iff in Hprint as [Hlo Hhi].
    apply N.leb_le in Hlo, Hhi.
    rewrite app_String, app_empty_l. destruct rest as [|u rest]; [exact I |].
    cbn [alone_tail].
    rewrite (ascii_of_N_eqb c backslash) by (simpl; lia).
    intros H; discriminate H.
  - destruct (N.ltb_spec c 0x10000) as [Hbmp|Hhigh].
    + unfold u_escape. rewrite !app_String. intros _.
      exists c, rest. now repeat split.
    + cbv zeta.
      destruct (surrogates_range c) as (H1 & _ & _ & _ & Hs1); [lia |].
      cbv zeta in H1, Hs1.
      rewrite str_app_assoc. unfold u_escape at 1. rewrite !app_String.
      intros _. eexists _, _. split; [reflexivity |]. now split.
Qed.

Lemma escape_chars_alone s rest :
  is_str s -> head_not_low s ->
  alone_tail (escape_chars s +:+ String dquote rest).
Proof.
  intros Hs Hhead. destruct s as [|c s].
  - rewrite app_empty_l. destruct rest as [|u rest]; [exact I |].
    intros H; discriminate H.
  - simpl escape_chars. rewrite str_app_assoc.
    apply escape_char_alone; [| exact Hhead].
    now apply Forall_cons in Hs as [Hc _].
Qed.

Lemma scanstring_closing rest : scanstring (String dquote rest) = Some ([], rest).
Proof. reflexivity. Qed.

(** A text without a surrogate pair is read back from its escapes. *)
Lemma scanstring_escape s rest :
  plain_text s ->
  scanstring (escape_chars s +:+ String dquote rest) = Some (s, rest).
Proof.
  intros [Hs Hpair]. induction s as [|c s IH]; [apply scanstring_closing |].
  apply Forall_cons in Hs as [Hc Hs].
  simpl escape_chars. rewrite str_app_assoc.
  rewrite scanstring_escape_char; [| exact Hc |].
  - rewrite IH; [reflexivity | exact Hs |].
    destruct s as [|c' s]; [reflexivity |].
    change (no_surrogate_pair (c :: c' :: s))
      with (negb (is_high_surrogate c && is_low_surrogate c')
            && no_surrogate_pair (c' :: s)) in Hpair.
    now apply andb_true_iff in Hpair as [_ Hpair].
  - intros Hhigh. apply escape_chars_alone; [exact Hs |].
    destruct s as [|c' s]; [exact I |].
    change (no_surrogate_pair (c :: c' :: s))
      with (negb (is_high_surrogate c && is_low_surrogate c')
            && no_surrogate_pair (c' :: s)) in Hpair.
    rewrite Hhigh in Hpair.
    apply andb_true_iff in Hpair as [Hpair _].
    cbn [head_not_low]. now destruct (is_low_surrogate c').
Qed.

(** The code points of a [string] make a text without a surrogate. *)
Lemma codes_plain_text s : plain_text (codes s).
Proof.
  assert (Hsmall : Forall (fun c => (c < 256)%N) (codes s)).
  { induction s as [|a s IH]; constructor; [| exact IH].
    pose proof (nat_ascii_bounded a) as Ha. unfold nat_of_ascii in Ha. lia. }
  split.
  - eapply Forall_impl; [exact Hsmall |]. intros c Hc. simpl in Hc. lia.
  - induction Hsmall as [|c cs Hc _ IH]; [reflexivity |].
    destruct cs as [|c' cs]; [reflexivity |].
    change (no_surrogate_pair (c :: c' :: cs))
      with (negb (is_high_surrogate c && is_low_surrogate c')
            && no_surrogate_pair (c' :: cs)).
    rewrite IH, andb_true_r. unfold is_high_surrogate.
    destruct (N.leb_spec 0xd800 c) as [Hbig|_]; [lia | reflexivity].
Qed.

Lemma codes_inj s t : codes s = codes t -> s = t.
Proof.
  revert t. induction s as [|a s IH]; intros [|b t] H; simpl in H;
    try discriminate; [reflexivity |].
  injection H as Hab Hst. apply IH in Hst as ->.
  f_equal. rewrite <- (ascii_N_embedding a), <- (ascii_N_embedding b).
  now rewrite Hab.
Qed.
Lemma encode_basestring_ascii_app s rest :
  encode_basestring_ascii s +:+ rest
  = String dquote (escape_chars s +:+ String dquote rest).
Proof.
  unfold encode_basestring_ascii. rewrite app_String, str_app_assoc.
  reflexivity.
Qed.

Lemma parse_value_string d s rest :
  plain_text s ->
  parse_value (S d) (encode_basestring_ascii s +:+ rest) = Some (JStr s, rest).
Proof.
  intros Hs. rewrite encode_basestring_ascii_app.
  change (parse_value (S d) (String dquote ?x)) with (parse_string x).
  unfold parse_string. now rewrite scanstring_escape.
Qed.

Lemma skip_ws_visible s : starts_visible s -> skip_ws s = s.
Proof. intros (c & r & -> & Hc). simpl. now rewrite Hc. Qed.

Lemma skip_ws_spaces n s : skip_ws (spaces n +:+ s) = skip_ws s.
Proof. induction n as [|n IH]; [reflexivity | exact IH]. Qed.

Lemma skip_ws_indent level s :
  starts_visible s -> skip_ws (newline_indent level +:+ s) = s.
Proof.
  intros Hs. unfold newline_indent. rewrite str_app_assoc.
  change (nl +:+ ?x) with (String "010" x).
  change (skip_ws (String "010" ?x)) with (skip_ws x).
  rewrite skip_ws_spaces. now apply skip_ws_visible.
Qed.

Lemma starts_visible_app s t : starts_visible s -> starts_visible (s +:+ t).
Proof. intros (c & r & -> & Hc). exists c, (r +:+ t). now split. Qed.

Lemma starts_visible_string s : starts_visible (encode_basestring_ascii s).
Proof. eexists _, _. split; reflexivity. Qed.

Lemma starts_visible_length s : starts_visible s -> (1 <= String.length s)%nat.
Proof. intros (c & r & -> & _). simpl. lia. Qed.

Lemma starts_visible_join sep x rest :
  starts_visible x -> starts_visible (str_join sep (x :: rest)).
Proof.
  intros Hx. destruct rest as [|y rest]; [exact Hx |].
  now apply starts_visible_app.
Qed.

Lemma str_join_length sep (xs : list string) :
  Forall starts_visible xs ->
  (length xs <= String.length (str_join sep xs))%nat.
Proof.
  induction 1 as [|x xs Hx _ IH]; [simpl; lia |].
  apply starts_visible_length in Hx.
  destruct xs as [|y xs]; [simpl; lia |].
  change (str_join sep (x :: y :: xs))
    with (x +:+ sep +:+ str_join sep (y :: xs)).
  rewrite !str_length_app. simpl length in *. lia.
Qed.

(** The items of an array are read back, given a reader [pv] that reads
    back each of them. *)
Lemma parse_elems_join (pv : parser jsonval) (enc : jsonval -> string)
    (level level' : nat) (vs : list jsonval) (k : nat) (rest : string) :
  (forall v, v ∈ vs ->
             starts_visible (enc v) /\
             forall r, pv (enc v +:+ r) = Some (v, r)) ->
  vs <> [] -> (length vs <= k)%nat ->
  parse_elems pv k
    (str_join ("," +:+ newline_indent level) (map enc vs)
     +:+ newline_indent level' +:+ String "]" rest)
  = Some (vs, rest).
Proof.
  intros Hvs Hne. revert k.
  induction vs as [|v vs IH]; [congruence |]. clear Hne.
  intros [|k] Hk; [simpl in Hk; lia |].
  destruct (Hvs v) as [_ Hv]; [left |].
  assert (Hclose : starts_visible (String "]" rest)).
  { eexists _, _. split; reflexivity. }
  destruct vs as [|v' vs].
  - simpl map. simpl str_join. cbn [parse_elems]. rewrite Hv.
    rewrite skip_ws_indent by exact Hclose. reflexivity.
  - change (str_join ?sep (map enc (v :: v' :: vs)))
      with (enc v +:+ sep +:+ str_join sep (map enc (v' :: vs))).
    rewrite !str_app_assoc. cbn [parse_elems]. rewrite Hv.
    change ("," +:+ ?x) with (String "," x).
    change (skip_ws (String "," ?x)) with (String "," x).
    cbv beta iota.
    change (Ascii.eqb "," ",") with true. cbv beta iota.
    rewrite skip_ws_indent.
    + rewrite <- !str_app_assoc. rewrite (str_app_assoc _ _ (String "]" rest)).
      rewrite IH; [reflexivity | | discriminate | simpl in *; lia].
      intros x Hx. apply Hvs. now right.
    + apply starts_visible_app. simpl map.
      apply starts_visible_join, Hvs. right. left.
Qed.

Lemma starts_item_visible s : starts_item s -> starts_visible s.
Proof. intros (c & r & -> & Hc & _). now exists c, r. Qed.

Lemma starts_item_string s : starts_item (encode_basestring_ascii s).
Proof. eexists _, _. repeat split. Qed.

Lemma json_encode_list level v vs :
  json_encode level (JList (v :: vs))
  = "[" +:+ newline_indent (S level)
    +:+ str_join ("," +:+ newline_indent (S level))
          (map (json_encode (S level)) (v :: vs))
    +:+ newline_indent level +:+ "]".
Proof. reflexivity. Qed.

(** An array is read back, given that each of its items is read back one
    level deeper. *)
Lemma parse_value_list d level vs rest :
  (forall v, v ∈ vs ->
             starts_item (json_encode (S level) v) /\
             forall r,
               parse_value d (json_encode (S level) v +:+ r) = Some (v, r)) ->
  parse_value (S d) (json_encode level (JList vs) +:+ rest)
  = Some (JList vs, rest).
Proof.
  intros Hvs. destruct vs as [|v vs]; [reflexivity |].
  rewrite json_encode_list. rewrite !str_app_assoc.
  change ("[" +:+ ?x) with (String "[" x).
  change ("]" +:+ rest) with (String "]" rest).
  set (sep := "," +:+ newline_indent (S level)).
  set (items := str_join sep (map (json_encode (S level)) (v :: vs))).
  set (body := newline_indent (S level) +:+ items
               +:+ newline_indent level +:+ String "]" rest).
  change (parse_value (S d) (String "[" body))
    with (parse_array (parse_value d) (String "[" body) body).
  assert (Hfirst : starts_item (items +:+ newline_indent level
                                +:+ String "]" rest)).
  { destruct (Hvs v) as [(c & r & Hc & Hws & Hb) _]; [left |].
    unfold items. simpl map.
    destruct (map (json_encode (S level)) vs) as [|y ys]; simpl str_join;
      rewrite Hc; eexists _, _; (split; [reflexivity | now split]). }
  unfold parse_array, body.
  rewrite skip_ws_indent by (apply starts_item_visible, Hfirst).
  destruct Hfirst as (c & r & Hc & Hws & Hb). rewrite Hc.
  unfold expect_char. rewrite Hb. rewrite <- Hc.
  unfold items, sep. rewrite parse_elems_join; [reflexivity | | discriminate |].
  - intros x Hx. destruct (Hvs x Hx) as [Hx1 Hx2].
    split; [apply starts_item_visible, Hx1 | exact Hx2].
  - change (String.length (String "[" ?x)) with (S (String.length x)).
    rewrite !str_length_app.
    pose proof (str_join_length ("," +:+ newline_indent (S level))
                  (map (json_encode (S level)) (v :: vs))) as Hlen.
    rewrite length_map in Hlen.
    assert (Hall : Forall starts_visible
                     (map (json_encode (S level)) (v :: vs))).
    { apply Forall_forall. intros x Hx.
      apply list_elem_of_fmap in Hx as (y & -> & Hy).
      apply starts_item_visible, Hvs, Hy. }
    specialize (Hlen Hall). lia.
Qed.

(** The options of a question are read back. *)
Lemma parse_value_options d level (opts : list ustr) rest :
  Forall plain_text opts ->
  parse_value (S (S d)) (json_encode level (JList (map JStr opts)) +:+ rest)
  = Some (JList (map JStr opts), rest).
Proof.
  intros Hopts. apply parse_value_list. intros v Hv.
  apply list_elem_of_fmap in Hv as (o & -> & Ho).
  rewrite Forall_forall in Hopts.
  split; [apply starts_item_string |].
  intros r. now apply parse_value_string, Hopts.
Qed.

(** One member of an object is read back, up to what follows it. *)
Lemma parse_members_step (pv : parser jsonval) k key v enc_v tail acc :
  plain_text key ->
  starts_visible enc_v ->
  pv (enc_v +:+ tail) = Some (v, tail) ->
  parse_members pv (S k)
    (encode_basestring_ascii key +:+ ": " +:+ enc_v +:+ tail) acc
  = match skip_ws tail with
    | "" => None
    | String c s5 =>
        if Ascii.eqb c ","
        then parse_members pv k (skip_ws s5) (members_set key v acc)
        else if Ascii.eqb c "}" then Some (members_set key v acc, s5)
        else None
    end.
Proof.
  intros Hkey Hvis Hpv. rewrite encode_basestring_ascii_app.
  cbn [parse_members].
  change (expect_char dquote (String dquote ?x)) with (Some x).
  cbv beta iota. rewrite scanstring_escape by exact Hkey.
  change (": " +:+ ?x) with (String ":" (String " " x)).
  change (skip_ws (String ":" ?x)) with (String ":" x).
  change (expect_char ":" (String ":" ?x)) with (Some x).
  cbv beta iota.
  change (skip_ws (String " " ?x)) with (skip_ws x).
  rewrite skip_ws_visible by (now apply starts_visible_app).
  rewrite Hpv. reflexivity.
Qed.

Lemma json_encode_question level q :
  json_encode level (py_of_wide_question q)
  = "{" +:+ newline_indent (S level)
    +:+ ((encode_basestring_ascii (codes "question") +:+ ": "
          +:+ encode_basestring_ascii (wide_question q))
         +:+ ("," +:+ newline_indent (S level))
         +:+ (encode_basestring_ascii (codes "options") +:+ ": "
              +:+ json_encode (S level) (JList (map JStr (wide_options q)))))
    +:+ newline_indent level +:+ "}".
Proof. reflexivity. Qed.

Lemma starts_item_list level vs : starts_item (json_encode level (JList vs)).
Proof. destruct vs; eexists _, _; repeat split. Qed.

Lemma starts_item_question level q :
  starts_item (json_encode level (py_of_wide_question q)).
Proof. eexists _, _; repeat split. Qed.

(** A question is read back. *)
Lemma parse_value_question d level q rest :
  plain_text (wide_question q) -> Forall plain_text (wide_options q) ->
  parse_value (S (S (S d))) (json_encode level (py_of_wide_question q) +:+ rest)
  = Some (py_of_wide_question q, rest).
Proof.
  intros Hq Hopts.
  rewrite json_encode_question. rewrite !str_app_assoc.
  change ("{" +:+ ?x) with (String "{" x).
  change ("}" +:+ rest) with (String "}" rest).
  change ("," +:+ ?x) with (String "," x).
  set (opts := json_encode (S level) (JList (map JStr (wide_options q)))).
  set (m2 := encode_basestring_ascii (codes "options") +:+ ": " +:+ opts
             +:+ newline_indent level +:+ String "}" rest).
  set (m1 := encode_basestring_ascii (codes "question") +:+ ": "
             +:+ encode_basestring_ascii (wide_question q)
             +:+ String "," (newline_indent (S level) +:+ m2)).
  set (body := newline_indent (S level) +:+ m1).
  change (parse_value (S (S (S d))) (String "{" body))
    with (parse_object (parse_value (S (S d))) (String "{" body) body).
  assert (Hm1 : starts_visible m1) by (eexists _, _; split; reflexivity).
  assert (Hm2 : starts_visible m2) by (eexists _, _; split; reflexivity).
  unfold parse_object, body. rewrite skip_ws_indent by exact Hm1.
  change (expect_char "}" m1) with (@None string). cbv beta iota.
  change (String.length (String "{" (newline_indent (S level) +:+ m1)))
    with (S (S (String.length (spaces (2 * S level) +:+ m1)))).
  assert (Hk : (1 <= String.length (spaces (2 * S level) +:+ m1))%nat).
  { rewrite str_length_app. apply starts_visible_length in Hm1. lia. }
  destruct (String.length (spaces (2 * S level) +:+ m1)) as [|k]; [lia |].
  clear Hk. unfold m1.
  rewrite parse_members_step with (v := JStr (wide_question q));
    [| apply codes_plain_text | apply starts_visible_string
     | now apply parse_value_string].
  change (skip_ws (String "," ?x)) with (String "," x).
  cbv beta iota. change (Ascii.eqb "," ",") with true. cbv beta iota.
  rewrite skip_ws_indent by exact Hm2. unfold m2.
  rewrite parse_members_step with (v := JList (map JStr (wide_options q)));
    [| apply codes_plain_text | apply starts_item_visible, starts_item_list
     | now apply parse_value_options].
  rewrite skip_ws_indent by (eexists _, _; split; reflexivity).
  reflexivity.
Qed.

(** A template is read back. *)
Lemma parse_value_template d (t : WideTemplate) rest :
  plain_texts t ->
  parse_value (S (S (S (S d)))) (json_encode 0 (py_of_wide_template t) +:+ rest)
  = Some (py_of_wide_template t, rest).
Proof.
  intros Ht. apply parse_value_list. intros v Hv.
  apply list_elem_of_fmap in Hv as (q & -> & Hq).
  unfold plain_texts in Ht. rewrite Forall_forall in Ht.
  destruct (Ht q Hq) as [Hquestion Hoptions].
  split; [apply starts_item_question |].
  intros r. now apply parse_value_question.
Qed.

Lemma json_dumps_template_length (t : WideTemplate) :
  t <> [] -> (4 <= String.length (json_dumps (py_of_wide_template t)))%nat.
Proof.
  destruct t as [|q t]; [congruence | intros _].
  unfold json_dumps, py_of_wide_template. simpl map. rewrite json_encode_list.
  rewrite !str_length_app. simpl. lia.
Qed.

(** [json.loads] gives back the template that [json.dumps] wrote. *)
Lemma json_loads_dumps_wide_template (t : WideTemplate) :
  plain_texts t ->
  json_loads (json_dumps (py_of_wide_template t))
  = Returned (py_of_wide_template t).
Proof.
  intros Ht. destruct t as [|q t]; [reflexivity |].
  pose proof (json_dumps_template_length (q :: t)) as Hlen.
  unfold json_loads.
  destruct (String.length (json_dumps (py_of_wide_template (q :: t))))
    as [|[|[|[|d]]]]; try (exfalso; specialize (Hlen ltac:(discriminate)); lia).
  rewrite skip_ws_visible.
  - rewrite <- (app_empty_r (json_dumps _)). unfold json_dumps.
    rewrite parse_value_template by exact Ht. reflexivity.
  - eexists _, _. split; reflexivity.
Qed.

Lemma widen_plain_texts (t : Template) : plain_texts (map widen t).
Proof.
  apply Forall_fmap, Forall_forall. intros q _. split.
  - apply codes_plain_text.
  - apply Forall_fmap, Forall_forall. intros o _. apply codes_plain_text.
Qed.

Lemma json_loads_dumps_template (t : Template) :
  json_loads (json_dumps (py_of_template t)) = Returned (py_of_template t).
Proof. apply json_loads_dumps_wide_template, widen_plain_texts. Qed.

Lemma py_of_wide_template_inj (t1 t2 : WideTemplate) :
  py_of_wide_template t1 = py_of_wide_template t2 -> t1 = t2.
Proof.
  unfold py_of_wide_template. intros [= H]. revert t2 H.
  induction t1 as [|[q1 o1] t1 IH]; intros [|[q2 o2] t2] H;
    simpl in H; try discriminate; [reflexivity |].
  injection H as Hq Ho Ht. subst q2. apply IH in Ht as ->.
  do 2 f_equal.
  clear -Ho. revert o2 Ho.
  induction o1 as [|a o1 IHo]; intros [|b o2] Ho; simpl in Ho;
    try discriminate; [reflexivity |].
  injection Ho as -> Ho. f_equal. now apply IHo.
Qed.

Lemma widen_inj q1 q2 : widen q1 = widen q2 -> q1 = q2.
Proof.
  destruct q1 as [x1 o1], q2 as [x2 o2]. unfold widen. simpl.
  intros [= Hx Ho]. apply codes_inj in Hx as ->. f_equal.
  revert o2 Ho. induction o1 as [|a o1 IH]; intros [|b o2] Ho; simpl in Ho;
    try discriminate; [reflexivity |].
  injection Ho as Hab Ho. apply codes_inj in Hab as ->. f_equal.
  now apply IH.
Qed.

Lemma py_of_template_inj (t1 t2 : Template) :
  py_of_template t1 = py_of_template t2 -> t1 = t2.
Proof.
  unfold py_of_template. intros H. apply py_of_wide_template_inj in H.
  revert t2 H. induction t1 as [|q1 t1 IH]; intros [|q2 t2] H; simpl in H;
    try discriminate; [reflexivity |].
  pose proof (f_equal (hd (widen q1)) H) as Hq.
  pose proof (f_equal (@tl _) H) as Ht. simpl in Hq, Ht.
  apply widen_inj in Hq as ->. f_equal. now apply IH.
Qed.

Lemma startup_template_dir fs fs' :
  startup fs = (Returned tt, fs') -> template_dir fs'.
Proof.
  unfold startup, os_makedirs, template_dir. rewrite resolve_template_dir.
  destruct (is_dir fs (cwd fs ++ [TEMPLATE_DIR])) eqn:Hdir.
  - intros [= <-]. unfold is_dir in Hdir. now apply bool_decide_eq_true in Hdir.
  - destruct (is_file fs _); [discriminate |].
    intros [= <-]. simpl. set_solver.
Qed.

(** C3 as it was stated, for every template and every name, fails.  A text
    with a high surrogate directly followed by a low surrogate is written as
    two escapes and read back as the one code point of the pair; and under a
    name with a separator nothing is saved. *)
Lemma roundtrip_fails :
  let T := [ {| wide_question := [0xd83d; 0xde00]%N; wide_options := [] |} ] in
  let T' := [ {| wide_question := [0x1f600]%N; wide_options := [] |} ] in
  T' <> T /\
  fst ((let! _ := startup in
        let! _ := save_template "t" (py_of_wide_template T) in
        load_template "t") bare_fs)
  = Returned (py_of_wide_template T') /\
  fst ((let! _ := startup in
        let! _ := save_template "x/y" (py_of_template thesis_template) in
        load_template "x/y") bare_fs)
  = Raised (FileNotFoundError "templates/x/y.json").
Proof.
  split; [discriminate |]. split; vm_compute; reflexivity.
Qed.

(** C3, amended: for every template T whose texts hold no high surrogate
    directly followed by a low surrogate, and every name N that makes a file
    name (no separator, no NUL character, at most 255 bytes with the
    extension) and is not the name of a directory there, [save_template]
    under N followed by [load_template] of N gives back the value of T: the
    same questions in the same order, each with the same text and the same
    options in the same order. *)
Theorem save_load_roundtrip (N : string) (T : WideTemplate)
    (fs : filesystem) :
  template_dir fs ->
  plain_name N = true ->
  template_path fs (N +:+ ".json") ∉ dirs fs ->
  plain_texts T ->
  exists fs',
    save_template N (py_of_wide_template T) fs = (Returned tt, fs') /\
    load_template N fs' = (Returned (py_of_wide_template T), fs') /\
    forall T',
      load_template N fs' = (Returned (py_of_wide_template T'), fs') ->
      T' = T.
Proof.
  intros Hdir HN Hfree HT.
  set (fs' := put_file (template_path fs (N +:+ ".json"))
                (json_dumps (py_of_wide_template T)) fs).
  assert (Hload : load_template N fs'
                  = (Returned (py_of_wide_template T), fs')).
  { rewrite load_template_plain by assumption.
    change (template_path fs') with (template_path fs).
    unfold fs'. cbn [put_file files]. rewrite lookup_insert_eq.
    now rewrite json_loads_dumps_wide_template. }
  exists fs'. split; [now apply save_template_run |].
  split; [exact Hload |].
  intros T' HT'. rewrite Hload in HT'.
  apply py_of_wide_template_inj. congruence.
Qed.

Lemma save_load_roundtrip_witness :
  let T := [ {| wide_question := [0x1f600; 0xd83d; 65; 0xde00; 233; 34;
                                  0x4e2d]%N;
                wide_options := [[0xde00; 0xd83d]%N; codes "Yes"] |} ] in
  exists fs',
    save_template "essay" (py_of_wide_template T) fresh_fs
    = (Returned tt, fs') /\
    load_template "essay" fs' = (Returned (py_of_wide_template T), fs') /\
    forall T',
      load_template "essay" fs' = (Returned (py_of_wide_template T'), fs') ->
      T' = T.
Proof.
  apply (save_load_roundtrip "essay" _ fresh_fs).
  - apply fresh_fs_template_dir.
  - reflexivity.
  - apply fresh_fs_no_subdir.
  - repeat constructor.
Defined.

(** Every template of the Create flow is read back as it was written. *)
Lemma save_load_template (N : string) (T : Template) (fs : filesystem) :
  template_dir fs ->
  plain_name N = true ->
  template_path fs (N +:+ ".json") ∉ dirs fs ->
  (let! _ := save_template N (py_of_template T) in load_template N) fs
  = (Returned (py_of_template T),
     put_file (template_path fs (N +:+ ".json"))
       (json_dumps (py_of_template T)) fs).
Proof.
  intros Hdir HN Hfree. unfold bind.
  rewrite save_template_run by assumption.
  rewrite load_template_plain by assumption.
  change (template_path (put_file _ _ fs)) with (template_path fs).
  cbn [put_file files]. rewrite lookup_insert_eq.
  now rewrite json_loads_dumps_template.
Qed.

(** Quotes, backslashes, control characters and characters above ['~'] go
    through their escapes and come back. *)
Example save_load_escapes :
  let t := [ {| question := String dquote (String backslash
                              (String "010" (String "233" "?")));
                options := [String "009" (String "127" "");
                            String "000" (String "255" "/")] |} ] in
  json_loads (json_dumps (py_of_template t)) = Returned (py_of_template t).
Proof. vm_compute. reflexivity. Qed.

Example save_load_thesis :
  (let! _ := startup in
   let! _ := save_template "essay" (py_of_template thesis_template) in
   load_template "essay") bare_fs
  = (Returned (py_of_template thesis_template), store_essay).
Proof. vm_compute. reflexivity. Qed.
(** * Further properties *)

(** ** The options box of the Create flow *)

Lemma lstrip_fixed r :
  (forall c, first_char r = Some c -> py_isspace c = false) -> lstrip r = r.
Proof.
  destruct r as [|c r]; [reflexivity |]. intros H. simpl.
  now rewrite (H c eq_refl).
Qed.

Lemma rstrip_fixed r :
  (forall c, last_char r = Some c -> py_isspace c = false) -> rstrip r = r.
Proof.
  induction r as [|c r IH]; [reflexivity |]. intros H.
  destruct r as [|c' r].
  - simpl. now rewrite (H c eq_refl).
  - change (rstrip (String c (String c' r)))
      with (match rstrip (String c' r) with
            | "" => if py_isspace c then "" else String c ""
            | x => String c x
            end).
    rewrite IH; [reflexivity |]. intros a Ha. apply H. exact Ha.
Qed.

(** A string without white space around it is left as it is. *)
Lemma strip_fixed r :
  (forall c, first_char r = Some c -> py_isspace c = false) ->
  (forall c, last_char r = Some c -> py_isspace c = false) ->
  strip r = r.
Proof.
  intros Hfirst Hlast. unfold strip. rewrite rstrip_fixed by exact Hlast.
  now apply lstrip_fixed.
Qed.

Lemma strip_idempotent s : strip (strip s) = strip s.
Proof.
  destruct (strip_trims s) as (_ & Hfirst & Hlast). now apply strip_fixed.
Qed.

Lemma strip_all_space s : strip s = "" <-> all_space s = true.
Proof.
  destruct (strip_trims s) as ((pre & post & Hs & Hpre & Hpost) & Hfirst & _).
  split.
  - intros Hempty. rewrite Hempty in Hs. rewrite Hs, app_empty_l.
    now rewrite all_space_app, Hpre, Hpost.
  - intros Hall. rewrite Hs, !all_space_app in Hall.
    destruct (strip s) as [|c r]; [reflexivity |].
    simpl in Hall. rewrite (Hfirst c eq_refl) in Hall.
    rewrite andb_false_r in Hall. discriminate.
Qed.

Lemma has_char_strip c s : has_char c s = false -> has_char c (strip s) = false.
Proof.
  destruct (strip_trims s) as ((pre & post & Hs & _) & _).
  intros H. rewrite Hs, !has_char_app in H.
  destruct (has_char c (strip s)); [| reflexivity].
  now rewrite orb_true_r in H.
Qed.

Lemma str_split_nonempty sep s : str_split sep s <> [].
Proof.
  destruct s as [|c s]; simpl; [discriminate |].
  destruct (Ascii.eqb c sep); [discriminate |].
  destruct (str_split sep s); discriminate.
Qed.

Lemma str_split_no_sep sep s :
  Forall (fun piece => has_char sep piece = false) (str_split sep s).
Proof.
  induction s as [|c s IH]; simpl; [repeat constructor |].
  destruct (Ascii.eqb c sep) eqn:Hc; [constructor; [reflexivity | exact IH] |].
  destruct (str_split sep s) as [|piece rest].
  - repeat constructor. simpl. now rewrite Hc.
  - inversion IH as [|? ? Hp Hrest]; subst.
    constructor; [| exact Hrest]. simpl. now rewrite Hc.
Qed.

(** X1: every option the Create flow makes of an options box is a non-empty
    string, has no white space around it and contains no comma. *)
Theorem parse_options_clean (text : string) :
  Forall (fun opt => opt <> "" /\ strip opt = opt /\ has_char "," opt = false)
    (parse_options text).
Proof.
  unfold parse_options. apply Forall_forall. intros opt Hopt.
  apply list_elem_of_fmap in Hopt as (piece & -> & Hpiece).
  apply list_elem_of_In, filter_In in Hpiece as [Hpiece Hkeep].
  split; [| split].
  - intros Hempty. now rewrite Hempty in Hkeep.
  - apply strip_idempotent.
  - apply has_char_strip.
    pose proof (str_split_no_sep "," text) as Hall.
    rewrite Forall_forall in Hall. apply Hall. now apply list_elem_of_In.
Qed.

Lemma str_split_all_space (text : string) :
  Forall (fun piece => all_space piece = true) (str_split "," text) <->
  blank_box text = true.
Proof.
  unfold blank_box. induction text as [|c text IH]; simpl.
  - split; [reflexivity | repeat constructor].
  - destruct (Ascii.eqb c ",") eqn:Hc; simpl.
    + rewrite <- IH. split.
      * intros H. now inversion H.
      * intros H. now constructor.
    + pose proof (str_split_nonempty "," text) as Hne.
      destruct (str_split "," text) as [|piece rest]; [congruence |].
      rewrite andb_true_iff, <- IH. split.
      * intros H. inversion H as [|? ? Hp Hrest]; subst. simpl in Hp.
        apply andb_true_iff in Hp as [Hsp Hp]. split; [exact Hsp |].
        now constructor.
      * intros [Hsp H]. inversion H as [|? ? Hp Hrest]; subst.
        constructor; [| exact Hrest]. simpl. now rewrite Hsp, Hp.
Qed.

(** X2: an options box gives no option at all exactly when it holds nothing
    but commas and white space (the empty box among them). *)
Theorem parse_options_empty_iff (text : string) :
  parse_options text = [] <-> blank_box text = true.
Proof.
  rewrite <- str_split_all_space. unfold parse_options.
  induction (str_split "," text) as [|piece pieces IH]; simpl.
  - split; [constructor | reflexivity].
  - destruct (nonempty (strip piece)) eqn:Hkeep; simpl.
    + split; [discriminate |]. intros H. inversion H as [|? ? Hp _]; subst.
      apply strip_all_space in Hp. now rewrite Hp in Hkeep.
    + rewrite IH. split.
      * intros H. constructor; [| exact H]. apply strip_all_space.
        now destruct (strip piece).
      * intros H. now inversion H.
Qed.

(** ** What makes the mock strategy fail *)

Lemma parse_options_of_blank (text : string) :
  blank_box text = true -> parse_options text = [].
Proof.
  intros Hblank. apply str_split_all_space in Hblank. unfold parse_options.
  induction Hblank as [|piece pieces Hp _ IH]; [reflexivity |].
  simpl. apply strip_all_space in Hp. now rewrite Hp.
Qed.

Lemma mock_raises_without_options (t : Template) (g : rng) :
  Exists (fun q => options q = []) t ->
  exists g', get_ai_suggestions_mock t g = (Raised IndexError, g').
Proof.
  intros Hex.
  destruct (first_without_options t Hex) as (t1 & q & t2 & -> & Ht1 & Hq).
  destruct (mock_returns t1 g Ht1) as (s1 & g1 & Hrun).
  exists g1. unfold get_ai_suggestions_mock in *. rewrite for_each_app.
  unfold bind at 1. rewrite Hrun. simpl.
  unfold bind, mock_step, bind. now rewrite Hq.
Qed.

Lemma options_cases (t : Template) :
  Forall (fun q => options q <> []) t \/ Exists (fun q => options q = []) t.
Proof.
  induction t as [|q t [IH|IH]].
  - left. constructor.
  - destruct (options q) as [|o os] eqn:Hq.
    + right. now left.
    + left. constructor; [congruence | exact IH].
  - right. now right.
Qed.

(** X3: the mock strategy fails only for want of options: whenever it
    raises, the exception is [IndexError] and some question of the template
    has no option. *)
Theorem mock_fails_only_without_options (t : Template) (g g' : rng) (e : exn) :
  get_ai_suggestions_mock t g = (Raised e, g') ->
  e = IndexError /\ Exists (fun q => options q = []) t.
Proof.
  intros Hrun. destruct (options_cases t) as [Hall|Hex].
  - destruct (mock_returns t g Hall) as (s & g1 & Hret). congruence.
  - split; [| exact Hex].
    destruct (mock_raises_without_options t g Hex) as (g1 & Hraise). congruence.
Qed.

Lemma mock_fails_only_without_options_witness :
  IndexError = IndexError /\
  Exists (fun q => options q = []) no_options_template.
Proof.
  apply (mock_fails_only_without_options no_options_template rng0
           (next_draw rng0) IndexError).
  reflexivity.
Defined.

(** X4: under a name that makes a file name and is not empty, the Create
    flow saves a template that has a question with a blank options box as
    it saves any other, the template loads back, and the mock strategy
    raises [IndexError] on it. *)
Theorem blank_box_breaks_mock (template_name : string)
    (rows : list (string * string)) (fs : filesystem) (g : rng) :
  template_dir fs ->
  plain_name template_name = true ->
  template_path fs (template_name +:+ ".json") ∉ dirs fs ->
  template_name <> "" ->
  Exists (fun row => blank_box (snd row) = true) rows ->
  exists fs' g',
    create_template template_name rows fs
    = (Returned (Some ("Template '" +:+ template_name +:+ "' saved!")), fs') /\
    load_template template_name fs'
    = (Returned (py_of_template (build_questions rows)), fs') /\
    get_ai_suggestions_mock (build_questions rows) g = (Raised IndexError, g').
Proof.
  intros Hdir Hplain Hfree Hname Hblank.
  assert (Hex : Exists (fun q => options q = []) (build_questions rows)).
  { unfold build_questions. apply Exists_fmap.
    eapply Exists_impl; [exact Hblank |].
    intros row Hrow. simpl. now apply parse_options_of_blank. }
  destruct (mock_raises_without_options _ g Hex) as (g' & Hmock).
  pose proof (save_load_template template_name (build_questions rows) fs
                Hdir Hplain Hfree) as Hround.
  unfold bind in Hround.
  rewrite save_template_run in Hround by assumption.
  eexists _, g'. split; [| split; [exact Hround | exact Hmock]].
  unfold create_template.
  assert (Hq : build_questions rows <> []).
  { intros Hnil. rewrite Hnil in Hex. inversion Hex. }
  rewrite bool_decide_eq_false_2 by exact Hq.
  destruct template_name; [contradiction |].
  cbn [nonempty andb negb]. unfold bind.
  rewrite save_template_run by assumption. reflexivity.
Qed.

Lemma blank_box_breaks_mock_witness :
  exists fs' g',
    create_template "rubric" sample_rows fresh_fs
    = (Returned (Some ("Template '" +:+ "rubric" +:+ "' saved!")), fs') /\
    load_template "rubric" fs'
    = (Returned (py_of_template (build_questions sample_rows)), fs') /\
    get_ai_suggestions_mock (build_questions sample_rows) rng0
    = (Raised IndexError, g').
Proof.
  apply (blank_box_breaks_mock "rubric" sample_rows fresh_fs rng0).
  - apply fresh_fs_template_dir.
  - reflexivity.
  - apply fresh_fs_no_subdir.
  - discriminate.
  - apply Exists_cons_tl, Exists_cons_hd. reflexivity.
Defined.

(** ** Showing an answer *)

Lemma replace_none old new s :
  str_in old s = false -> replace_from old new O s = s.
Proof.
  induction s as [|c s IH]; [reflexivity |].
  rewrite str_in_cons, replace_from_cons.
  destruct (String.prefix old (String c s)); [discriminate |].
  intros Hin. now rewrite IH.
Qed.

Lemma replace_option_at b :
  replace_from "Option:" "" O ("Option:" +:+ b) = replace_from "Option:" "" O b.
Proof.
  assert (H : String.prefix "Option:" (String "O" ("ption:" +:+ b)) = true)
    by apply (prefix_app "Option:" b).
  change ("Option:" +:+ b) with (String "O" ("ption:" +:+ b)).
  rewrite replace_from_cons, H. reflexivity.
Qed.

Lemma split_first_at sep a b :
  has_char sep a = false ->
  split_first sep (a +:+ String sep b) = (a, b).
Proof.
  induction a as [|c a IH]; simpl.
  - intros _. now rewrite Ascii.eqb_refl.
  - intros H. apply orb_false_iff in H as [Hc Ha].
    rewrite Hc, IH by exact Ha. reflexivity.
Qed.

Lemma str_in_newline a b : str_in nl (a +:+ String "010" b) = true.
Proof.
  induction a as [|c a IH].
  - rewrite app_empty_l, str_in_cons. unfold nl.
    now rewrite prefix_cons, prefix_empty.
  - rewrite app_String, str_in_cons.
    destruct (String.prefix _ _); [reflexivity | exact IH].
Qed.

Lemma strip_leading_space s : strip (String " " s) = strip s.
Proof.
  unfold strip.
  change (rstrip (String " " s))
    with (match rstrip s with
          | "" => ""
          | String a r => String " " (String a r)
          end).
  destruct (rstrip s); reflexivity.
Qed.

(** X5: Step 4 shows a suggestion of the mock strategy as its two parts:
    for a chosen option that has no white space around it, no line break
    and no text "Option:" inside, the suggestion shown is the option itself
    and the reason shown is the placeholder. *)
Theorem show_mock_answer (choice : string) :
  strip choice = choice ->
  has_char "010" choice = false ->
  str_in "Option:" choice = false ->
  show_answer (format_suggestion choice mock_reason)
  = (choice, Some mock_reason).
Proof.
  intros Htrim Hline Hword. unfold show_answer, format_suggestion, nl.
  change ("Option: " +:+ choice +:+ String "010" "" +:+ "Reason: "
          +:+ mock_reason)
    with ("Option: " +:+ (choice +:+ String "010" ("Reason: " +:+ mock_reason))).
  rewrite <- str_app_assoc.
  fold nl. rewrite str_in_newline.
  rewrite split_first_at
    by (rewrite has_char_app; now rewrite Hline).
  f_equal.
  change (str_replace ("Option: " +:+ choice) "Option:" "")
    with (replace_from "Option:" "" O ("Option:" +:+ String " " choice)).
  rewrite replace_option_at, replace_none.
  - now rewrite strip_leading_space.
  - rewrite str_in_cons, prefix_cons. exact Hword.
Qed.

Lemma show_mock_answer_witness :
  show_answer (format_suggestion "Partially" mock_reason)
  = ("Partially", Some mock_reason).
Proof. apply (show_mock_answer "Partially"); reflexivity. Defined.

(** An option with a line break inside is cut at the break. *)
Example show_answer_line_break :
  show_answer (format_suggestion (String "Y" (String "010" "es")) mock_reason)
  = ("Y", Some ("es" +:+ nl +:+ " " +:+ mock_reason)).
Proof. reflexivity. Qed.

(** ** The calls of the remote strategy *)

Lemma remote_answers_calls key G U imgs t w r w' :
  map_m (openrouter_answer key G U imgs) t w = (r, w') ->
  exists n,
    (n <= length t)%nat /\
    w' = {| net := net w;
            posted := posted w ++ map (request_for key G U imgs) (take n t);
            st_errors := st_errors w |} /\
    (forall answers, r = Returned answers -> n = length t) /\
    (forall e, r = Raised e -> (1 <= n)%nat).
Proof.
  revert w r w'. induction t as [|q t IH]; intros w r w'; simpl.
  - unfold ret. intros [= <- <-]. exists 0%nat.
    split; [lia |]. split; [| split; [reflexivity | discriminate]].
    destruct w. simpl. now rewrite app_nil_r.
  - unfold bind, ret. rewrite openrouter_answer_spec.
    destruct (answer_of _) as [a|e].
    + destruct (map_m _ t _) as [r1 w1] eqn:Hrest.
      apply IH in Hrest as (n & Hn & -> & Hret & Hraise).
      destruct r1 as [answers|e]; intros [= <- <-]; exists (S n);
        (split; [lia |]); simpl; rewrite <- app_assoc;
        (split; [reflexivity |]); split.
      * intros ? _. now rewrite (Hret answers eq_refl).
      * discriminate.
      * discriminate.
      * intros ? _. lia.
    + intros [= <- <-]. exists 1%nat. split; [lia |].
      split; [reflexivity |]. split; [discriminate | intros; lia].
Qed.

(** X6: with a credential set, the remote strategy makes its calls in
    template order, one per question and never a second one for a question:
    the calls made are the requests of the first [n] questions, of all of
    them when it returns and of at least one when it raises; it shows no
    error message. *)
Theorem remote_call_accounting (key : string) (t : Template)
    (guideline_text user_text : string)
    (image_descriptions : option (list string)) (w w' : world)
    (r : outcome (dict string)) :
  str_truthy (Some key) = true ->
  get_ai_suggestions_openrouter (Some key) t guideline_text user_text
    image_descriptions w = (r, w') ->
  exists n,
    (n <= length t)%nat /\
    posted w'
    = posted w
      ++ map (request_for key guideline_text user_text image_descriptions)
           (take n t) /\
    st_errors w' = st_errors w /\
    net w' = net w /\
    (forall s, r = Returned s -> n = length t) /\
    (forall e, r = Raised e -> (1 <= n)%nat).
Proof.
  intros Hkey Hrun. rewrite openrouter_as_assignments in Hrun by exact Hkey.
  unfold bind, ret in Hrun.
  destruct (map_m _ t w) as [r1 w1] eqn:Hanswers.
  apply remote_answers_calls in Hanswers as (n & Hn & -> & Hret & Hraise).
  exists n. split; [exact Hn |].
  destruct r1 as [answers|e]; injection Hrun as <- <-; simpl;
    repeat split; try discriminate.
  - intros s _. now apply (Hret answers).
  - intros e' _. now apply (Hraise e).
Qed.

Lemma remote_call_accounting_witness :
  exists n,
    (n <= length two_questions)%nat /\
    posted (snd (get_ai_suggestions_openrouter (Some "k") two_questions "g" "u"
                   None world_malformed))
    = posted world_malformed
      ++ map (request_for "k" "g" "u" None) (take n two_questions) /\
    st_errors (snd (get_ai_suggestions_openrouter (Some "k") two_questions
                      "g" "u" None world_malformed))
    = st_errors world_malformed /\
    net (snd (get_ai_suggestions_openrouter (Some "k") two_questions "g" "u"
                None world_malformed))
    = net world_malformed /\
    (forall s : dict string,
        Raised (KeyError "choices") = Returned s ->
        n = length two_questions) /\
    (forall e,
        @Raised (dict string) (KeyError "choices") = Raised e ->
        (1 <= n)%nat).
Proof.
  apply (remote_call_accounting "k" two_questions "g" "u" None world_malformed);
    reflexivity.
Defined.

Lemma remote_answers_abort key G U imgs t1 q t2 w e :
  (forall j q',
      t1 !! j = Some q' ->
      exists a,
        answer_of (call_outcome w j (request_for key G U imgs q'))
        = Returned a) ->
  answer_of (call_outcome w (length t1) (request_for key G U imgs q))
  = Raised e ->
  map_m (openrouter_answer key G U imgs) (t1 ++ q :: t2) w
  = (Raised e,
     {| net := net w;
        posted := posted w ++ map (request_for key G U imgs) (t1 ++ [q]);
        st_errors := st_errors w |}).
Proof.
  revert w. induction t1 as [|q0 t1 IH]; intros w Hbefore Hfail; simpl.
  - unfold bind. rewrite openrouter_answer_spec.
    unfold call_outcome in Hfail. simpl in Hfail.
    rewrite Nat.add_0_r in Hfail. now rewrite Hfail.
  - unfold bind. rewrite openrouter_answer_spec.
    destruct (Hbefore 0%nat q0 eq_refl) as (a & Ha).
    unfold call_outcome in Ha. rewrite Nat.add_0_r in Ha. rewrite Ha.
    rewrite IH.
    + simpl. now rewrite <- app_assoc.
    + intros j q' Hj. rewrite call_outcome_next. now apply (Hbefore (S j)).
    + rewrite call_outcome_next. exact Hfail.
Qed.

(** X7: an exception that the [try] block does not catch ends the whole
    run: when the calls of the questions before [q] end in answers and the
    call of [q] ends in an exception other than a [RequestException] (raised
    by the call, or by the reading of a reply with status 200), the strategy
    raises that exception, the answers computed so far are lost, and the
    questions after [q] are never asked. *)
Theorem remote_aborts_on_uncaught (key : string) (t1 : Template)
    (q : Question) (t2 : Template) (guideline_text user_text : string)
    (image_descriptions : option (list string)) (w : world) (e : exn) :
  str_truthy (Some key) = true ->
  (forall j q',
      t1 !! j = Some q' ->
      exists a,
        answer_of
          (call_outcome w j
             (request_for key guideline_text user_text image_descriptions q'))
        = Returned a) ->
  answer_of
    (call_outcome w (length t1)
       (request_for key guideline_text user_text image_descriptions q))
  = Raised e ->
  exists w',
    get_ai_suggestions_openrouter (Some key) (t1 ++ q :: t2) guideline_text
      user_text image_descriptions w = (Raised e, w') /\
    posted w'
    = posted w
      ++ map (request_for key guideline_text user_text image_descriptions)
           (t1 ++ [q]).
Proof.
  intros Hkey Hbefore Hfail. eexists. split.
  - rewrite openrouter_as_assignments by exact Hkey. unfold bind.
    rewrite (remote_answers_abort _ _ _ _ _ _ _ _ _ Hbefore Hfail).
    reflexivity.
  - reflexivity.
Qed.

Lemma remote_aborts_on_uncaught_witness :
  exists w',
    get_ai_suggestions_openrouter (Some "k")
      ([ {| question := "Q1"; options := ["a"; "b"] |} ]
       ++ {| question := "Q2"; options := ["c"] |}
       :: [ {| question := "Q3"; options := [] |} ])
      "g" "u" None world_malformed = (Raised (KeyError "choices"), w') /\
    posted w'
    = posted world_malformed
      ++ map (request_for "k" "g" "u" None)
           ([ {| question := "Q1"; options := ["a"; "b"] |} ]
            ++ [ {| question := "Q2"; options := ["c"] |} ]).
Proof.
  apply (remote_aborts_on_uncaught "k").
  - reflexivity.
  - intros [|j] q' Hj; simpl in Hj; [| discriminate].
    injection Hj as <-. eexists. reflexivity.
  - reflexivity.
Defined.

(** X8: a reply with status 200 gives an answer in one shape only: its body
    is an object whose "choices" is a list that starts with an object, whose
    "message" is an object, whose "content" is a string; the answer is that
    string without the white space around it.  Any other reply raises. *)
Theorem completion_text_accepts (resp : response) (a : string) :
  completion_text resp = Returned a <->
  exists body first rest message reply,
    json resp = Returned (PyDict body) /\
    dict_get "choices" body = Some (PyList (PyDict first :: rest)) /\
    dict_get "message" first = Some (PyDict message) /\
    dict_get "content" message = Some (PyStr reply) /\
    a = strip reply.
Proof.
  unfold completion_text, obind, py_getitem_str, py_getitem_0, py_strip.
  split.
  - destruct (json resp) as [[| | | | |items|body]|]; try discriminate.
    destruct (dict_get "choices" body) as [choices|] eqn:Hchoices;
      [| discriminate].
    destruct choices as [| | | |s|items|members]; try discriminate.
    + destruct s; discriminate.
    + destruct items as [|[| | | | |items'|first] rest]; try discriminate.
      destruct (dict_get "message" first) as [message|] eqn:Hmessage;
        [| discriminate].
      destruct message as [| | | | | |message]; try discriminate.
      destruct (dict_get "content" message) as [reply|] eqn:Hreply;
        [| discriminate].
      destruct reply as [| | | |reply| |]; try discriminate.
      intros [= <-]. exists body, first, rest, message, reply.
      repeat split; assumption.
  - intros (body & first & rest & message & reply & -> & -> & -> & -> & ->).
    reflexivity.
Qed.

(** ** The template store: one template at a time *)

Lemma template_file_inj M N : M <> N -> N +:+ ".json" <> M +:+ ".json".
Proof. intros Hne Heq. apply str_app_inv_tail in Heq. congruence. Qed.

Lemma load_template_lookup M fs1 fs2 :
  template_dir fs1 -> template_dir fs2 -> plain_name M = true ->
  cwd fs1 = cwd fs2 -> dirs fs1 = dirs fs2 ->
  files fs1 !! template_path fs1 (M +:+ ".json")
  = files fs2 !! template_path fs2 (M +:+ ".json") ->
  fst (load_template M fs1) = fst (load_template M fs2).
Proof.
  intros Hdir1 Hdir2 HM Hcwd Hdirs Heq.
  rewrite !load_template_plain by assumption. rewrite Heq.
  destruct (files fs2 !! _); [reflexivity |].
  unfold is_dir, template_path. rewrite Hcwd, Hdirs.
  now destruct (bool_decide _).
Qed.

(** X9: saving or deleting a template leaves every other template as it
    was: for names [N] and [M] that make file names, [M] other than [N],
    [load_template M] gives the same outcome after [save_template N] and
    after [delete_template N] as before. *)
Theorem other_templates_untouched (N M : string) (data : jsonval)
    (fs : filesystem) :
  template_dir fs ->
  plain_name N = true -> plain_name M = true ->
  M <> N ->
  fst (load_template M (snd (save_template N data fs)))
  = fst (load_template M fs) /\
  fst (load_template M (snd (delete_template N fs)))
  = fst (load_template M fs).
Proof.
  intros Hdir HN HM Hne. apply template_file_inj in Hne.
  assert (Hkey : template_path fs (N +:+ ".json")
                 <> template_path fs (M +:+ ".json")).
  { intros Heq. now apply template_path_inj in Heq. }
  split.
  - rewrite save_template_plain by assumption.
    destruct (is_dir fs _); [reflexivity |].
    apply load_template_lookup; try assumption; try reflexivity.
    change (template_path (put_file _ _ fs)) with (template_path fs).
    cbn [snd put_file files]. now apply lookup_insert_ne.
  - rewrite delete_template_plain by assumption.
    destruct (files fs !! template_path fs (N +:+ ".json"));
      [| now destruct (is_dir fs _)].
    apply load_template_lookup; try assumption; try reflexivity.
    change (template_path (drop_file _ fs)) with (template_path fs).
    cbn [snd drop_file files]. now apply lookup_delete_ne.
Qed.

Lemma other_templates_untouched_witness :
  fst (load_template "essay"
         (snd (save_template "quiz" (py_of_template dup_template) store_essay)))
  = fst (load_template "essay" store_essay) /\
  fst (load_template "essay" (snd (delete_template "quiz" store_essay)))
  = fst (load_template "essay" store_essay).
Proof.
  apply (other_templates_untouched "quiz" "essay").
  - apply fresh_fs_template_dir.
  - reflexivity.
  - reflexivity.
  - discriminate.
Defined.

(** The same names written with a step through the directory itself are
    other names for the same file: saving under "./essay" replaces the
    template "essay". *)
Example other_name_same_file :
  "./essay" <> "essay" /\
  fst (load_template "essay"
         (snd (save_template "./essay" (py_of_template dup_template)
                 store_essay)))
  = Returned (py_of_template dup_template).
Proof. split; [discriminate | vm_compute; reflexivity]. Qed.

Lemma put_then_drop k data fs :
  files fs !! k = None -> drop_file k (put_file k data fs) = fs.
Proof.
  intros Hnone. destruct fs as [fl ds wd]. unfold drop_file, put_file.
  simpl in *. f_equal. rewrite delete_insert_eq. now apply delete_id.
Qed.

(** X10: saving a template under a name that makes a file name and was
    free, and deleting it again, gives back the file system as it was, and
    a second delete then fails with [FileNotFoundError]. *)
Theorem save_then_delete_restores (N : string) (data : jsonval)
    (fs : filesystem) :
  template_dir fs ->
  plain_name N = true ->
  files fs !! template_path fs (N +:+ ".json") = None ->
  template_path fs (N +:+ ".json") ∉ dirs fs ->
  (let! _ := save_template N data in delete_template N) fs
  = (Returned tt, fs) /\
  (let! _ := save_template N data in
   let! _ := delete_template N in
   delete_template N) fs
  = (Raised (FileNotFoundError (os_path_join TEMPLATE_DIR (N +:+ ".json"))),
     fs).
Proof.
  intros Hdir HN Hnone Hfree.
  assert (Hback : (let! _ := save_template N data in delete_template N) fs
                  = (Returned tt, fs)).
  { unfold bind. rewrite save_template_run by assumption.
    rewrite delete_template_plain by assumption.
    change (template_path (put_file _ _ fs)) with (template_path fs).
    cbn [put_file files]. rewrite lookup_insert_eq.
    now rewrite (put_then_drop _ _ fs). }
  split; [exact Hback |].
  unfold bind in *. rewrite save_template_run in * by assumption.
  rewrite Hback. now apply delete_template_missing.
Qed.

Lemma save_then_delete_restores_witness :
  (let! _ := save_template "quiz" (py_of_template dup_template) in
   delete_template "quiz") store_essay = (Returned tt, store_essay) /\
  (let! _ := save_template "quiz" (py_of_template dup_template) in
   let! _ := delete_template "quiz" in
   delete_template "quiz") store_essay
  = (Raised (FileNotFoundError
               (os_path_join TEMPLATE_DIR ("quiz" +:+ ".json"))),
     store_essay).
Proof.
  apply (save_then_delete_restores "quiz").
  - apply fresh_fs_template_dir.
  - reflexivity.
  - vm_compute. reflexivity.
  - apply fresh_fs_no_subdir.
Defined.

(** ** The template store with plain names *)

Lemma plain_store_name fs N :
  plain_store fs ->
  is_Some (files fs !! template_path fs (N +:+ ".json")) ->
  str_in ".json" N = false /\ plain_name N = true.
Proof.
  intros (_ & _ & Hfiles) Hf.
  destruct (Hfiles _ Hf) as (N' & Heq & Hin & Hname).
  apply str_app_inv_tail in Heq. now subst N'.
Qed.

Lemma plain_store_listed fs :
  plain_store fs ->
  forall N,
    (exists f, (is_Some (files fs !! template_path fs f) \/
                template_path fs f ∈ dirs fs) /\
               endswith f ".json" = true /\ N = listed_as f) <->
    is_Some (files fs !! template_path fs (N +:+ ".json")).
Proof.
  intros Hplain N. pose proof Hplain as (_ & Hflat & Hfiles). split.
  - intros (f & [Hf|Hd] & _ & ->); [| now apply Hflat in Hd].
    destruct (Hfiles f Hf) as (N' & -> & HN' & _).
    unfold listed_as. now rewrite listed_name_plain.
  - intros Hf. exists (N +:+ ".json"). split; [now left |].
    split; [apply endswith_app |].
    destruct (plain_store_name fs N Hplain Hf) as [HN _].
    unfold listed_as. now rewrite listed_name_plain.
Qed.

Lemma json_loads_raises s e : json_loads s = Raised e -> e = JSONDecodeError.
Proof.
  unfold json_loads.
  destruct (parse_value _ _) as [[v rest]|]; [| now intros [= <-]].
  destruct (skip_ws rest); [discriminate | now intros [= <-]].
Qed.

(** X11: in a store whose template names do not contain the extension,
    [list_templates] gives each stored name once, the names it gives are
    exactly the stored ones, and loading a listed name never fails with
    [FileNotFoundError]. *)
Theorem plain_store_listing (fs : filesystem) :
  plain_store fs ->
  exists names,
    list_templates fs = (Returned names, fs) /\
    NoDup names /\
    (forall N, N ∈ names <->
               is_Some (files fs !! template_path fs (N +:+ ".json"))) /\
    (forall N path,
        N ∈ names ->
        fst (load_template N fs) <> Raised (FileNotFoundError path)).
Proof.
  intros Hplain. pose proof Hplain as (Hdir & Hflat & Hfiles).
  destruct (list_templates_spec fs Hdir) as (names & Hrun & Hspec).
  assert (Hiff : forall N, N ∈ names <->
                           is_Some (files fs !! template_path fs (N +:+ ".json"))).
  { intros N. rewrite Hspec. now apply plain_store_listed. }
  exists names. split; [exact Hrun |]. split; [| split; [exact Hiff |]].
  - unfold list_templates, bind, os_listdir, ret in Hrun.
    rewrite resolve_template_dir, is_dir_true in Hrun by exact Hdir.
    injection Hrun as <-.
    apply NoDup_fmap_2_strong.
    + intros x y Hx Hy Heq.
      apply list_elem_of_In, filter_In in Hx as [Hx _].
      apply list_elem_of_In, filter_In in Hy as [Hy _].
      apply list_elem_of_In, children_spec in Hx, Hy.
      rewrite template_path_snoc in Hx, Hy.
      destruct Hx as [Hx|Hx]; [| now apply Hflat in Hx].
      destruct Hy as [Hy|Hy]; [| now apply Hflat in Hy].
      destruct (Hfiles x Hx) as (Nx & -> & HNx & _).
      destruct (Hfiles y Hy) as (Ny & -> & HNy & _).
      change (listed_as (Nx +:+ ".json") = listed_as (Ny +:+ ".json")) in Heq.
      unfold listed_as in Heq.
      rewrite !listed_name_plain in Heq by assumption. now subst.
    + apply NoDup_ListNoDup, List.NoDup_filter, NoDup_ListNoDup.
      apply children_NoDup. intros c. rewrite template_path_snoc.
      apply Hflat.
  - intros N path HN Hload. apply Hiff in HN.
    destruct (plain_store_name fs N Hplain HN) as [_ Hname].
    destruct HN as [data Hdata].
    rewrite load_template_plain, Hdata in Hload by assumption.
    simpl in Hload. apply json_loads_raises in Hload. discriminate.
Qed.

Lemma store_essay_plain : plain_store store_essay.
Proof.
  split; [apply fresh_fs_template_dir |].
  split; [apply fresh_fs_no_subdir |].
  intros f [v Hv].
  change (template_path store_essay f) with (template_path fresh_fs f) in Hv.
  unfold store_essay in Hv. cbn [put_file files] in Hv.
  change (files fresh_fs) with (∅ : gmap path string) in Hv.
  rewrite insert_empty in Hv.
  apply lookup_singleton_Some in Hv as [Hkey _].
  change ["app"; "templates"; "essay.json"]
    with (template_path fresh_fs "essay.json") in Hkey.
  apply template_path_inj in Hkey as <-.
  exists "essay". now repeat split.
Qed.

Lemma plain_store_listing_witness :
  exists names,
    list_templates store_essay = (Returned names, store_essay) /\
    NoDup names /\
    (forall N, N ∈ names <->
               is_Some (files store_essay
                        !! template_path store_essay (N +:+ ".json"))) /\
    (forall N path,
        N ∈ names ->
        fst (load_template N store_essay) <> Raised (FileNotFoundError path)).
Proof.
  apply (plain_store_listing store_essay). apply store_essay_plain.
Defined.

(** X12: in such a store, after a successful [delete_template N] for a
    name [N] that makes a file name, [N] is no longer listed, every other
    name is listed exactly when it was stored before, and the store is
    still one with plain names. *)
Theorem plain_store_delete (N : string) (fs fs' : filesystem) :
  plain_store fs ->
  plain_name N = true ->
  delete_template N fs = (Returned tt, fs') ->
  plain_store fs' /\
  exists names,
    list_templates fs' = (Returned names, fs') /\
    (N ∉ names) /\
    (forall M, M <> N ->
               (M ∈ names <->
                is_Some (files fs !! template_path fs (M +:+ ".json")))).
Proof.
  intros Hplain HN Hdel. pose proof Hplain as (Hdir & Hflat & Hfiles).
  apply delete_template_returned in Hdel as [_ ->]; [| assumption ..].
  set (fs' := drop_file (template_path fs (N +:+ ".json")) fs).
  assert (Hplain' : plain_store fs').
  { split; [exact Hdir |]. split; [exact Hflat |].
    intros f Hf. change (template_path fs') with (template_path fs) in Hf.
    unfold fs' in Hf. cbn [drop_file files] in Hf.
    apply lookup_delete_is_Some in Hf as [_ Hf]. now apply Hfiles. }
  split; [exact Hplain' |].
  destruct (list_templates_spec fs' Hdir) as (names & Hrun & Hspec).
  exists names. split; [exact Hrun |]. split.
  - intros Hin. apply Hspec, (plain_store_listed _ Hplain') in Hin.
    change (template_path fs') with (template_path fs) in Hin.
    unfold fs' in Hin. cbn [drop_file files] in Hin.
    rewrite lookup_delete_eq in Hin. now destruct Hin.
  - intros M Hne. rewrite Hspec, (plain_store_listed _ Hplain').
    change (template_path fs') with (template_path fs).
    unfold fs'. cbn [drop_file files].
    rewrite lookup_delete_ne; [reflexivity |].
    intros Heq. apply template_path_inj in Heq.
    now apply (template_file_inj M N).
Qed.

Lemma plain_store_delete_witness :
  plain_store (drop_file ["app"; "templates"; "essay.json"] store_essay) /\
  exists names,
    list_templates (drop_file ["app"; "templates"; "essay.json"] store_essay)
    = (Returned names,
       drop_file ["app"; "templates"; "essay.json"] store_essay) /\
    ("essay" ∉ names) /\
    (forall M, M <> "essay" ->
               (M ∈ names <->
                is_Some (files store_essay
                         !! template_path store_essay (M +:+ ".json")))).
Proof.
  apply (plain_store_delete "essay" store_essay).
  - apply store_essay_plain.
  - reflexivity.
  - vm_compute. reflexivity.
Defined.

(** Without the condition on the name the statement fails: deleting
    "./essay" takes the template "essay" away. *)
Example delete_other_name_same_file :
  exists fs',
    delete_template "./essay" store_essay = (Returned tt, fs') /\
    fst (list_templates fs') = Returned [].
Proof. eexists. split; vm_compute; reflexivity. Qed.

(** X13: in such a store, after [save_template N] for a name [N] that
    makes a file name and does not contain the extension, [N] is listed,
    every other name is listed exactly when it was stored before, and the
    store is still one with plain names. *)
Theorem plain_store_save (N : string) (data : jsonval) (fs : filesystem) :
  plain_store fs ->
  plain_name N = true ->
  str_in ".json" N = false ->
  exists fs' names,
    save_template N data fs = (Returned tt, fs') /\
    plain_store fs' /\
    list_templates fs' = (Returned names, fs') /\
    N ∈ names /\
    (forall M, M <> N ->
               (M ∈ names <->
                is_Some (files fs !! template_path fs (M +:+ ".json")))).
Proof.
  intros Hplain Hname HN. pose proof Hplain as (Hdir & Hflat & Hfiles).
  set (fs' := put_file (template_path fs (N +:+ ".json")) (json_dumps data)
                fs).
  assert (Hplain' : plain_store fs').
  { split; [exact Hdir |]. split; [exact Hflat |].
    intros f Hf. change (template_path fs') with (template_path fs) in Hf.
    unfold fs' in Hf. cbn [put_file files] in Hf.
    apply lookup_insert_is_Some in Hf as [Heq|[_ Hf]].
    - apply template_path_inj in Heq as <-. now exists N.
    - now apply Hfiles. }
  destruct (list_templates_spec fs' Hdir) as (names & Hrun & Hspec).
  exists fs', names.
  split; [apply save_template_run; [assumption .. | apply Hflat] |].
  split; [exact Hplain' |]. split; [exact Hrun |]. split.
  - apply Hspec, (plain_store_listed _ Hplain').
    change (template_path fs') with (template_path fs).
    unfold fs'. cbn [put_file files]. rewrite lookup_insert_eq. eauto.
  - intros M Hne. rewrite Hspec, (plain_store_listed _ Hplain').
    change (template_path fs') with (template_path fs).
    unfold fs'. cbn [put_file files].
    rewrite lookup_insert_ne; [reflexivity |].
    intros Heq. apply template_path_inj in Heq.
    now apply (template_file_inj M N).
Qed.

Lemma plain_store_save_witness :
  exists fs' names,
    save_template "quiz" (py_of_template dup_template) store_essay
    = (Returned tt, fs') /\
    plain_store fs' /\
    list_templates fs' = (Returned names, fs') /\
    "quiz" ∈ names /\
    (forall M, M <> "quiz" ->
               (M ∈ names <->
                is_Some (files store_essay
                         !! template_path store_essay (M +:+ ".json")))).
Proof.
  apply (plain_store_save "quiz" (py_of_template dup_template) store_essay).
  - apply store_essay_plain.
  - reflexivity.
  - reflexivity.
Defined.
(** ** The file of a template *)

Lemma str_forall_app p s t :
  str_forall p (s +:+ t) = str_forall p s && str_forall p t.
Proof.
  induction s as [|c s IH]; [reflexivity |].
  rewrite app_String. simpl. rewrite IH. now rewrite andb_assoc.
Qed.

Lemma hex_digit_file_char k : is_file_char (hex_digit k) = true.
Proof. do 16 (destruct k as [|k]; [reflexivity |]). reflexivity. Qed.

Lemma u_escape_file_chars n : str_forall is_file_char (u_escape n) = true.
Proof.
  unfold u_escape, hex4_of. cbn [str_forall].
  now rewrite !hex_digit_file_char.
Qed.

Lemma escape_char_file_chars c : str_forall is_file_char (escape_char c) = true.
Proof.
  unfold escape_char.
  destruct (c =? 34)%N; [reflexivity |].
  destruct (c =? 92)%N; [reflexivity |].
  destruct (c =? 8)%N; [reflexivity |].
  destruct (c =? 12)%N; [reflexivity |].
  destruct (c =? 10)%N; [reflexivity |].
  destruct (c =? 13)%N; [reflexivity |].
  destruct (c =? 9)%N; [reflexivity |].
  destruct ((32 <=? c) && (c <=? 126))%N eqn:Hprint.
  - apply andb_true_iff in Hprint as [Hlo Hhi].
    apply N.leb_le in Hlo, Hhi.
    cbn [str_forall]. rewrite andb_true_r.
    unfold is_file_char, is_printable, nat_of_ascii.
    rewrite N_ascii_embedding by lia.
    apply orb_true_intro. left.
    apply andb_true_iff. split; apply Nat.leb_le; lia.
  - destruct (c <? 0x10000)%N; [apply u_escape_file_chars |].
    cbv zeta. now rewrite str_forall_app, !u_escape_file_chars.
Qed.

Lemma encode_basestring_ascii_file_chars s :
  str_forall is_file_char (encode_basestring_ascii s) = true.
Proof.
  unfold encode_basestring_ascii.
  change (str_forall is_file_char (String dquote ?x))
    with (str_forall is_file_char x).
  rewrite str_forall_app, andb_true_r.
  induction s as [|c s IH]; [reflexivity |].
  simpl escape_chars. now rewrite str_forall_app, escape_char_file_chars.
Qed.

Lemma newline_indent_file_chars level :
  str_forall is_file_char (newline_indent level) = true.
Proof.
  unfold newline_indent. rewrite str_forall_app.
  induction (2 * level)%nat as [|n IH]; [reflexivity | exact IH].
Qed.

Lemma str_join_file_chars sep xs :
  str_forall is_file_char sep = true ->
  Forall (fun x => str_forall is_file_char x = true) xs ->
  str_forall is_file_char (str_join sep xs) = true.
Proof.
  intros Hsep. induction 1 as [|x xs Hx Hxs IH]; [reflexivity |].
  destruct xs as [|y xs]; [exact Hx |].
  change (str_join sep (x :: y :: xs))
    with (x +:+ sep +:+ str_join sep (y :: xs)).
  now rewrite !str_forall_app, Hx, Hsep, IH.
Qed.

Lemma json_encode_list_file_chars level vs :
  Forall (fun v => str_forall is_file_char (json_encode (S level) v) = true)
    vs ->
  str_forall is_file_char (json_encode level (JList vs)) = true.
Proof.
  intros Hvs. destruct vs as [|v vs]; [reflexivity |].
  rewrite json_encode_list, !str_forall_app.
  rewrite !newline_indent_file_chars, str_join_file_chars; [reflexivity | |].
  - now rewrite str_forall_app, newline_indent_file_chars.
  - apply Forall_fmap. exact Hvs.
Qed.

Lemma json_encode_question_file_chars level q :
  str_forall is_file_char (json_encode level (py_of_wide_question q)) = true.
Proof.
  rewrite json_encode_question, !str_forall_app.
  rewrite !encode_basestring_ascii_file_chars, !newline_indent_file_chars.
  rewrite json_encode_list_file_chars; [reflexivity |].
  apply Forall_fmap, Forall_forall. intros o _.
  apply encode_basestring_ascii_file_chars.
Qed.

Lemma json_dumps_template_file_chars (T : WideTemplate) :
  str_forall is_file_char (json_dumps (py_of_wide_template T)) = true.
Proof.
  unfold json_dumps, py_of_wide_template. apply json_encode_list_file_chars.
  apply Forall_fmap, Forall_forall. intros q _.
  apply json_encode_question_file_chars.
Qed.

(** X14: whatever code points the texts of a template hold and whatever
    the name is, when [save_template] returns it has written one file, and
    that file holds printable ASCII characters and newlines only. *)
Theorem saved_file_is_ascii (N : string) (T : WideTemplate)
    (fs fs' : filesystem) :
  save_template N (py_of_wide_template T) fs = (Returned tt, fs') ->
  exists k data,
    fs' = put_file k data fs /\ str_forall is_file_char data = true.
Proof.
  unfold save_template, write_file.
  destruct (resolve fs _) as [k|e]; [| discriminate].
  destruct (is_dir fs k); [discriminate |].
  intros [= <-]. exists k, (json_dumps (py_of_wide_template T)).
  split; [reflexivity | apply json_dumps_template_file_chars].
Qed.

Lemma saved_file_is_ascii_witness :
  exists k data,
    put_file ["app"; "essay.json"]
      (json_dumps
         (py_of_wide_template
            [ {| wide_question := [0x1f600; 0x4e2d; 233; 10]%N;
                 wide_options := [[0xd83d]%N; codes "Yes"] |} ]))
      fresh_fs
    = put_file k data fresh_fs /\
    str_forall is_file_char data = true.
Proof.
  apply (saved_file_is_ascii "../essay"
           [ {| wide_question := [0x1f600; 0x4e2d; 233; 10]%N;
                wide_options := [[0xd83d]%N; codes "Yes"] |} ]
           fresh_fs).
  vm_compute. reflexivity.
Defined.
(** ** The upload step *)

Lemma guideline_fallback (file : pdf_upload) (l : extractor_log) :
  str_truthy (extract_text_from_pdf file) = false ->
  guideline_text_of_pdf file l
  = ((let? t := ocr_outcome file in Returned (Some t)), log_fallback l).
Proof.
  intros Hno. unfold guideline_text_of_pdf. rewrite Hno. simpl.
  unfold bind, st_warning, ocr_pdf, ret, ocr_outcome, log_fallback. simpl.
  destruct (ocr_pages file) as [images|e]; simpl; [| reflexivity].
  destruct (concat_image_text images ""); reflexivity.
Qed.

(** X15: the upload step raises only what the OCR pass or the DOCX reader
    raised.  For a name that ends with ".pdf" an exception comes from the
    OCR pass, run because direct extraction gave no text; what [PdfReader]
    raised never comes out.  For any other name the exception is the one of
    the DOCX reader, and no OCR pass was run. *)
Theorem upload_guideline_raises (file : uploaded_file) (l l' : extractor_log)
    (e : exn) :
  upload_guideline file l = (Raised e, l') ->
  (endswith (name file) ".pdf" = true /\
   str_truthy (extract_text_from_pdf (pdf file)) = false /\
   ocr_outcome (pdf file) = Raised e /\
   l' = log_fallback l) \/
  (endswith (name file) ".pdf" = false /\
   docx_paragraphs file = Raised e /\
   l' = l).
Proof.
  unfold upload_guideline. destruct (endswith (name file) ".pdf").
  - intros Hrun. left. split; [reflexivity |].
    destruct (str_truthy (extract_text_from_pdf (pdf file))) eqn:Htext.
    + unfold guideline_text_of_pdf in Hrun. rewrite Htext in Hrun.
      discriminate Hrun.
    + rewrite guideline_fallback in Hrun by exact Htext.
      split; [reflexivity |].
      destruct (ocr_outcome (pdf file)); [discriminate |].
      injection Hrun as -> <-. now split.
  - intros Hrun. right. split; [reflexivity |].
    unfold bind, lift, extract_text_from_docx in Hrun.
    destruct (docx_paragraphs file); [discriminate |].
    injection Hrun as -> <-. now split.
Qed.

Lemma upload_guideline_raises_witness :
  let file := {| name := "scan.pdf";
                 pdf := {| pdf_reader := Raised (OtherError "not a PDF");
                           ocr_pages := Raised (OtherError "no poppler") |};
                 docx_paragraphs := Returned [] |} in
  let l := {| st_warnings := []; ocr_calls := 0 |} in
  (endswith (name file) ".pdf" = true /\
   str_truthy (extract_text_from_pdf (pdf file)) = false /\
   ocr_outcome (pdf file) = Raised (OtherError "no poppler") /\
   log_fallback l = log_fallback l) \/
  (endswith (name file) ".pdf" = false /\
   docx_paragraphs file = Raised (OtherError "no poppler") /\
   log_fallback l = l).
Proof.
  apply (upload_guideline_raises
           {| name := "scan.pdf";
              pdf := {| pdf_reader := Raised (OtherError "not a PDF");
                        ocr_pages := Raised (OtherError "no poppler") |};
              docx_paragraphs := Returned [] |}
           {| st_warnings := []; ocr_calls := 0 |}).
  reflexivity.
Defined.

(** ** The Delete flow *)

(** X16: in a store whose template names do not contain the extension, the
    Delete flow cannot fail: [delete_template] of any name that
    [list_templates] gave returns, and takes away the file of that name and
    nothing else. *)
Theorem delete_listed_returns (fs : filesystem) (names : list string)
    (N : string) :
  plain_store fs ->
  list_templates fs = (Returned names, fs) ->
  N ∈ names ->
  delete_template N fs
  = (Returned tt, drop_file (template_path fs (N +:+ ".json")) fs).
Proof.
  intros Hplain Hrun HN. pose proof Hplain as (Hdir & _ & _).
  destruct (list_templates_spec fs Hdir) as (names' & Hrun' & Hspec).
  rewrite Hrun in Hrun'. injection Hrun' as <-.
  apply Hspec, plain_store_listed in HN; [| exact Hplain].
  destruct (plain_store_name fs N Hplain HN) as [_ Hname].
  destruct HN as [v Hv].
  rewrite delete_template_plain by assumption. now rewrite Hv.
Qed.

Lemma delete_listed_returns_witness :
  delete_template "essay" store_essay
  = (Returned tt,
     drop_file (template_path store_essay ("essay" +:+ ".json")) store_essay).
Proof.
  apply (delete_listed_returns store_essay ["essay"]).
  - apply store_essay_plain.
  - vm_compute. reflexivity.
  - apply list_elem_of_here.
Defined.
